(** * Position/tranche reconciliation and close engine

    A shallow embedding of [src/api/routes/position_routes.py]: the read
    route [get_position_details] and the write route [close_position].

    Conventions of the embedding.
    - Python floats are modelled by the rationals [Q]: arithmetic is exact,
      rounding of binary64 is not modelled.  [float(d.get(k, 0))] becomes
      [default 0 (field d)], the field holding [None] when the key is absent.
    - Dicts coming from the exchange or from SQLite rows are records whose
      optional keys and nullable columns are [option]s; a dict that the code
      builds key by key ([order_data], [order_statuses]) is a [gmap].
    - Python sets of order ids are [gset string].
    - The exchange, the configuration module and [insert_trade] are external:
      their answers are read from an environment [Env]; every call made to
      them, and every ledger statement executed, is recorded in a trace.
    - Inputs are well formed: every position of the exchange carries its
      [symbol], numerals convert under [float], and the ledger statements
      themselves do not fail.  What can fail is modelled: a request that
      raises, an answer that is not 200, a body that is not JSON, a missing
      configuration, a cached order without quantity, a division by
      zero, a ledger write that raises. *)

From Stdlib Require Import QArith Qabs.
From stdpp Require Import gmap strings list sorting.

Local Open Scope Q_scope.
Local Open Scope string_scope.

(** ** Numbers and Python values *)

(** [x < y] on floats, as a boolean. *)
Definition Qltb (x y : Q) : bool := negb (Qle_bool y x).

(** [x != y] on floats. *)
Definition Qneb (x y : Q) : bool := negb (Qeq_bool x y).

(** Python's builtin [sum]: starts from 0 and adds from left to right. *)
Definition py_sum (xs : list Q) : Q := fold_left Qplus xs 0.

(** The values a JSON or SQLite cell can hold where the code does not
    convert them.  [PyRepr q] is the string [str(q)] of a float [q]; the
    digits Python prints are not modelled. *)
Inductive PyVal :=
| PyNone
| PyStr (s : string)
| PyNum (q : Q)
| PyRepr (q : Q).

(** Truth value of a Python object. *)
Definition truthy (v : PyVal) : bool :=
  match v with
  | PyNone => false
  | PyStr s => negb (String.eqb s "")
  | PyNum q => Qneb q 0
  | PyRepr _ => true
  end.

(** [a or b]. *)
Definition py_or (a b : PyVal) : PyVal := if truthy a then a else b.

(** Truth value of an order id read with [.get]: [None] and the empty
    string are false. *)
Definition truthy_id (v : option string) : bool :=
  match v with
  | Some s => negb (String.eqb s "")
  | None => false
  end.

(** [sub in s] on strings. *)
Fixpoint contains (sub s : string) : bool :=
  String.prefix sub s ||
  match s with
  | EmptyString => false
  | String _ rest => contains sub rest
  end.

(** ** Data model *)

(** One element of the [positionRisk] answer.  Numeric fields hold the
    value [float] gives for them. *)
Record Position := {
  pos_symbol : string;
  pos_positionAmt : option Q;
  pos_entryPrice : option Q;
  pos_markPrice : option Q;
  pos_leverage : option Q;
  pos_initialMargin : option Q;
  pos_positionSide : option string
}.

(** One element of the [openOrders] answer. *)
Record OpenOrder := {
  oo_orderId : option string;
  oo_type : option string;
  oo_status : option string;
  oo_origQty : option Q;
  oo_price : PyVal;
  oo_stopPrice : PyVal;
  oo_side : option string;
  oo_executedQty : option Q
}.

(** The answer to the order submission. *)
Record OrderResult := {
  or_orderId : option string;
  or_avgPrice : option PyVal
}.

(** A row of [position_tranches] (the columns [pt.*]).  [pt_unrealized_pnl]
    is [None] when the row dict has no such key. *)
Record TrancheRow := {
  pt_tranche_id : Z;
  pt_symbol : string;
  pt_position_side : string;
  pt_total_quantity : Q;
  pt_avg_entry_price : Q;
  pt_tp_order_id : option string;
  pt_sl_order_id : option string;
  pt_unrealized_pnl : option Q
}.

(** A row of [trades]. *)
Record Trade := {
  tr_order_id : string;
  tr_symbol : string;
  tr_side : string;
  tr_order_type : option string;
  tr_parent_order_id : option string;
  tr_tranche_id : option Z;
  tr_filled_qty : option Q;
  tr_avg_price : option Q;
  tr_status : option string;
  tr_timestamp : Z
}.

(** A row of [order_relationships]. *)
Record OrderRelationship := {
  rel_symbol : string;
  rel_position_side : option string;
  rel_tranche_id : option Z;
  rel_tp_order_id : option string;
  rel_sl_order_id : option string;
  rel_created_at : Z
}.

(** A row of [order_status]. *)
Record OrderStatusRow := {
  os_order_id : string;
  os_symbol : string;
  os_side : option string;
  os_quantity : option Q;
  os_price : option Q;
  os_position_side : option string;
  os_status : option string
}.

(** The ledger.  [tbl_position_tranches] is [None] when the table does not
    exist ([sqlite_master] has no row for it). *)
Record Ledger := {
  tbl_position_tranches : option (list TrancheRow);
  tbl_trades : list Trade;
  tbl_order_relationships : list OrderRelationship;
  tbl_order_status : list OrderStatusRow
}.

(** An HTTP response: [json] is [None] when [response.json()] raises. *)
Record Response (A : Type) := {
  status_code : Z;
  json : option A;
  text : string
}.
Arguments status_code {A} _.
Arguments json {A} _.
Arguments text {A} _.

(** [src.utils.config.config]. *)
Record SymbolSettings := { ss_leverage : option Q }.

Record Config := {
  SYMBOL_SETTINGS : gmap string SymbolSettings;
  SIMULATE_ONLY : bool
}.

(** ** Effects: a trace of external calls, and exceptions *)

(** The statements [conn.execute] runs in the read route. *)
Inductive Statement :=
| SelectTableExists
| SelectTranches (symbol side : string)
| SelectLatestRelationship (symbol side : string) (tranche_id : Z)
| SelectTrades (symbol side : string)
| SelectRelationships (symbol side : string)
| SelectOrderStatus (symbol : string) (ids : gset string).

(** The arguments of the [insert_trade] call of [close_position]. *)
Record InsertTradeArgs := {
  it_symbol : string;
  it_order_id : string;
  it_side : string;
  it_qty : Q;
  it_price : Q;
  it_status : string;
  it_response : OrderResult;
  it_order_type : string;
  it_parent_order_id : option string;
  it_filled_qty : Q;
  it_avg_price : PyVal
}.

Inductive Event :=
| GET_positionRisk
| GET_openOrders (symbol : string)
| POST_order (order_data : gmap string PyVal)
| Execute (stmt : Statement)
| InsertTrade (args : InsertTradeArgs).

(** An exchange call is one of the three [make_authenticated_request]s. *)
Definition is_exchange_call (e : Event) : bool :=
  match e with
  | GET_positionRisk | GET_openOrders _ | POST_order _ => true
  | Execute _ | InsertTrade _ => false
  end.

Definition is_order_submission (e : Event) : bool :=
  match e with POST_order _ => true | _ => false end.

Definition is_ledger_write (e : Event) : bool :=
  match e with InsertTrade _ => true | _ => false end.

Inductive Outcome (A : Type) :=
| Returns (a : A)
| Raises.
Arguments Returns {A} a.
Arguments Raises {A}.

(** A computation: the events it produced, in order, and how it ended. *)
Definition Run (A : Type) : Type := list Event * Outcome A.

Definition ret {A} (a : A) : Run A := ([], Returns a).

Definition raise {A} : Run A := ([], Raises).

Definition emit (e : Event) : Run unit := ([e], Returns tt).

Definition bind {A B} (m : Run A) (k : A → Run B) : Run B :=
  match m with
  | (t, Returns a) => let '(t', o) := k a in ((t ++ t')%list, o)
  | (t, Raises) => (t, Raises)
  end.

(** [try: m except: h]. *)
Definition try_except {A} (m : Run A) (h : Run A) : Run A :=
  match m with
  | (t, Raises) => let '(t', o) := h in ((t ++ t')%list, o)
  | (_, Returns _) => m
  end.

Notation "x <~ m ;; k" := (bind m (λ x, k))
  (at level 20, m at level 99, k at level 200, only parsing).
Notation "m ;;; k" := (bind m (λ _, k))
  (at level 99, k at level 200, only parsing, right associativity).

Definition trace {A} (m : Run A) : list Event := fst m.
Definition outcome {A} (m : Run A) : Outcome A := snd m.

(** [for x in xs: x = body(x)], collecting the updated elements. *)
Fixpoint for_each {A B} (body : A → Run B) (xs : list A) : Run (list B) :=
  match xs with
  | [] => ret []
  | x :: rest =>
      y <~ body x ;;
      ys <~ for_each body rest ;;
      ret (y :: ys)
  end.

(** ** Environment *)

(** Everything the two routes read from outside.  An exchange answer of
    [None] is a request that raises (transport error). *)
Record Env := {
  API_KEY : option string;
  API_SECRET : option string;
  (** [None]: [from src.utils.config import config] raises. *)
  config : option Config;
  ledger : Ledger;
  exchange_positionRisk : option (Response (list Position));
  exchange_openOrders : string → option (Response (list OpenOrder));
  exchange_order : gmap string PyVal → option (Response OrderResult);
  (** whether the ledger write of [close_position] raises *)
  insert_trade_raises : InsertTradeArgs → bool
}.

Definition from_exchange {A} (answer : option A) : Run A :=
  match answer with
  | Some r => ret r
  | None => raise
  end.

(** [make_authenticated_request('GET', '.../fapi/v2/positionRisk')] *)
Definition request_positionRisk (env : Env) : Run (Response (list Position)) :=
  emit GET_positionRisk ;;; from_exchange (exchange_positionRisk env).

(** [make_authenticated_request('GET', '.../fapi/v1/openOrders', {'symbol': symbol})] *)
Definition request_openOrders (env : Env) (symbol : string)
  : Run (Response (list OpenOrder)) :=
  emit (GET_openOrders symbol) ;;; from_exchange (exchange_openOrders env symbol).

(** [make_authenticated_request('POST', '.../fapi/v1/order', data=order_data)] *)
Definition request_order (env : Env) (order_data : gmap string PyVal)
  : Run (Response OrderResult) :=
  emit (POST_order order_data) ;;; from_exchange (exchange_order env order_data).

(** [response.json()] *)
Definition response_json {A} (response : Response A) : Run A :=
  from_exchange (json response).

(** [conn.execute(stmt).fetch...()], the rows being [rows]. *)
Definition execute {A} (stmt : Statement) (rows : A) : Run A :=
  emit (Execute stmt) ;;; ret rows.

(** [x / y]: raises [ZeroDivisionError] when [y] is zero. *)
Definition py_div (x y : Q) : Run Q :=
  if Qeq_bool y 0 then raise else ret (x / y).

(** ** Ledger statements *)

(** [ORDER BY key ASC] and [ORDER BY key DESC].  SQLite leaves the order of
    rows with equal keys open; the model takes the one the sort yields. *)
Definition key_le {A} (key : A → Z) : relation A :=
  λ a b, (key a ≤ key b)%Z.

#[global] Instance key_le_dec {A} (key : A → Z) (a b : A)
  : Decision (key_le key a b) := Z_le_dec (key a) (key b).

Definition order_by_asc {A} (key : A → Z) (rows : list A) : list A :=
  merge_sort (key_le key) rows.

Definition order_by_desc {A} (key : A → Z) (rows : list A) : list A :=
  merge_sort (flip (key_le key)) rows.

(** The aggregate [MAX(col)]: NULLs are skipped, no value gives NULL. *)
Definition sql_max (cells : list (option Q)) : option Q :=
  foldr (λ cell acc,
           match cell, acc with
           | Some a, Some b => Some (if Qle_bool a b then b else a)
           | Some a, None => Some a
           | None, _ => acc
           end) None cells.

(** A tranche dict of the read route: the row [pt.*] and the two columns
    computed from the joined trades. *)
Record Tranche := {
  pt : TrancheRow;
  filled_qty : Q;
  actual_entry_price : Q
}.

Definition tranche_id (t : Tranche) : Z := pt_tranche_id (pt t).
Definition tranche_total_quantity (t : Tranche) : Q := pt_total_quantity (pt t).
Definition tranche_avg_entry_price (t : Tranche) : Q := pt_avg_entry_price (pt t).
Definition tranche_tp_order_id (t : Tranche) : option string := pt_tp_order_id (pt t).
Definition tranche_sl_order_id (t : Tranche) : option string := pt_sl_order_id (pt t).
Definition tranche_unrealized_pnl (t : Tranche) : option Q := pt_unrealized_pnl (pt t).

(** [tranche['tp_order_id'] = v] *)
Definition set_tp_order_id (v : option string) (t : Tranche) : Tranche :=
  let r := pt t in
  {| pt := {| pt_tranche_id := pt_tranche_id r; pt_symbol := pt_symbol r;
              pt_position_side := pt_position_side r;
              pt_total_quantity := pt_total_quantity r;
              pt_avg_entry_price := pt_avg_entry_price r;
              pt_tp_order_id := v;
              pt_sl_order_id := pt_sl_order_id r;
              pt_unrealized_pnl := pt_unrealized_pnl r |};
     filled_qty := filled_qty t;
     actual_entry_price := actual_entry_price t |}.

(** [tranche['sl_order_id'] = v] *)
Definition set_sl_order_id (v : option string) (t : Tranche) : Tranche :=
  let r := pt t in
  {| pt := {| pt_tranche_id := pt_tranche_id r; pt_symbol := pt_symbol r;
              pt_position_side := pt_position_side r;
              pt_total_quantity := pt_total_quantity r;
              pt_avg_entry_price := pt_avg_entry_price r;
              pt_tp_order_id := pt_tp_order_id r;
              pt_sl_order_id := v;
              pt_unrealized_pnl := pt_unrealized_pnl r |};
     filled_qty := filled_qty t;
     actual_entry_price := actual_entry_price t |}.

(** [tranche['unrealized_pnl'] = v] *)
Definition set_unrealized_pnl (v : Q) (t : Tranche) : Tranche :=
  let r := pt t in
  {| pt := {| pt_tranche_id := pt_tranche_id r; pt_symbol := pt_symbol r;
              pt_position_side := pt_position_side r;
              pt_total_quantity := pt_total_quantity r;
              pt_avg_entry_price := pt_avg_entry_price r;
              pt_tp_order_id := pt_tp_order_id r;
              pt_sl_order_id := pt_sl_order_id r;
              pt_unrealized_pnl := Some v |};
     filled_qty := filled_qty t;
     actual_entry_price := actual_entry_price t |}.

(** Lines 40-51: the tranches of a symbol and side, each with
    [COALESCE(MAX(t.filled_qty), 0)] and
    [COALESCE(MAX(t.avg_price), pt.avg_entry_price)] over its entry trades,
    by ascending [tranche_id].  Within a symbol and side a [tranche_id]
    names one row, so each group of the [GROUP BY] holds one tranche row. *)
Definition select_tranches (db : Ledger) (rows : list TrancheRow)
    (symbol side : string) : list Tranche :=
  order_by_asc tranche_id
    ((λ r,
       let joined :=
         filter (λ t, tr_tranche_id t = Some (pt_tranche_id r)
                      ∧ tr_order_type t = Some "LIMIT"
                      ∧ tr_parent_order_id t = None) (tbl_trades db) in
       {| pt := r;
          filled_qty := default 0 (sql_max (tr_filled_qty <$> joined));
          actual_entry_price :=
            default (pt_avg_entry_price r) (sql_max (tr_avg_price <$> joined)) |})
     <$> filter (λ r, pt_symbol r = symbol ∧ pt_position_side r = side) rows).

(** The rows the statement of lines 61-68 ranges over, before
    [ORDER BY created_at DESC LIMIT 1]. *)
Definition relationship_candidates (db : Ledger) (symbol side : string)
    (tranche_id : Z) : list OrderRelationship :=
  filter (λ r, rel_symbol r = symbol
               ∧ rel_position_side r = Some side
               ∧ rel_tranche_id r = Some tranche_id
               ∧ (rel_tp_order_id r ≠ None ∨ rel_sl_order_id r ≠ None))
         (tbl_order_relationships db).

(** Lines 61-70: [fetchone()] of the statement, the columns
    [tp_order_id, sl_order_id] of the chosen row. *)
Definition select_latest_relationship (db : Ledger) (symbol side : string)
    (tranche_id : Z) : option (option string * option string) :=
  (λ r, (rel_tp_order_id r, rel_sl_order_id r))
  <$> head (order_by_desc rel_created_at
              (relationship_candidates db symbol side tranche_id)).

(** A trade with the [trade_category] column of lines 91-96. *)
Record TradeView := {
  trade : Trade;
  trade_category : option string
}.

Definition category_of (t : Trade) : option string :=
  match tr_parent_order_id t with
  | None => Some "ENTRY"
  | Some _ =>
      if bool_decide (tr_order_type t = Some "TAKE_PROFIT_MARKET")
      then Some "TAKE_PROFIT"
      else if bool_decide (tr_order_type t = Some "STOP_MARKET")
      then Some "STOP_LOSS"
      else tr_order_type t
  end.

(** Lines 89-102. *)
Definition select_trades (db : Ledger) (symbol side : string) : list TradeView :=
  (λ t, {| trade := t; trade_category := category_of t |})
  <$> take 100
        (order_by_desc tr_timestamp
           (filter (λ t, tr_symbol t = symbol
                         ∧ ((tr_side t = "BUY" ∧ side = "LONG")
                            ∨ (tr_side t = "SELL" ∧ side = "SHORT")))
                   (tbl_trades db))).

(** Lines 107-111. *)
Definition select_relationships (db : Ledger) (symbol side : string)
    : list OrderRelationship :=
  order_by_desc rel_created_at
    (filter (λ r, rel_symbol r = symbol
                  ∧ (rel_position_side r = Some side ∨ rel_position_side r = None))
            (tbl_order_relationships db)).

(** Lines 202-207. *)
Definition select_order_status (db : Ledger) (symbol : string)
    (ids : gset string) : list OrderStatusRow :=
  filter (λ o, os_symbol o = symbol ∧ os_order_id o ∈ ids) (tbl_order_status db).

(** ** The read route: [get_position_details] *)

(** Lines 71-77: the relationship row fills the ids the tranche lacks. *)
Definition fill_from_relationship
    (rel_row : option (option string * option string)) (tranche : Tranche)
    : Tranche :=
  match rel_row with
  | Some (rel_tp, rel_sl) =>
      let tranche :=
        if negb (truthy_id (tranche_tp_order_id tranche)) && truthy_id rel_tp
        then set_tp_order_id rel_tp tranche else tranche in
      if negb (truthy_id (tranche_sl_order_id tranche)) && truthy_id rel_sl
      then set_sl_order_id rel_sl tranche else tranche
  | None => tranche
  end.

(** The three sets of lines 131-133. *)
Record OrderIds := {
  tp_sl_order_ids : gset string;
  tp_order_ids : gset string;
  sl_order_ids : gset string
}.

(** Lines 136-139 and 146-149: [str] of an id is the id. *)
Definition add_tp (v : option string) (ids : OrderIds) : OrderIds :=
  match v with
  | Some order_id =>
      if truthy_id v
      then {| tp_sl_order_ids := {[order_id]} ∪ tp_sl_order_ids ids;
              tp_order_ids := {[order_id]} ∪ tp_order_ids ids;
              sl_order_ids := sl_order_ids ids |}
      else ids
  | None => ids
  end.

(** Lines 140-143 and 150-153. *)
Definition add_sl (v : option string) (ids : OrderIds) : OrderIds :=
  match v with
  | Some order_id =>
      if truthy_id v
      then {| tp_sl_order_ids := {[order_id]} ∪ tp_sl_order_ids ids;
              tp_order_ids := tp_order_ids ids;
              sl_order_ids := {[order_id]} ∪ sl_order_ids ids |}
      else ids
  | None => ids
  end.

(** Lines 131-153: ids of the tranches, then ids of the relationships. *)
Definition collect_order_ids (tranches : list Tranche)
    (order_relationships : list OrderRelationship) : OrderIds :=
  let ids :=
    fold_left (λ ids tranche,
                 add_sl (tranche_sl_order_id tranche)
                   (add_tp (tranche_tp_order_id tranche) ids))
      tranches
      {| tp_sl_order_ids := ∅; tp_order_ids := ∅; sl_order_ids := ∅ |} in
  fold_left (λ ids rel,
               add_sl (rel_sl_order_id rel) (add_tp (rel_tp_order_id rel) ids))
    order_relationships ids.

(** A value of the [order_statuses] dict. *)
Record OrderStatusView := {
  osv_order_id : string;
  osv_status : option string;
  osv_quantity : Q;
  osv_price : PyVal;
  osv_side : option string;
  osv_type : string;
  osv_executed_qty : Q
}.

(** Lines 164-191: the body of the loop over the open orders. *)
Definition record_open_order (ids : OrderIds)
    (order_statuses : gmap string OrderStatusView) (order : OpenOrder)
    : gmap string OrderStatusView :=
  let order_id := default "None" (oo_orderId order) in
  let order_type := default "" (oo_type order) in
  let order_status := default "" (oo_status order) in
  if contains "TAKE_PROFIT" order_type || contains "STOP" order_type
     || bool_decide (order_id ∈ tp_sl_order_ids ids)
  then
    let effective_type :=
      if bool_decide (order_id ∈ tp_order_ids ids) && String.eqb order_type "LIMIT"
      then "TP_LIMIT"
      else if bool_decide (order_id ∈ sl_order_ids ids) && contains "STOP" order_type
      then "SL_STOP"
      else order_type in
    <[order_id :=
        {| osv_order_id := order_id;
           osv_status := Some order_status;
           osv_quantity := default 0 (oo_origQty order);
           osv_price := py_or (oo_price order) (oo_stopPrice order);
           osv_side := oo_side order;
           osv_type := effective_type;
           osv_executed_qty := default 0 (oo_executedQty order) |}]> order_statuses
  else order_statuses.

(** Lines 210-230: the loop over the cached rows.  [float(None)] raises on
    a row without quantity; the handler of line 235 then ends the loop, the
    dict keeping what it holds. *)
Fixpoint record_cached_orders (ids : OrderIds) (db_orders : list OrderStatusRow)
    (order_statuses : gmap string OrderStatusView)
    : gmap string OrderStatusView :=
  match db_orders with
  | [] => order_statuses
  | order_row :: rest =>
      let order_id := os_order_id order_row in
      if bool_decide (is_Some (order_statuses !! order_id))
      then record_cached_orders ids rest order_statuses
      else
        let order_type :=
          if bool_decide (order_id ∈ tp_order_ids ids) then "TP_ORDER"
          else if bool_decide (order_id ∈ sl_order_ids ids) then "SL_ORDER"
          else "TP/SL" in
        match os_quantity order_row with
        | None => order_statuses
        | Some quantity =>
            record_cached_orders ids rest
              (<[order_id :=
                   {| osv_order_id := order_id;
                      osv_status := os_status order_row;
                      osv_quantity := quantity;
                      osv_price := from_option PyNum PyNone (os_price order_row);
                      osv_side := os_side order_row;
                      osv_type := order_type;
                      osv_executed_qty := 0 |}]> order_statuses)
        end
  end.

(** Lines 155-237: the [order_statuses] dict. *)
Definition fetch_order_statuses (env : Env) (symbol : string) (ids : OrderIds)
    : Run (gmap string OrderStatusView) :=
  if truthy_id (API_KEY env) && truthy_id (API_SECRET env) then
    order_statuses <~
      try_except
        (response <~ request_openOrders env symbol ;;
         if bool_decide (status_code response = 200%Z) then
           open_orders_data <~ response_json response ;;
           ret (fold_left (record_open_order ids) open_orders_data ∅)
         else ret ∅)
        (ret ∅) ;;
    if bool_decide (tp_sl_order_ids ids ≠ ∅) then
      db_orders <~
        execute (SelectOrderStatus symbol (tp_sl_order_ids ids))
          (select_order_status (ledger env) symbol (tp_sl_order_ids ids)) ;;
      ret (record_cached_orders ids db_orders order_statuses)
    else ret order_statuses
  else ret ∅.

(** The [summary] of the response. *)
Record Summary := {
  total_quantity : Q;
  avg_entry_price : Q;
  unrealized_pnl : Q;
  total_margin : Q;
  num_tranches : nat
}.

(** Lines 269-275: the leverage of the symbol, 10 unless the configuration
    can be imported and gives one. *)
Definition config_leverage (env : Env) (symbol : string) : Q :=
  match config env with
  | Some config =>
      match SYMBOL_SETTINGS config !! symbol with
      | Some settings => default 10 (ss_leverage settings)
      | None => 10
      end
  | None => 10
  end.

(** Lines 242-258: the summary read off the exchange position. *)
Definition exchange_summary (exchange_position : Position) (num_tranches : nat)
    : Summary :=
  let entry_price := default 0 (pos_entryPrice exchange_position) in
  let mark_price := default 0 (pos_markPrice exchange_position) in
  let position_amt := default 0 (pos_positionAmt exchange_position) in
  let total_quantity := Qabs position_amt in
  let avg_entry_price := entry_price in
  let total_unrealized_pnl :=
    if Qltb 0 position_amt then (mark_price - entry_price) * position_amt
    else if Qltb position_amt 0 then (entry_price - mark_price) * Qabs position_amt
    else 0 in
  let total_margin := default 0 (pos_initialMargin exchange_position) in
  Build_Summary total_quantity avg_entry_price total_unrealized_pnl total_margin
    num_tranches.

(** Lines 261-276: the summary computed from the tranches. *)
Definition tranche_summary (env : Env) (symbol : string)
    (tranches : list Tranche) : Run Summary :=
  let total_quantity := py_sum (tranche_total_quantity <$> tranches) in
  avg_entry_price <~
    (if Qltb 0 total_quantity
     then py_div
            (py_sum ((λ t, tranche_avg_entry_price t * tranche_total_quantity t)
                     <$> tranches))
            total_quantity
     else ret 0) ;;
  let total_unrealized_pnl :=
    py_sum ((λ t, default 0 (tranche_unrealized_pnl t)) <$> tranches) in
  let leverage := config_leverage env symbol in
  total_margin <~
    (if Qltb 0 leverage then py_div (total_quantity * avg_entry_price) leverage
     else ret 0) ;;
  ret (Build_Summary total_quantity avg_entry_price total_unrealized_pnl
         total_margin (length tranches)).

(** Lines 240-282. *)
Definition summarize (env : Env) (symbol : string)
    (exchange_position : option Position) (tranches : list Tranche)
    : Run Summary :=
  match exchange_position with
  | Some exchange_position =>
      ret (exchange_summary exchange_position (length tranches))
  | None =>
      match tranches with
      | _ :: _ => tranche_summary env symbol tranches
      | [] => ret (Build_Summary 0 0 0 0 (length tranches))
      end
  end.

(** The response of the read route (its constant keys [open_orders] and
    [current_positions], both [[]], are left out). *)
Record PositionDetails := {
  pd_symbol : string;
  pd_side : string;
  summary : Summary;
  tranches : list Tranche;
  order_relationships : list OrderRelationship;
  order_statuses : gmap string OrderStatusView;
  trades : list TradeView
}.

(** Lines 19-28: the first position of the symbol with a non-zero amount,
    [None] when the request fails in any way. *)
Definition find_exchange_position (symbol : string) (positions : list Position)
    : option Position :=
  List.find (λ p, String.eqb (pos_symbol p) symbol
                  && Qneb (default 0 (pos_positionAmt p)) 0) positions.

Definition fetch_exchange_position (env : Env) (symbol : string)
    : Run (option Position) :=
  try_except
    (response <~ request_positionRisk env ;;
     if bool_decide (status_code response = 200%Z) then
       positions <~ response_json response ;;
       ret (find_exchange_position symbol positions)
     else ret None)
    (ret None).

(** Lines 32-86: the tranche dicts of the response. *)
Definition load_tranches (env : Env) (symbol side : string)
    (exchange_position : option Position) : Run (list Tranche) :=
  table <~ execute SelectTableExists (tbl_position_tranches (ledger env)) ;;
  match table with
  | Some rows =>
      tranches <~
        execute (SelectTranches symbol side)
          (select_tranches (ledger env) rows symbol side) ;;
      tranches <~
        for_each
          (λ tranche,
             rel_row <~
               execute (SelectLatestRelationship symbol side (tranche_id tranche))
                 (select_latest_relationship (ledger env) symbol side
                    (tranche_id tranche)) ;;
             ret (fill_from_relationship rel_row tranche))
          tranches ;;
      match exchange_position with
      | Some _ => ret (set_unrealized_pnl 0 <$> tranches)
      | None => ret tranches
      end
  | None => ret []
  end.

(** Lines 116-124: every row dict has the key [position_side], so only the
    rows of the requested side are kept. *)
Definition filter_relationships (side : string)
    (all_order_rels : list OrderRelationship) : list OrderRelationship :=
  filter (λ rel, rel_position_side rel = Some side) all_order_rels.

Definition get_position_details (env : Env) (symbol side : string)
    : Run PositionDetails :=
  exchange_position <~ fetch_exchange_position env symbol ;;
  tranches <~ load_tranches env symbol side exchange_position ;;
  trades <~ execute (SelectTrades symbol side)
              (select_trades (ledger env) symbol side) ;;
  all_order_rels <~ execute (SelectRelationships symbol side)
                      (select_relationships (ledger env) symbol side) ;;
  let order_relationships := filter_relationships side all_order_rels in
  let ids := collect_order_ids tranches order_relationships in
  order_statuses <~ fetch_order_statuses env symbol ids ;;
  summary <~ summarize env symbol exchange_position tranches ;;
  ret (Build_PositionDetails symbol side summary tranches order_relationships
         order_statuses trades).

(** ** The write route: [close_position] *)

(** The [error] texts of the route, by the f-string that builds them. *)
Inductive ErrorMessage :=
| FailedToFetchPositionData (status : Z)
| NoOpenPositionFound (symbol side : string)
| NoPositionSize (symbol side : string)
| FailedToPlaceCloseOrder (error_msg : string)
| InternalError.

(** The JSON body of the route's answer. *)
Inductive CloseBody :=
| ErrorBody (error : ErrorMessage)
| SimulatedBody (symbol side : string) (quantity : Q)
| ClosedBody (symbol side order_id order_side : string) (quantity : Q)
    (order_details : OrderResult).

(** The keys [success], [simulated] and [order_id] of the body. *)
Definition success (b : CloseBody) : bool :=
  match b with
  | ErrorBody _ => false
  | SimulatedBody _ _ _ | ClosedBody _ _ _ _ _ _ => true
  end.

Definition simulated (b : CloseBody) : option bool :=
  match b with
  | SimulatedBody _ _ _ => Some true
  | ErrorBody _ | ClosedBody _ _ _ _ _ _ => None
  end.

Definition order_id (b : CloseBody) : option string :=
  match b with
  | ClosedBody _ _ order_id _ _ _ => Some order_id
  | ErrorBody _ | SimulatedBody _ _ _ => None
  end.

(** Body and HTTP status ([jsonify(...)] alone answers 200). *)
Record CloseResult := {
  body : CloseBody;
  http_status : Z
}.

(** Lines 315-331: the position to close. *)
Definition find_target_position (symbol side : string)
    (positions : list Position) : option Position :=
  List.find
    (λ pos,
       let position_amt := default 0 (pos_positionAmt pos) in
       String.eqb (pos_symbol pos) symbol && Qneb position_amt 0
       && (if negb (String.eqb side "BOTH")
           then String.eqb (if Qltb 0 position_amt then "LONG" else "SHORT") side
           else true))
    positions.

(** Lines 341-363: the closing order for a position. *)
Definition closing_order (symbol : string) (target_position : Position)
    : gmap string PyVal :=
  let position_amt := default 0 (pos_positionAmt target_position) in
  let quantity := Qabs position_amt in
  let current_side := if Qltb 0 position_amt then "LONG" else "SHORT" in
  let order_side := if String.eqb current_side "LONG" then "SELL" else "BUY" in
  let position_side := default "BOTH" (pos_positionSide target_position) in
  let order_data : gmap string PyVal :=
    <["symbol" := PyStr symbol]>
      (<["side" := PyStr order_side]>
         (<["type" := PyStr "MARKET"]>
            (<["quantity" := PyRepr quantity]>
               (<["positionSide" := PyStr position_side]> ∅)))) in
  if String.eqb position_side "BOTH"
  then <["reduceOnly" := PyStr "true"]> order_data
  else order_data.

(** Lines 366-377: whether the simulation flag is seen set. *)
Definition simulation_mode (env : Env) : bool :=
  match config env with
  | Some config => SIMULATE_ONLY config
  | None => false
  end.

(** Lines 387-394: the ledger write; what it raises is caught. *)
Definition log_close (env : Env) (args : InsertTradeArgs) : Run unit :=
  try_except
    (emit (InsertTrade args) ;;;
     if insert_trade_raises env args then raise else ret tt)
    (ret tt).

Definition close_position (env : Env) (symbol side : string) : Run CloseResult :=
  try_except
    (response <~ request_positionRisk env ;;
     if negb (bool_decide (status_code response = 200%Z)) then
       ret {| body := ErrorBody (FailedToFetchPositionData (status_code response));
              http_status := status_code response |}
     else
       positions <~ response_json response ;;
       match find_target_position symbol side positions with
       | None =>
           ret {| body := ErrorBody (NoOpenPositionFound symbol side);
                  http_status := 404 |}
       | Some target_position =>
           let position_amt := default 0 (pos_positionAmt target_position) in
           if Qeq_bool position_amt 0 then
             ret {| body := ErrorBody (NoPositionSize symbol side);
                    http_status := 400 |}
           else
             let quantity := Qabs position_amt in
             let current_side := if Qltb 0 position_amt then "LONG" else "SHORT" in
             let order_side :=
               if String.eqb current_side "LONG" then "SELL" else "BUY" in
             let order_data := closing_order symbol target_position in
             if simulation_mode env then
               ret {| body := SimulatedBody symbol side quantity;
                      http_status := 200 |}
             else
               order_response <~ request_order env order_data ;;
               if bool_decide (status_code order_response = 200%Z) then
                 order_result <~ response_json order_response ;;
                 let order_id := default "unknown" (or_orderId order_result) in
                 log_close env
                   {| it_symbol := symbol; it_order_id := order_id;
                      it_side := order_side; it_qty := quantity; it_price := 0;
                      it_status := "SUCCESS"; it_response := order_result;
                      it_order_type := "MARKET"; it_parent_order_id := None;
                      it_filled_qty := quantity;
                      it_avg_price :=
                        default (PyNum 0) (or_avgPrice order_result) |} ;;;
                 ret {| body := ClosedBody symbol side order_id order_side
                                  quantity order_result;
                        http_status := 200 |}
               else
                 ret {| body := ErrorBody
                                  (FailedToPlaceCloseOrder (text order_response));
                        http_status := status_code order_response |}
       end)
    (ret {| body := ErrorBody InternalError; http_status := 500 |}).

(** * The colored logger: [src/utils/colored_logger.py]

    The methods of [ColoredLogger] that build a text and hand it to the
    underlying logger, and [ColoredFormatter.format].  A method is modelled
    by the level and the text it logs.  What is outside the file is taken
    from the outside: colorama's escape codes, the platform, how Python
    prints a number or an object, and [logging.Formatter.format]. *)

Module colored_logger.

(** The codes of colorama the module uses. *)
Record Colorama := {
  Fore_BLUE : string;
  Fore_CYAN : string;
  Fore_GREEN : string;
  Fore_MAGENTA : string;
  Fore_RED : string;
  Fore_WHITE : string;
  Fore_YELLOW : string;
  Back_BLACK : string;
  Back_BLUE : string;
  Back_RED : string;
  Back_WHITE : string;
  Back_YELLOW : string;
  Style_BRIGHT : string;
  Style_DIM : string;
  Style_RESET_ALL : string
}.

(** Lines 21-29: the dummy classes used when colorama cannot be imported. *)
Definition dummy_codes : Colorama :=
  {| Fore_BLUE := ""; Fore_CYAN := ""; Fore_GREEN := ""; Fore_MAGENTA := "";
     Fore_RED := ""; Fore_WHITE := ""; Fore_YELLOW := "";
     Back_BLACK := ""; Back_BLUE := ""; Back_RED := ""; Back_WHITE := "";
     Back_YELLOW := "";
     Style_BRIGHT := ""; Style_DIM := ""; Style_RESET_ALL := "" |}.

(** The process the module is loaded in: whether [sys.platform] is
    ["win32"], and colorama when it can be imported. *)
Record Runtime := {
  win32 : bool;
  colorama : option Colorama
}.

(** Lines 11-29. *)
Definition COLORS_AVAILABLE (rt : Runtime) : bool :=
  match colorama rt with Some _ => true | None => false end.

Definition codes (rt : Runtime) : Colorama := default dummy_codes (colorama rt).

(** Lines 32-70. *)
Definition COLOR_SCHEME (c : Colorama) : gmap string string :=
  list_to_map
    [("DEBUG", Fore_CYAN c ++ Style_DIM c ++ Style_BRIGHT c);
     ("INFO", Fore_WHITE c ++ Style_BRIGHT c);
     ("SUCCESS", Fore_GREEN c ++ Style_BRIGHT c);
     ("WARNING", Fore_YELLOW c ++ Style_BRIGHT c);
     ("ERROR", Fore_RED c ++ Style_BRIGHT c);
     ("CRITICAL", Fore_RED c ++ Style_BRIGHT c ++ Back_YELLOW c);
     ("TRADE_PLACED", Fore_GREEN c ++ Style_BRIGHT c);
     ("TRADE_FILLED", Fore_GREEN c ++ Style_BRIGHT c ++ Back_BLACK c);
     ("TRADE_CANCELLED", Fore_YELLOW c ++ Style_BRIGHT c);
     ("TRADE_FAILED", Fore_RED c ++ Style_BRIGHT c ++ Back_WHITE c);
     ("TRADE_PROFIT", Fore_GREEN c ++ Style_BRIGHT c ++ Back_BLACK c);
     ("TRADE_LOSS", Fore_RED c ++ Style_BRIGHT c);
     ("LIQUIDATION", Fore_YELLOW c ++ Style_BRIGHT c);
     ("LIQUIDATION_BIG", Fore_RED c ++ Style_BRIGHT c ++ Back_YELLOW c);
     ("THRESHOLD_MET", Fore_GREEN c ++ Style_BRIGHT c ++ Back_BLACK c);
     ("TRANCHE_NEW", Fore_MAGENTA c ++ Style_BRIGHT c);
     ("TRANCHE_ADD", Fore_MAGENTA c ++ Style_BRIGHT c);
     ("TRANCHE_MERGE", Fore_CYAN c ++ Style_BRIGHT c ++ Back_BLACK c);
     ("TRANCHE_CLOSE", Fore_BLUE c ++ Style_BRIGHT c);
     ("POSITION_OPEN", Fore_GREEN c ++ Style_BRIGHT c);
     ("POSITION_CLOSE", Fore_BLUE c ++ Style_BRIGHT c ++ Back_BLACK c);
     ("POSITION_PROFIT", Fore_GREEN c ++ Style_BRIGHT c ++ Back_BLACK c);
     ("POSITION_LOSS", Fore_RED c ++ Style_BRIGHT c);
     ("STARTUP", Fore_CYAN c ++ Style_BRIGHT c ++ Back_BLUE c);
     ("SHUTDOWN", Fore_YELLOW c ++ Style_BRIGHT c ++ Back_RED c);
     ("CONNECTION", Fore_BLUE c ++ Style_BRIGHT c);
     ("DISCONNECTION", Fore_YELLOW c ++ Style_BRIGHT c)].

(** Lines 73-87. *)
Definition SYMBOLS : gmap string string :=
  list_to_map
    [("SUCCESS", "[✓]"); ("ERROR", "[✗]"); ("WARNING", "[⚠]"); ("INFO", "[ℹ]");
     ("TRADE", "[$]"); ("LOSS", "[↓]"); ("PROFIT", "[↑]");
     ("LIQUIDATION", "[💥]"); ("TRANCHE", "[📦]");
     ("ARROW_UP", "↑"); ("ARROW_DOWN", "↓"); ("ARROW_RIGHT", "→"); ("DOT", "•")].

(** [d[key]] for the keys the module looks up, all of which the two dicts
    hold. *)
Definition item (d : gmap string string) (key : string) : string :=
  default "" (d !! key).

(** How Python prints what an f-string holds: [str(v)] of an object and
    the formats [:.2f], [:.4f] and [:+.2f] of a float. *)
Record Printing := {
  py_str : PyVal → string;
  fmt_2f : Q → string;
  fmt_4f : Q → string;
  fmt_signed_2f : Q → string
}.

(** The method of the underlying logger a text is handed to. *)
Inductive Level := DEBUG | INFO | WARNING | ERROR | CRITICAL.

(** ['=' * 50] *)
Definition rule : string :=
  "==================================================".

Section ColoredLogger.
Variable rt : Runtime.
Variable pr : Printing.

(** The color of a key and the reset code, as a method reads them. *)
Definition color (key : string) : string := item (COLOR_SCHEME (codes rt)) key.
Definition RESET_ALL : string := Style_RESET_ALL (codes rt).
Definition sym (key : string) : string := item SYMBOLS key.

(** Lines 203-211. *)
Definition success (message : string) : Level * string :=
  if win32 rt then (INFO, "[SUCCESS] " ++ message)
  else if COLORS_AVAILABLE rt
  then (INFO, color "SUCCESS" ++ sym "SUCCESS" ++ " " ++ message ++ RESET_ALL)
  else (INFO, "[SUCCESS] " ++ message).

(** Lines 213-224. *)
Definition trade_placed (symbol side : string) (qty price : PyVal)
    : Level * string :=
  let message :=
    "Order placed: " ++ symbol ++ " " ++ side ++ " " ++ py_str pr qty
    ++ " @ " ++ py_str pr price in
  if win32 rt then (INFO, "[TRADE] " ++ message)
  else if COLORS_AVAILABLE rt
  then (INFO, color "TRADE_PLACED" ++ sym "TRADE" ++ " " ++ message ++ RESET_ALL)
  else (INFO, "[TRADE] " ++ message).

(** [pnl and pnl >= 0] and [pnl and pnl < 0] of lines 236-237. *)
Definition is_gain (pnl : option Q) : bool :=
  match pnl with Some q => Qneb q 0 && Qle_bool 0 q | None => false end.

Definition is_loss (pnl : option Q) : bool :=
  match pnl with Some q => Qneb q 0 && Qltb q 0 | None => false end.

(** Lines 226-240. *)
Definition trade_filled (symbol side : string) (qty price : PyVal)
    (pnl : option Q) : Level * string :=
  let message :=
    "Order filled: " ++ symbol ++ " " ++ side ++ " " ++ py_str pr qty
    ++ " @ " ++ py_str pr price in
  let message :=
    match pnl with
    | Some q => message ++ " | PNL: " ++ fmt_signed_2f pr q
    | None => message
    end in
  if win32 rt then (INFO, "[FILLED] " ++ message)
  else if COLORS_AVAILABLE rt then
    let color_ :=
      if is_gain pnl then color "TRADE_PROFIT"
      else if is_loss pnl then color "TRADE_LOSS" else color "TRADE_FILLED" in
    let symbol_ :=
      if is_gain pnl then sym "PROFIT"
      else if is_loss pnl then sym "LOSS" else sym "SUCCESS" in
    (INFO, color_ ++ symbol_ ++ " " ++ message ++ RESET_ALL)
  else (INFO, "[FILLED] " ++ message).

(** Lines 242-253. *)
Definition trade_failed (symbol reason : string) : Level * string :=
  let message := "Trade failed for " ++ symbol ++ ": " ++ reason in
  if win32 rt then (ERROR, "[FAILED] " ++ message)
  else if COLORS_AVAILABLE rt
  then (ERROR, color "TRADE_FAILED" ++ sym "ERROR" ++ " " ++ message ++ RESET_ALL)
  else (ERROR, "[FAILED] " ++ message).

(** Lines 255-278. *)
Definition liquidation (symbol side : string) (qty : PyVal)
    (price usdt_value : Q) (volume_info : string) : Level * string :=
  let position_type := if String.eqb side "SELL" then "Long" else "Short" in
  let message :=
    position_type ++ " Liquidation: " ++ symbol ++ " " ++ side ++ " "
    ++ py_str pr qty ++ " @ $" ++ fmt_4f pr price ++ " ($"
    ++ fmt_2f pr usdt_value ++ ")" ++ volume_info in
  if win32 rt then
    let log_type :=
      if Qltb 50000 usdt_value then "[BIG LIQUIDATION]" else "[LIQUIDATION]" in
    (INFO, log_type ++ " " ++ message)
  else if Qltb 50000 usdt_value then
    if COLORS_AVAILABLE rt
    then (INFO, color "LIQUIDATION_BIG" ++ sym "LIQUIDATION" ++ " BIG "
                ++ message ++ RESET_ALL)
    else (INFO, "[BIG LIQUIDATION] " ++ message)
  else
    if COLORS_AVAILABLE rt
    then (INFO, color "LIQUIDATION" ++ message ++ RESET_ALL)
    else (INFO, "[LIQUIDATION] " ++ message).

(** Lines 280-291. *)
Definition threshold_met (symbol : string) (volume threshold : Q)
    : Level * string :=
  let message :=
    "Volume threshold met for " ++ symbol ++ ": $" ++ fmt_2f pr volume
    ++ " > $" ++ fmt_2f pr threshold in
  if win32 rt then (INFO, "[THRESHOLD MET] " ++ message)
  else if COLORS_AVAILABLE rt
  then (INFO, color "THRESHOLD_MET" ++ sym "SUCCESS" ++ " " ++ message
              ++ RESET_ALL)
  else (INFO, "[THRESHOLD MET] " ++ message).

(** Lines 295-302. *)
Definition event_types (tranche_id : PyVal) : gmap string (string * string) :=
  list_to_map
    [("new", ("TRANCHE_NEW",
              "New tranche #" ++ py_str pr tranche_id ++ " created"));
     ("add", ("TRANCHE_ADD", "Adding to tranche #" ++ py_str pr tranche_id));
     ("merge", ("TRANCHE_MERGE", "Merging tranches"));
     ("close", ("TRANCHE_CLOSE", "Closing tranche #" ++ py_str pr tranche_id))].

(** Lines 293-315. *)
Definition tranche_event (event_type symbol : string) (tranche_id : PyVal)
    (details : string) : Level * string :=
  let '(color_key, base_msg) :=
    default ("INFO", "Tranche event") (event_types tranche_id !! event_type) in
  let message := symbol ++ ": " ++ base_msg in
  let message :=
    if negb (String.eqb details "") then message ++ " - " ++ details
    else message in
  if win32 rt then (INFO, "[TRANCHE] " ++ message)
  else if COLORS_AVAILABLE rt
  then (INFO, color color_key ++ sym "TRANCHE" ++ " " ++ message ++ RESET_ALL)
  else (INFO, "[TRANCHE] " ++ message).

(** Lines 317-333. *)
Definition position_update (symbol side : string) (qty : PyVal)
    (entry_price current_pnl : Q) : Level * string :=
  if win32 rt then
    let status :=
      if Qltb 0 current_pnl then "[PROFIT]"
      else if Qltb current_pnl 0 then "[LOSS]" else "[FLAT]" in
    let message :=
      symbol ++ " " ++ side ++ ": " ++ py_str pr qty ++ " @ "
      ++ fmt_4f pr entry_price ++ " | PNL: " ++ fmt_signed_2f pr current_pnl
      ++ "%" in
    (INFO, status ++ " " ++ message)
  else
    let arrow :=
      if Qltb 0 current_pnl then sym "ARROW_UP"
      else if Qltb current_pnl 0 then sym "ARROW_DOWN" else sym "ARROW_RIGHT" in
    let color_ :=
      if Qltb 0 current_pnl then color "POSITION_PROFIT"
      else if Qltb current_pnl 0 then color "POSITION_LOSS"
      else Fore_YELLOW (codes rt) in
    let message :=
      symbol ++ " " ++ side ++ ": " ++ py_str pr qty ++ " @ "
      ++ fmt_4f pr entry_price ++ " | PNL: " ++ fmt_signed_2f pr current_pnl
      ++ "%" in
    if COLORS_AVAILABLE rt
    then (INFO, color_ ++ arrow ++ " " ++ message ++ RESET_ALL)
    else
      let status :=
        if Qltb 0 current_pnl then "PROFIT"
        else if Qltb current_pnl 0 then "LOSS" else "FLAT" in
      (INFO, "[" ++ status ++ "] " ++ message).

(** The line feed of the f-strings of lines 339-347. *)
Definition LF : string := String (Ascii.ascii_of_nat 10) "".

(** Lines 335-347. *)
Definition startup (message : string) : Level * string :=
  if win32 rt then (INFO, LF ++ rule ++ LF ++ message ++ LF ++ rule)
  else if COLORS_AVAILABLE rt
  then (INFO, color "STARTUP" ++ rule ++ RESET_ALL ++ LF
              ++ color "STARTUP" ++ sym "INFO" ++ " " ++ message ++ RESET_ALL
              ++ LF
              ++ color "STARTUP" ++ rule ++ RESET_ALL)
  else (INFO, LF ++ rule ++ LF ++ message ++ LF ++ rule).

(** Lines 349-359. *)
Definition shutdown (message : string) : Level * string :=
  if win32 rt then (INFO, "[WARNING] " ++ message)
  else if COLORS_AVAILABLE rt
  then (INFO, color "SHUTDOWN" ++ sym "WARNING" ++ " " ++ message ++ RESET_ALL)
  else (INFO, "[SHUTDOWN] " ++ message).

End ColoredLogger.

(** ** [ColoredFormatter] *)

(** How [logging.Formatter.format] ends. *)
Inductive FormatResult :=
| Formatted (line : string)
| UnicodeEncodeError
| OtherError.

(** The fields of a [ColoredFormatter] that [format] reads and writes:
    [_fmt], [_style._fmt], [use_colors] and [formats]. *)
Record Formatter := {
  _fmt : string;
  _style_fmt : string;
  use_colors : bool;
  formats : gmap string string
}.

(** Lines 93-104: [__init__], for the format string [fmt]. *)
Definition ColoredFormatter (rt : Runtime) (fmt : string) (use_colors : bool)
    : Formatter :=
  let c := codes rt in
  let scheme := item (COLOR_SCHEME c) in
  {| _fmt := fmt;
     _style_fmt := fmt;
     use_colors := use_colors && COLORS_AVAILABLE rt;
     formats :=
       list_to_map
         [("DEBUG", scheme "DEBUG" ++ "%(asctime)s - DEBUG - %(message)s"
                    ++ Style_RESET_ALL c);
          ("INFO", "%(asctime)s - " ++ scheme "INFO" ++ "INFO"
                   ++ Style_RESET_ALL c ++ " - %(message)s");
          ("WARNING", "%(asctime)s - " ++ scheme "WARNING" ++ "WARNING"
                      ++ Style_RESET_ALL c ++ " - " ++ scheme "WARNING"
                      ++ "%(message)s" ++ Style_RESET_ALL c);
          ("ERROR", "%(asctime)s - " ++ scheme "ERROR" ++ "ERROR"
                    ++ Style_RESET_ALL c ++ " - " ++ scheme "ERROR"
                    ++ "%(message)s" ++ Style_RESET_ALL c);
          ("CRITICAL", scheme "CRITICAL"
                       ++ "%(asctime)s - CRITICAL - %(message)s"
                       ++ Style_RESET_ALL c)] |}.

(** Lines 121-127. *)
Definition ascii_formats : gmap string string :=
  list_to_map
    [("DEBUG", "%(asctime)s - DEBUG - %(message)s");
     ("INFO", "%(asctime)s - INFO - %(message)s");
     ("WARNING", "%(asctime)s - [WARNING] - %(message)s");
     ("ERROR", "%(asctime)s - [ERROR] - %(message)s");
     ("CRITICAL", "%(asctime)s - [CRITICAL] - %(message)s")].

Definition set_fmt (log_fmt : string) (self : Formatter) : Formatter :=
  {| _fmt := log_fmt; _style_fmt := log_fmt;
     use_colors := use_colors self; formats := formats self |}.

Section ColoredFormatter.
Context {Record_ : Type}.

(** [super().format(record)], which reads the formatter's format strings
    and the record. *)
Variable base_format : string → string → Record_ → FormatResult.

(** [record.levelname] *)
Variable levelname : Record_ → string.

Definition super_format (self : Formatter) (record : Record_) : FormatResult :=
  base_format (_fmt self) (_style_fmt self) record.

(** Lines 106-139: the result of [format], or the exception it lets
    through, and the formatter it leaves. *)
Definition format (self : Formatter) (record : Record_)
    : FormatResult * Formatter :=
  if use_colors self then
    let log_fmt := default (_fmt self) (formats self !! levelname record) in
    let original_fmt := _fmt self in
    let self := set_fmt log_fmt self in
    match super_format self record with
    | Formatted result => (Formatted result, set_fmt original_fmt self)
    | UnicodeEncodeError =>
        let ascii_fmt :=
          default (_fmt self) (ascii_formats !! levelname record) in
        let self := set_fmt ascii_fmt self in
        match super_format self record with
        | Formatted result => (Formatted result, set_fmt original_fmt self)
        | raised => (raised, self)
        end
    | OtherError => (OtherError, self)
    end
  else (super_format self record, self).

End ColoredFormatter.

(** ** Vocabulary of the statements about the logger *)

(** A Windows process, with or without colorama. *)
Definition windows (c : option Colorama) : Runtime :=
  {| win32 := true; colorama := c |}.

(** A process that is not on Windows and has no colorama. *)
Definition plain : Runtime := {| win32 := false; colorama := None |}.

(** A call of [format] that raised. *)
Definition raised (r : FormatResult) : Prop :=
  match r with Formatted _ => False | _ => True end.

(** The format a level is first tried with, and the format it is tried
    with after a [UnicodeEncodeError]. *)
Definition level_format (self : Formatter) (level : string) : string :=
  default (_fmt self) (formats self !! level).

Definition fallback_format (self : Formatter) (level : string) : string :=
  default (level_format self level) (ascii_formats !! level).

End colored_logger.

(** ** Vocabulary of the statements *)

(** The live exchange position a read of the symbol sees, if any. *)
Definition live_position (env : Env) (symbol : string) : option Position :=
  match outcome (fetch_exchange_position env symbol) with
  | Returns exchange_position => exchange_position
  | Raises => None
  end.

(** The tranches the ledger holds for a symbol and side, as the statement
    of lines 40-51 returns them. *)
Definition ledger_tranches (env : Env) (symbol side : string) : list Tranche :=
  match tbl_position_tranches (ledger env) with
  | Some rows => select_tranches (ledger env) rows symbol side
  | None => []
  end.

(** The four figures of a summary. *)
Definition four_fields (s : Summary) : Q * Q * Q * Q :=
  (total_quantity s, avg_entry_price s, unrealized_pnl s, total_margin s).

(** The tranche dicts a read returns: the ledger's tranches, their missing
    order ids filled from the relationships, their PnL overridden when a
    live position is seen. *)
Definition filled_tranches (env : Env) (symbol side : string) : list Tranche :=
  (λ t, fill_from_relationship
          (select_latest_relationship (ledger env) symbol side (tranche_id t)) t)
  <$> ledger_tranches env symbol side.

Definition tranche_views (env : Env) (symbol side : string) : list Tranche :=
  match tbl_position_tranches (ledger env), live_position env symbol with
  | Some _, Some _ => set_unrealized_pnl 0 <$> filled_tranches env symbol side
  | _, _ => filled_tranches env symbol side
  end.

(** The relationship rows and the order ids a read works with. *)
Definition relationship_views (env : Env) (symbol side : string)
    : list OrderRelationship :=
  filter_relationships side (select_relationships (ledger env) symbol side).

Definition order_ids (env : Env) (symbol side : string) : OrderIds :=
  collect_order_ids (tranche_views env symbol side)
    (relationship_views env symbol side).

(** From the specification's words ("quantity-weighted mean of tranche
    entry prices"): the entry prices weighted by the quantities, over the
    total quantity. *)
Definition spec_weighted_mean (tranches : list Tranche) : Q :=
  py_sum ((λ t, tranche_avg_entry_price t * tranche_total_quantity t) <$> tranches)
  / py_sum (tranche_total_quantity <$> tranches).

(** The two sources of [order_statuses]: the fetch of the open orders and
    the lookup in the cached order statuses. *)
Definition is_open_orders_fetch (e : Event) : bool :=
  match e with GET_openOrders _ => true | _ => false end.

Definition is_cache_lookup (e : Event) : bool :=
  match e with Execute (SelectOrderStatus _ _) => true | _ => false end.

(** [rel] is the most recent of the relationship rows of a tranche that
    name a take-profit or a stop-loss order. *)
Definition latest_relationship (db : Ledger) (symbol side : string)
    (tranche_id : Z) (rel : OrderRelationship) : Prop :=
  rel ∈ relationship_candidates db symbol side tranche_id
  ∧ ∀ rel', rel' ∈ relationship_candidates db symbol side tranche_id →
            (rel_created_at rel' ≤ rel_created_at rel)%Z.

(** The order ids of [t] are those of [t0], but for an id that [t0] lacks
    and the latest relationship row of the tranche supplies. *)
Definition ids_filled_from_latest (db : Ledger) (symbol side : string)
    (t t0 : Tranche) : Prop :=
  (tranche_tp_order_id t = tranche_tp_order_id t0
   ∨ (truthy_id (tranche_tp_order_id t0) = false
      ∧ ∃ rel, latest_relationship db symbol side (tranche_id t0) rel
               ∧ tranche_tp_order_id t = rel_tp_order_id rel))
  ∧ (tranche_sl_order_id t = tranche_sl_order_id t0
     ∨ (truthy_id (tranche_sl_order_id t0) = false
        ∧ ∃ rel, latest_relationship db symbol side (tranche_id t0) rel
                 ∧ tranche_sl_order_id t = rel_sl_order_id rel)).

(** ** Vocabulary of the further statements *)

Definition is_positions_fetch (e : Event) : bool :=
  match e with GET_positionRisk => true | _ => false end.

(** The statements a read runs for its tranches: whether the table exists,
    the tranches, and the latest relationship of each tranche. *)
Definition tranche_statements (env : Env) (symbol side : string) : list Event :=
  Execute SelectTableExists
  :: match tbl_position_tranches (ledger env) with
     | Some _ =>
         Execute (SelectTranches symbol side)
         :: ((λ t, Execute (SelectLatestRelationship symbol side (tranche_id t)))
             <$> ledger_tranches env symbol side)
     | None => []
     end.

(** The calls a read makes for [order_statuses]: none without credentials;
    else the open orders, then the cached statuses when an order id is
    known. *)
Definition order_status_calls (env : Env) (symbol side : string) : list Event :=
  if truthy_id (API_KEY env) && truthy_id (API_SECRET env) then
    GET_openOrders symbol
    :: (if bool_decide (tp_sl_order_ids (order_ids env symbol side) ≠ ∅)
        then [Execute (SelectOrderStatus symbol
                         (tp_sl_order_ids (order_ids env symbol side)))]
        else [])
  else [].

(** The entry trades the statement of lines 40-51 joins to a tranche:
    limit orders without parent order carrying the tranche's id. *)
Definition entry_trades (db : Ledger) (tranche_id : Z) : list Trade :=
  filter (λ t, tr_tranche_id t = Some tranche_id
               ∧ tr_order_type t = Some "LIMIT"
               ∧ tr_parent_order_id t = None) (tbl_trades db).

(** The rows of [position_tranches] for a symbol and side. *)
Definition tranche_rows (env : Env) (symbol side : string) : list TrancheRow :=
  match tbl_position_tranches (ledger env) with
  | Some rows =>
      filter (λ r, pt_symbol r = symbol ∧ pt_position_side r = side) rows
  | None => []
  end.

(** [v] is the greatest of the values [cells] holds, or [fallback] when
    they are all NULL. *)
Definition greatest_or (fallback : Q) (cells : list (option Q)) (v : Q) : Prop :=
  (Forall (λ cell, cell = None) cells ∧ v = fallback)
  ∨ (Some v ∈ cells ∧ ∀ x, Some x ∈ cells → x <= v).

(** The trades the statement of lines 89-102 ranges over: those of the
    symbol that are buys for a long side, sells for a short side. *)
Definition side_trades (db : Ledger) (symbol side : string) : list Trade :=
  filter (λ t, tr_symbol t = symbol
               ∧ ((tr_side t = "BUY" ∧ side = "LONG")
                  ∨ (tr_side t = "SELL" ∧ side = "SHORT")))
         (tbl_trades db).

(** The id an open order is filed under (line 164). *)
Definition open_order_id (order : OpenOrder) : string :=
  default "None" (oo_orderId order).

(** The test of lines 172-173: the open order is a take-profit or stop
    order by its type, or its id is known to the ledger. *)
Definition is_tracked (ids : OrderIds) (order : OpenOrder) : bool :=
  contains "TAKE_PROFIT" (default "" (oo_type order))
  || contains "STOP" (default "" (oo_type order))
  || bool_decide (open_order_id order ∈ tp_sl_order_ids ids).

(** The entry of lines 176-191 for an open order. *)
Definition open_order_view (ids : OrderIds) (order : OpenOrder)
    : OrderStatusView :=
  {| osv_order_id := open_order_id order;
     osv_status := Some (default "" (oo_status order));
     osv_quantity := default 0 (oo_origQty order);
     osv_price := py_or (oo_price order) (oo_stopPrice order);
     osv_side := oo_side order;
     osv_type :=
       if bool_decide (open_order_id order ∈ tp_order_ids ids)
          && String.eqb (default "" (oo_type order)) "LIMIT"
       then "TP_LIMIT"
       else if bool_decide (open_order_id order ∈ sl_order_ids ids)
               && contains "STOP" (default "" (oo_type order))
       then "SL_STOP"
       else default "" (oo_type order);
     osv_executed_qty := default 0 (oo_executedQty order) |}.

(** The entry of lines 215-230 for a cached order of quantity [quantity]. *)
Definition cached_order_view (ids : OrderIds) (row : OrderStatusRow)
    (quantity : Q) : OrderStatusView :=
  {| osv_order_id := os_order_id row;
     osv_status := os_status row;
     osv_quantity := quantity;
     osv_price := from_option PyNum PyNone (os_price row);
     osv_side := os_side row;
     osv_type :=
       if bool_decide (os_order_id row ∈ tp_order_ids ids) then "TP_ORDER"
       else if bool_decide (os_order_id row ∈ sl_order_ids ids) then "SL_ORDER"
       else "TP/SL";
     osv_executed_qty := 0 |}.

(** The open orders a read gets to see: those of the exchange's answer
    when it has status 200 and a JSON body, none otherwise. *)
Definition open_orders_seen (env : Env) (symbol : string) : list OpenOrder :=
  match exchange_openOrders env symbol with
  | Some response =>
      if bool_decide (status_code response = 200%Z)
      then default [] (json response)
      else []
  | None => []
  end.

(** The entries a read files for the open orders it sees. *)
Definition open_order_entries (env : Env) (symbol side : string)
    : gmap string OrderStatusView :=
  fold_left (record_open_order (order_ids env symbol side))
    (open_orders_seen env symbol) ∅.

(** The cached rows a read looks at: those of the symbol whose id the
    ledger knows. *)
Definition cached_rows (env : Env) (symbol side : string) : list OrderStatusRow :=
  select_order_status (ledger env) symbol
    (tp_sl_order_ids (order_ids env symbol side)).

Definition has_credentials (env : Env) : Prop :=
  truthy_id (API_KEY env) = true ∧ truthy_id (API_SECRET env) = true.

(** The side of the order that closes a position: SELL for a positive
    amount, BUY otherwise (lines 342-347). *)
Definition closing_side (p : Position) : string :=
  if Qltb 0 (default 0 (pos_positionAmt p)) then "SELL" else "BUY".

(** The arguments [close_position] gives [insert_trade] for an accepted
    close of the position [p] (lines 390-391). *)
Definition close_trade_args (symbol : string) (p : Position)
    (order_result : OrderResult) : InsertTradeArgs :=
  {| it_symbol := symbol;
     it_order_id := default "unknown" (or_orderId order_result);
     it_side := closing_side p;
     it_qty := Qabs (default 0 (pos_positionAmt p));
     it_price := 0;
     it_status := "SUCCESS";
     it_response := order_result;
     it_order_type := "MARKET";
     it_parent_order_id := None;
     it_filled_qty := Qabs (default 0 (pos_positionAmt p));
     it_avg_price := default (PyNum 0) (or_avgPrice order_result) |}.

Definition error_result (error : ErrorMessage) (status : Z) : CloseResult :=
  {| body := ErrorBody error; http_status := status |}.

(** Whether a position is one [close_position] may close for a requested
    symbol and side (lines 321-331). *)
Definition closable (symbol side : string) (p : Position) : Prop :=
  pos_symbol p = symbol
  ∧ ¬ default 0 (pos_positionAmt p) == 0
  ∧ (side = "BOTH"
     ∨ (side = "LONG" ∧ 0 < default 0 (pos_positionAmt p))
     ∨ (side = "SHORT" ∧ default 0 (pos_positionAmt p) < 0)).

(** Two environments give a read the same positions, configuration and
    ledger tables of tranches, trades and relationships; they may differ in
    credentials, open orders, cached order statuses, order submission and
    ledger writes. *)
Definition same_position_sources (env env' : Env) : Prop :=
  config env = config env'
  ∧ exchange_positionRisk env = exchange_positionRisk env'
  ∧ tbl_position_tranches (ledger env) = tbl_position_tranches (ledger env')
  ∧ tbl_trades (ledger env) = tbl_trades (ledger env')
  ∧ tbl_order_relationships (ledger env) = tbl_order_relationships (ledger env').

(** Two tranche dicts hold the same position: same id, quantity and entry
    prices. *)
Definition same_holding (t t0 : Tranche) : Prop :=
  tranche_id t = tranche_id t0
  ∧ tranche_total_quantity t = tranche_total_quantity t0
  ∧ tranche_avg_entry_price t = tranche_avg_entry_price t0
  ∧ filled_qty t = filled_qty t0
  ∧ actual_entry_price t = actual_entry_price t0.

(** ** Sample inputs *)

Module Sample.

Definition position (amt entry mark : Q) (position_side : string) : Position :=
  {| pos_symbol := "BTCUSDT";
     pos_positionAmt := Some amt;
     pos_entryPrice := Some entry;
     pos_markPrice := Some mark;
     pos_leverage := Some 10;
     pos_initialMargin := Some 4500;
     pos_positionSide := Some position_side |}.

(** Scenario A of the specification. *)
Definition btc_long : Position := position 1.5 30000 31000 "BOTH".

Definition btc_short : Position := position (-2) 100 90 "SHORT".

Definition tranche_row (id : Z) (quantity price : Q) (tp : option string)
    (pnl : Q) : TrancheRow :=
  {| pt_tranche_id := id;
     pt_symbol := "BTCUSDT";
     pt_position_side := "LONG";
     pt_total_quantity := quantity;
     pt_avg_entry_price := price;
     pt_tp_order_id := tp;
     pt_sl_order_id := None;
     pt_unrealized_pnl := Some pnl |}.

Definition relationship (tranche : Z) (tp sl : option string) (created_at : Z)
    : OrderRelationship :=
  {| rel_symbol := "BTCUSDT";
     rel_position_side := Some "LONG";
     rel_tranche_id := Some tranche;
     rel_tp_order_id := tp;
     rel_sl_order_id := sl;
     rel_created_at := created_at |}.

Definition cached_order (id : string) : OrderStatusRow :=
  {| os_order_id := id;
     os_symbol := "BTCUSDT";
     os_side := Some "SELL";
     os_quantity := Some 1;
     os_price := Some 110;
     os_position_side := Some "LONG";
     os_status := Some "FILLED" |}.

Definition db (rows : list TrancheRow) (rels : list OrderRelationship)
    (cache : list OrderStatusRow) : Ledger :=
  {| tbl_position_tranches := Some rows;
     tbl_trades := [];
     tbl_order_relationships := rels;
     tbl_order_status := cache |}.

Definition ok {A} (payload : A) : option (Response A) :=
  Some {| status_code := 200; json := Some payload; text := "" |}.

Definition settings (simulate : bool) (leverage : Q) : option Config :=
  Some {| SYMBOL_SETTINGS := {[ "BTCUSDT" := {| ss_leverage := Some leverage |} ]};
          SIMULATE_ONLY := simulate |}.

(** An environment with credentials; the open-orders request fails, the
    order submission is accepted, the ledger write raises. *)
Definition env (positions : option (Response (list Position)))
    (cfg : option Config) (ledger : Ledger) : Env :=
  {| API_KEY := Some "key";
     API_SECRET := Some "secret";
     config := cfg;
     ledger := ledger;
     exchange_positionRisk := positions;
     exchange_openOrders := λ _, None;
     exchange_order :=
       λ _, ok {| or_orderId := Some "42"; or_avgPrice := None |};
     insert_trade_raises := λ _, true |}.

(** Scenario B of the specification: two tranches, no live position. *)
Definition two_tranches : Ledger :=
  db [tranche_row 1 1 100 None 10; tranche_row 2 1 120 None (-5)] [] [].

Definition env_live : Env := env (ok [btc_long]) None two_tranches.

Definition env_ledger_only : Env := env None None two_tranches.

(** A long position held in hedge mode, and a close of it that the
    exchange accepts while the ledger write raises. *)
Definition btc_hedged_long : Position := position 3 100 110 "LONG".

Definition env_hedged : Env := env (ok [btc_hedged_long]) None two_tranches.

(** A tranche of negative quantity, a symbol of negative leverage. *)
Definition env_negative_quantity : Env :=
  env None None (db [tranche_row 1 (-1) 100 None 0] [] []).

Definition env_negative_leverage : Env :=
  env None (settings false (-5)) (db [tranche_row 1 1 100 None 0] [] []).

(** The simulation flag set, a live long position to close. *)
Definition env_simulate : Env :=
  env (ok [btc_long]) (settings true 10) two_tranches.

(** No credentials, while the ledger names a take-profit order and the
    cache holds its status. *)
Definition env_no_credentials : Env :=
  {| API_KEY := Some "";
     API_SECRET := Some "secret";
     config := None;
     ledger := db [tranche_row 1 1 100 (Some "TP1") 10] [] [cached_order "TP1"];
     exchange_positionRisk := None;
     exchange_openOrders := λ _, ok [];
     exchange_order := λ _, None;
     insert_trade_raises := λ _, false |}.

(** A tranche whose take-profit order was replaced: the relationship row
    created at 1 names order A, the row created at 2 names order B; the
    cache still holds the status of A. *)
Definition env_replaced_order : Env :=
  env None None
    (db [tranche_row 1 1 100 None 10]
        [relationship 1 (Some "A") None 1; relationship 1 (Some "B") None 2]
        [cached_order "A"]).

(** The latest relationship row of the tranche names no order yet; the
    row before it names order A. *)
Definition env_pending_order : Env :=
  env None None
    (db [tranche_row 1 1 100 None 10]
        [relationship 1 (Some "A") None 1; relationship 1 None None 2]
        []).

(** A read of the long side while the only live position is short. *)
Definition env_opposite_side : Env :=
  env (ok [btc_short]) None (db [tranche_row 1 1 50 None 3] [] []).

(** Property P5 of the specification: quantities 2 and 3 entered at 100
    and 200. *)
Definition env_weighted : Env :=
  env None None
    (db [tranche_row 1 2 100 (Some "TP1") 0; tranche_row 2 3 200 None 0] [] []).

(** An open limit order that the ledger knows as a take-profit order, and
    an open stop order the ledger does not know. *)
Definition open_order (id type : string) : OpenOrder :=
  {| oo_orderId := Some id;
     oo_type := Some type;
     oo_status := Some "NEW";
     oo_origQty := Some 2;
     oo_price := PyStr "210";
     oo_stopPrice := PyNone;
     oo_side := Some "SELL";
     oo_executedQty := Some 0 |}.

Definition env_open_orders : Env :=
  {| API_KEY := Some "key";
     API_SECRET := Some "secret";
     config := None;
     ledger := ledger env_weighted;
     exchange_positionRisk := None;
     exchange_openOrders :=
       λ _, ok [open_order "TP1" "LIMIT"; open_order "77" "STOP_MARKET";
                open_order "78" "LIMIT"];
     exchange_order := λ _, None;
     insert_trade_raises := λ _, false |}.

End Sample.

(** ** Further sample inputs *)

Module Cases.

(** The exchange answers the positions request with an error status. *)
Definition unavailable : option (Response (list Position)) :=
  Some {| status_code := 503; json := None; text := "Service Unavailable" |}.

Definition env_exchange_down : Env :=
  Sample.env unavailable None Sample.two_tranches.

(** A flat position of the symbol, a position of another symbol, then the
    long position. *)
Definition eth_long : Position :=
  {| pos_symbol := "ETHUSDT";
     pos_positionAmt := Some 4;
     pos_entryPrice := Some 2000;
     pos_markPrice := Some 2100;
     pos_leverage := Some 10;
     pos_initialMargin := Some 800;
     pos_positionSide := Some "BOTH" |}.

Definition btc_flat : Position := Sample.position 0 0 30500 "BOTH".

Definition env_mixed_positions : Env :=
  Sample.env (Sample.ok [btc_flat; eth_long; Sample.btc_long]) None
    Sample.two_tranches.

(** The exchange reports a position of another symbol and a flat position
    of the symbol; the ledger holds the two sample tranches. *)
Definition env_other_positions : Env :=
  Sample.env (Sample.ok [eth_long; btc_flat]) None Sample.two_tranches.

(** A ledger without the table [position_tranches]. *)
Definition env_no_table : Env :=
  Sample.env None None
    {| tbl_position_tranches := None;
       tbl_trades := [];
       tbl_order_relationships := [];
       tbl_order_status := [] |}.

(** A tranche entered by two limit orders, filled 0.4 at 99 and 1 at 101,
    and carrying a take-profit trade that is no entry. *)
Definition entry_trade (id : string) (parent : option string)
    (filled price : Q) : Trade :=
  {| tr_order_id := id;
     tr_symbol := "BTCUSDT";
     tr_side := "BUY";
     tr_order_type := Some "LIMIT";
     tr_parent_order_id := parent;
     tr_tranche_id := Some 1%Z;
     tr_filled_qty := Some filled;
     tr_avg_price := Some price;
     tr_status := Some "FILLED";
     tr_timestamp := 5 |}.

Definition env_entries : Env :=
  Sample.env None None
    {| tbl_position_tranches := Some [Sample.tranche_row 1 1 100 None 0];
       tbl_trades := [entry_trade "e1" None 0.4 99; entry_trade "e2" None 1 101;
                      entry_trade "tp" (Some "e1") 7 150];
       tbl_order_relationships := [];
       tbl_order_status := [] |}.

(** The cache holds a row without quantity for order A, then a complete
    row for order B; both orders are known to the ledger and none is
    open. *)
Definition cached_without_quantity (id : string) : OrderStatusRow :=
  {| os_order_id := id;
     os_symbol := "BTCUSDT";
     os_side := Some "SELL";
     os_quantity := None;
     os_price := None;
     os_position_side := Some "LONG";
     os_status := Some "NEW" |}.

Definition env_null_quantity : Env :=
  Sample.env None None
    (Sample.db [Sample.tranche_row 1 1 100 None 10]
       [Sample.relationship 1 (Some "A") None 1;
        Sample.relationship 1 (Some "B") None 2]
       [cached_without_quantity "A"; Sample.cached_order "B"]).

(** Order TP1 is open on the exchange and cached in the ledger. *)
Definition env_open_and_cached : Env :=
  {| API_KEY := Some "key";
     API_SECRET := Some "secret";
     config := None;
     ledger :=
       Sample.db [Sample.tranche_row 1 2 100 (Some "TP1") 0] []
         [Sample.cached_order "TP1"];
     exchange_positionRisk := None;
     exchange_openOrders :=
       λ _, Sample.ok [Sample.open_order "TP1" "LIMIT"];
     exchange_order := λ _, None;
     insert_trade_raises := λ _, false |}.

(** The exchange rejects the closing order of the hedged long position. *)
Definition env_order_rejected : Env :=
  {| API_KEY := Some "key";
     API_SECRET := Some "secret";
     config := None;
     ledger := Sample.two_tranches;
     exchange_positionRisk := Sample.ok [Sample.btc_hedged_long];
     exchange_openOrders := λ _, None;
     exchange_order :=
       λ _, Some {| status_code := 400; json := None;
                    text := "ReduceOnly Order is rejected." |};
     insert_trade_raises := λ _, false |}.

(** The sample read of two tranches at 100 and 120, without credentials
    and with another cache. *)
Definition env_ledger_only_offline : Env :=
  {| API_KEY := None;
     API_SECRET := None;
     config := None;
     ledger :=
       Sample.db [Sample.tranche_row 1 1 100 None 10;
                  Sample.tranche_row 2 1 120 None (-5)] []
         [Sample.cached_order "Z"];
     exchange_positionRisk := None;
     exchange_openOrders := λ _, Sample.ok [];
     exchange_order := λ _, None;
     insert_trade_raises := λ _, false |}.

(** A process off Windows with colorama, its codes written as tags. *)
Definition tags : colored_logger.Colorama :=
  {| colored_logger.Fore_BLUE := "<blue>";
     colored_logger.Fore_CYAN := "<cyan>";
     colored_logger.Fore_GREEN := "<green>";
     colored_logger.Fore_MAGENTA := "<magenta>";
     colored_logger.Fore_RED := "<red>";
     colored_logger.Fore_WHITE := "<white>";
     colored_logger.Fore_YELLOW := "<yellow>";
     colored_logger.Back_BLACK := "<on black>";
     colored_logger.Back_BLUE := "<on blue>";
     colored_logger.Back_RED := "<on red>";
     colored_logger.Back_WHITE := "<on white>";
     colored_logger.Back_YELLOW := "<on yellow>";
     colored_logger.Style_BRIGHT := "<bright>";
     colored_logger.Style_DIM := "<dim>";
     colored_logger.Style_RESET_ALL := "<reset>" |}.

Definition colors : colored_logger.Runtime :=
  {| colored_logger.win32 := false; colored_logger.colorama := Some tags |}.

(** Log records given by their level name and message; the base formatter
    prints the format and the message, cannot encode a format holding a
    color tag when the message is [snowman], and fails on the message
    [broken]. *)
Definition levelname (record : string * string) : string := record.1.

Definition base_format (_fmt _style_fmt : string) (record : string * string)
    : colored_logger.FormatResult :=
  if String.eqb record.2 "broken" then colored_logger.OtherError
  else if String.eqb record.2 "snowman" && contains "<" _style_fmt
  then colored_logger.UnicodeEncodeError
  else colored_logger.Formatted (_style_fmt ++ " | " ++ record.2).

End Cases.

(** ** Tactics *)

(** Runs [close_position] up to the point where a position is located and
    the simulation flag has been read: [Hr], [Hj], [Hf] give the answer of
    the exchange, its JSON body and the located position, [Hs] the
    simulation mode, [nonzero] that a located position has a non-zero
    amount. *)
Ltac run_to_located Hr Hj Hf Hs nonzero :=
  unfold close_position, request_positionRisk;
  rewrite Hr; cbn; rewrite bool_decide_eq_true_2 by done; cbn;
  unfold response_json; rewrite Hj; cbn; rewrite Hf;
  rewrite (nonzero _ _ _ _ Hf), Hs.

(** ** Lemmas *)

(** *** Comparisons of floats *)

Lemma Qltb_lt x y : Qltb x y = true ↔ (x < y)%Q.
Proof.
  unfold Qltb. rewrite negb_true_iff, <- not_true_iff_false, Qle_bool_iff.
  split; [apply Qnot_le_lt | apply Qlt_not_le].
Qed.

Lemma Qltb_ge x y : Qltb x y = false ↔ (y <= x)%Q.
Proof.
  unfold Qltb. rewrite negb_false_iff. apply Qle_bool_iff.
Qed.

(** *** Computations *)

Section run_lemmas.
Context {A B : Type}.
Implicit Types (m : Run A) (k : A → Run B).

Lemma outcome_bind m k a :
  outcome m = Returns a → outcome (bind m k) = outcome (k a).
Proof.
  destruct m as [t [a'|]]; simpl; intros [= ->].
  unfold bind. by destruct (k a).
Qed.

Lemma trace_bind m k a :
  outcome m = Returns a → trace (bind m k) = (trace m ++ trace (k a))%list.
Proof.
  destruct m as [t [a'|]]; simpl; intros [= ->].
  unfold bind. by destruct (k a).
Qed.

Lemma bind_ret (a : A) k : bind (ret a) k = k a.
Proof. unfold bind, ret. by destruct (k a). Qed.

Lemma bind_execute stmt (rows : A) k :
  bind (execute stmt rows) k = (Execute stmt :: trace (k rows), outcome (k rows)).
Proof. unfold execute, bind, emit, ret. simpl. by destruct (k rows). Qed.
End run_lemmas.

Lemma for_each_execute {A B C} (stmt : A → Statement) (rows : A → C)
    (f : C → A → B) (xs : list A) :
  for_each (λ x, r <~ execute (stmt x) (rows x) ;; ret (f r x)) xs
  = ((λ x, Execute (stmt x)) <$> xs, Returns ((λ x, f (rows x) x) <$> xs)).
Proof.
  induction xs as [|x xs IH]; [done|].
  cbn [for_each]. rewrite IH. cbn. by rewrite app_nil_r.
Qed.

Lemma py_div_pos x y : Qltb 0 y = true → py_div x y = ret (x / y).
Proof.
  intros Hy%Qltb_lt. unfold py_div.
  destruct (Qeq_bool y 0) eqn:E; [|done].
  apply Qeq_bool_iff in E. rewrite E in Hy. by apply Qlt_irrefl in Hy.
Qed.

(** *** The read route *)

Lemma fetch_exchange_position_run env symbol :
  fetch_exchange_position env symbol
  = ([GET_positionRisk], Returns (live_position env symbol)).
Proof.
  unfold live_position, fetch_exchange_position, request_positionRisk.
  destruct (exchange_positionRisk env) as [[code [ps|] txt]|]; simpl;
    try case_bool_decide; reflexivity.
Qed.

Lemma load_tranches_outcome env symbol side :
  outcome (load_tranches env symbol side (live_position env symbol))
  = Returns (tranche_views env symbol side).
Proof.
  unfold load_tranches, tranche_views, filled_tranches, ledger_tranches.
  rewrite bind_execute. unfold outcome at 1. cbn [snd].
  destruct (tbl_position_tranches (ledger env)) as [rows|]; [|done].
  rewrite bind_execute. unfold outcome at 1. cbn [snd].
  rewrite for_each_execute.
  by destruct (live_position env symbol).
Qed.

Lemma tranche_summary_run env symbol tranches :
  tranche_summary env symbol tranches
  = ret (let total_qty := py_sum (tranche_total_quantity <$> tranches) in
         let avg_price :=
           if Qltb 0 total_qty
           then py_sum ((λ t, tranche_avg_entry_price t * tranche_total_quantity t)
                        <$> tranches) / total_qty
           else 0 in
         let leverage := config_leverage env symbol in
         Build_Summary total_qty avg_price
           (py_sum ((λ t, default 0 (tranche_unrealized_pnl t)) <$> tranches))
           (if Qltb 0 leverage then total_qty * avg_price / leverage else 0)
           (length tranches)).
Proof.
  unfold tranche_summary. cbv zeta.
  destruct (Qltb 0 (py_sum (tranche_total_quantity <$> tranches))) eqn:Hq;
    [rewrite (py_div_pos _ _ Hq)|]; rewrite bind_ret;
    (destruct (Qltb 0 (config_leverage env symbol)) eqn:Hl;
      [rewrite (py_div_pos _ _ Hl)|]); by rewrite bind_ret.
Qed.

Lemma summarize_returns env symbol ep tranches :
  ∃ s, summarize env symbol ep tranches = ret s.
Proof.
  unfold summarize. destruct ep as [p|]; [by eexists|].
  destruct tranches; [by eexists|].
  rewrite tranche_summary_run. by eexists.
Qed.

Lemma fetch_order_statuses_returns env symbol ids :
  ∃ sts, outcome (fetch_order_statuses env symbol ids) = Returns sts.
Proof.
  unfold fetch_order_statuses, request_openOrders.
  destruct (truthy_id (API_KEY env) && truthy_id (API_SECRET env)); [|by eexists].
  destruct (exchange_openOrders env symbol) as [[code [os|] txt]|]; simpl;
    repeat case_bool_decide; simpl; by eexists.
Qed.

Lemma get_position_details_outcome env symbol side :
  ∃ sts sm,
    outcome (fetch_order_statuses env symbol (order_ids env symbol side))
      = Returns sts ∧
    summarize env symbol (live_position env symbol) (tranche_views env symbol side)
      = ret sm ∧
    outcome (get_position_details env symbol side)
      = Returns (Build_PositionDetails symbol side sm
                   (tranche_views env symbol side)
                   (relationship_views env symbol side) sts
                   (select_trades (ledger env) symbol side)).
Proof.
  destruct (fetch_order_statuses_returns env symbol (order_ids env symbol side))
    as [sts Hsts].
  destruct (summarize_returns env symbol (live_position env symbol)
              (tranche_views env symbol side)) as [sm Hsm].
  exists sts, sm. split; [done|]. split; [done|].
  unfold get_position_details.
  rewrite fetch_exchange_position_run.
  erewrite outcome_bind by reflexivity.
  erewrite outcome_bind by apply load_tranches_outcome.
  rewrite !bind_execute. unfold outcome at 1 2. cbn [snd].
  erewrite outcome_bind by apply Hsts.
  rewrite Hsm, bind_ret. reflexivity.
Qed.

(** *** The close route once a position is located *)

Lemma find_target_position_nonzero symbol side positions p :
  find_target_position symbol side positions = Some p →
  Qeq_bool (default 0 (pos_positionAmt p)) 0 = false.
Proof.
  intros [_ H]%find_some.
  apply andb_prop in H as [H _]. apply andb_prop in H as [_ H].
  unfold Qneb in H. by apply negb_true_iff in H.
Qed.

Lemma find_target_position_side symbol side positions p :
  find_target_position symbol side positions = Some p →
  side ≠ "BOTH" →
  (if Qltb 0 (default 0 (pos_positionAmt p)) then "LONG" else "SHORT") = side.
Proof.
  intros [_ H]%find_some Hside%String.eqb_neq.
  apply andb_prop in H as [_ H]. rewrite Hside in H. cbn in H.
  by apply String.eqb_eq.
Qed.

Lemma close_position_simulated env symbol side response positions p :
  exchange_positionRisk env = Some response →
  status_code response = 200%Z →
  json response = Some positions →
  find_target_position symbol side positions = Some p →
  simulation_mode env = true →
  close_position env symbol side
  = ([GET_positionRisk],
     Returns {| body := SimulatedBody symbol side
                          (Qabs (default 0 (pos_positionAmt p)));
                http_status := 200 |}).
Proof.
  intros Hr Hc Hj Hf Hs. by run_to_located Hr Hj Hf Hs find_target_position_nonzero.
Qed.

Lemma close_position_simulated_trace env symbol side :
  simulation_mode env = true →
  trace (close_position env symbol side) = [GET_positionRisk].
Proof.
  intros Hs. unfold close_position, request_positionRisk.
  destruct (exchange_positionRisk env) as [[code [ps|] txt]|]; cbn;
    try (case_bool_decide; cbn); try reflexivity.
  destruct (find_target_position symbol side ps) as [p|]; [|reflexivity].
  destruct (Qeq_bool _ _); [reflexivity|]. by rewrite Hs.
Qed.

Lemma close_position_accepted env symbol side response positions p
    order_response order_result :
  exchange_positionRisk env = Some response →
  status_code response = 200%Z →
  json response = Some positions →
  find_target_position symbol side positions = Some p →
  simulation_mode env = false →
  exchange_order env (closing_order symbol p) = Some order_response →
  status_code order_response = 200%Z →
  json order_response = Some order_result →
  let position_amt := default 0 (pos_positionAmt p) in
  ∃ args,
    close_position env symbol side
    = ([GET_positionRisk; POST_order (closing_order symbol p); InsertTrade args],
       Returns {| body := ClosedBody symbol side
                            (default "unknown" (or_orderId order_result))
                            (if Qltb 0 position_amt then "SELL" else "BUY")
                            (Qabs position_amt) order_result;
                  http_status := 200 |})
    ∧ it_symbol args = symbol
    ∧ it_order_id args = default "unknown" (or_orderId order_result)
    ∧ it_order_type args = "MARKET"
    ∧ it_status args = "SUCCESS"
    ∧ it_parent_order_id args = None
    ∧ it_filled_qty args = Qabs position_amt.
Proof.
  intros Hr Hc Hj Hf Hs Ho Hoc Hoj position_amt. subst position_amt.
  destruct (Qltb 0 (default 0 (pos_positionAmt p))) eqn:Hb;
    (eexists; split;
     [ run_to_located Hr Hj Hf Hs find_target_position_nonzero;
       unfold request_order; rewrite Ho; cbn;
       rewrite bool_decide_eq_true_2 by done; rewrite Hoj; cbn;
       unfold log_close; cbn; rewrite Hb;
       destruct (insert_trade_raises env _); reflexivity
     | done ]).
Qed.

Lemma close_position_submission env symbol side response positions p :
  exchange_positionRisk env = Some response →
  status_code response = 200%Z →
  json response = Some positions →
  find_target_position symbol side positions = Some p →
  simulation_mode env = false →
  filter is_order_submission (trace (close_position env symbol side))
  = [POST_order (closing_order symbol p)].
Proof.
  intros Hr Hc Hj Hf Hs. run_to_located Hr Hj Hf Hs find_target_position_nonzero.
  unfold request_order.
  destruct (exchange_order env _) as [[code [res|] txt]|]; cbn;
    try (case_bool_decide; cbn); try reflexivity.
  unfold log_close. cbn.
  destruct (insert_trade_raises env _); reflexivity.
Qed.

(** *** The closing order *)

Section closing_order_fields.
Variables (symbol : string) (p : Position).
Let position_amt := default 0 (pos_positionAmt p).
Let position_side := default "BOTH" (pos_positionSide p).

Lemma closing_order_quantity :
  closing_order symbol p !! "quantity" = Some (PyRepr (Qabs position_amt)).
Proof.
  unfold closing_order. destruct (String.eqb _ "BOTH"); by simplify_map_eq.
Qed.

Lemma closing_order_side :
  closing_order symbol p !! "side"
  = Some (PyStr (if Qltb 0 position_amt then "SELL" else "BUY")).
Proof.
  unfold closing_order. fold position_amt.
  destruct (String.eqb _ "BOTH"); simplify_map_eq; by destruct (Qltb 0 position_amt).
Qed.

Lemma closing_order_positionSide :
  closing_order symbol p !! "positionSide" = Some (PyStr position_side).
Proof.
  unfold closing_order. destruct (String.eqb _ "BOTH"); by simplify_map_eq.
Qed.

Lemma closing_order_reduceOnly :
  closing_order symbol p !! "reduceOnly"
  = if String.eqb position_side "BOTH" then Some (PyStr "true") else None.
Proof.
  unfold closing_order. fold position_side.
  destruct (String.eqb position_side "BOTH"); by simplify_map_eq.
Qed.
End closing_order_fields.

(** *** Frame of the tranche updates *)


Lemma fill_from_relationship_same_holding rel_row t :
  same_holding (fill_from_relationship rel_row t) t.
Proof.
  unfold fill_from_relationship. destruct rel_row as [[tp sl]|]; [|done].
  repeat (match goal with |- context [if ?b then _ else _] => destruct b end);
    done.
Qed.

Lemma fill_from_relationship_pnl rel_row t :
  tranche_unrealized_pnl (fill_from_relationship rel_row t)
  = tranche_unrealized_pnl t.
Proof.
  unfold fill_from_relationship. destruct rel_row as [[tp sl]|]; [|done].
  repeat (match goal with |- context [if ?b then _ else _] => destruct b end);
    done.
Qed.

Lemma set_unrealized_pnl_same_holding v t :
  same_holding (set_unrealized_pnl v t) t.
Proof. done. Qed.

Lemma same_holding_trans t1 t2 t3 :
  same_holding t1 t2 → same_holding t2 t3 → same_holding t1 t3.
Proof. unfold same_holding. intros (?&?&?&?&?) (?&?&?&?&?). repeat split; congruence. Qed.

Lemma filled_tranches_same_holding env symbol side :
  Forall2 same_holding (filled_tranches env symbol side)
    (ledger_tranches env symbol side).
Proof.
  unfold filled_tranches. apply Forall2_fmap_l, Forall_Forall2_diag, Forall_forall.
  intros t _. apply fill_from_relationship_same_holding.
Qed.

Lemma tranche_views_same_holding env symbol side :
  Forall2 same_holding (tranche_views env symbol side)
    (ledger_tranches env symbol side).
Proof.
  pose proof (filled_tranches_same_holding env symbol side) as H.
  unfold tranche_views.
  destruct (tbl_position_tranches (ledger env)), (live_position env symbol);
    try done.
  apply Forall2_fmap_l. eapply Forall2_impl; [exact H|].
  intros t t0 Ht. simpl. eapply same_holding_trans; [|exact Ht].
  apply set_unrealized_pnl_same_holding.
Qed.

Lemma tranche_views_stored_pnl env symbol side :
  live_position env symbol = None →
  Forall2 (λ t t0, tranche_unrealized_pnl t = tranche_unrealized_pnl t0)
    (tranche_views env symbol side) (ledger_tranches env symbol side).
Proof.
  intros Hl. unfold tranche_views. rewrite Hl.
  assert (Forall2 (λ t t0, tranche_unrealized_pnl t = tranche_unrealized_pnl t0)
            (filled_tranches env symbol side) (ledger_tranches env symbol side)).
  { unfold filled_tranches.
    apply Forall2_fmap_l, Forall_Forall2_diag, Forall_forall.
    intros t _. apply fill_from_relationship_pnl. }
  by destruct (tbl_position_tranches (ledger env)).
Qed.

Lemma tranche_views_overridden env symbol side p :
  live_position env symbol = Some p →
  Forall (λ t, tranche_unrealized_pnl t = Some 0) (tranche_views env symbol side).
Proof.
  intros Hl. unfold tranche_views, filled_tranches, ledger_tranches. rewrite Hl.
  destruct (tbl_position_tranches (ledger env)); [|by constructor].
  apply Forall_fmap, Forall_forall. done.
Qed.

Lemma ledger_tranches_rows env symbol side t0 :
  t0 ∈ ledger_tranches env symbol side →
  ∃ rows, tbl_position_tranches (ledger env) = Some rows
          ∧ pt t0 ∈ rows
          ∧ pt_symbol (pt t0) = symbol
          ∧ pt_position_side (pt t0) = side.
Proof.
  unfold ledger_tranches.
  destruct (tbl_position_tranches (ledger env)) as [rows|];
    [|by intros ?%elem_of_nil].
  unfold select_tranches, order_by_asc. rewrite merge_sort_Permutation.
  intros (r & -> & Hr)%list_elem_of_fmap.
  apply list_elem_of_filter in Hr as [[? ?] ?]. by exists rows.
Qed.

Lemma Forall2_fmap_eq {A B} (f : A → B) (l k : list A) :
  Forall2 (λ x y, f x = f y) l k → f <$> l = f <$> k.
Proof. induction 1; [done|]. cbn. congruence. Qed.

Lemma tranche_views_figures env symbol side :
  live_position env symbol = None →
  Forall2 (λ t t0, same_holding t t0
                   ∧ tranche_unrealized_pnl t = tranche_unrealized_pnl t0)
    (tranche_views env symbol side) (ledger_tranches env symbol side).
Proof.
  intros Hl.
  pose proof (tranche_views_same_holding env symbol side) as H1.
  pose proof (tranche_views_stored_pnl env symbol side Hl) as H2.
  revert H2. induction H1; inversion 1; subst; constructor; auto.
Qed.

(** *** The trace of a read *)

Lemma filter_none {A} (f : A → bool) (l : list A) :
  Forall (λ x, f x = false) l → filter f l = [].
Proof.
  induction 1 as [|x l Hx _ IH]; [done|].
  rewrite filter_cons_False; [done|]. by apply Is_true_false_2.
Qed.

Lemma load_tranches_trace env symbol side ep :
  trace (load_tranches env symbol side ep)
  = Execute SelectTableExists
    :: match tbl_position_tranches (ledger env) with
       | Some _ =>
           Execute (SelectTranches symbol side)
           :: ((λ t, Execute (SelectLatestRelationship symbol side (tranche_id t)))
               <$> ledger_tranches env symbol side)
       | None => []
       end.
Proof.
  unfold load_tranches, ledger_tranches.
  rewrite bind_execute. unfold trace at 1. cbn [fst]. f_equal.
  destruct (tbl_position_tranches (ledger env)) as [rows|]; [|done].
  rewrite bind_execute. unfold trace at 1. cbn [fst]. f_equal.
  rewrite for_each_execute. destruct ep; cbn; by rewrite app_nil_r.
Qed.

Lemma get_position_details_trace env symbol side :
  trace (get_position_details env symbol side)
  = GET_positionRisk
    :: trace (load_tranches env symbol side (live_position env symbol))
    ++ [Execute (SelectTrades symbol side);
        Execute (SelectRelationships symbol side)]
    ++ trace (fetch_order_statuses env symbol (order_ids env symbol side)).
Proof.
  destruct (fetch_order_statuses_returns env symbol (order_ids env symbol side))
    as [sts Hsts].
  destruct (summarize_returns env symbol (live_position env symbol)
              (tranche_views env symbol side)) as [sm Hsm].
  unfold get_position_details.
  rewrite fetch_exchange_position_run.
  erewrite trace_bind by reflexivity. cbn [trace fst app]. f_equal.
  erewrite trace_bind by apply load_tranches_outcome. f_equal.
  rewrite !bind_execute. unfold trace at 1 2. cbn [fst app]. do 2 f_equal.
  erewrite trace_bind by apply Hsts.
  rewrite Hsm, bind_ret. cbn. by rewrite app_nil_r.
Qed.

Lemma fetch_order_statuses_no_credentials env symbol ids :
  truthy_id (API_KEY env) = false ∨ truthy_id (API_SECRET env) = false →
  fetch_order_statuses env symbol ids = ret ∅.
Proof.
  unfold fetch_order_statuses. intros [-> | ->]; [done|].
  by rewrite andb_false_r.
Qed.

(** *** Relationship rows *)

Lemma key_le_flip_trans {A} (key : A → Z) : Transitive (flip (key_le key)).
Proof. intros x y z. unfold flip, key_le. lia. Qed.

Lemma key_le_flip_total {A} (key : A → Z) : Total (flip (key_le key)).
Proof. intros x y. unfold flip, key_le. lia. Qed.

Lemma head_order_by_desc {A} (key : A → Z) (l : list A) (x : A) :
  head (order_by_desc key l) = Some x →
  x ∈ l ∧ ∀ y, y ∈ l → (key y ≤ key x)%Z.
Proof.
  unfold order_by_desc. intros Hhead.
  pose proof (key_le_flip_trans key) as Htrans.
  pose proof (key_le_flip_total key) as Htotal.
  pose proof (StronglySorted_merge_sort (flip (key_le key)) l) as Hsorted.
  pose proof (merge_sort_Permutation (flip (key_le key)) l) as Hperm.
  destruct (merge_sort (flip (key_le key)) l) as [|z zs]; [done|].
  injection Hhead as ->. split.
  - rewrite <- Hperm. by left.
  - intros y Hy. rewrite <- Hperm in Hy.
    apply StronglySorted_inv in Hsorted as [_ Hall].
    apply elem_of_cons in Hy as [-> | Hy]; [lia|].
    rewrite Forall_forall in Hall. exact (Hall y Hy).
Qed.

Lemma select_latest_relationship_latest db symbol side tranche_id tp sl :
  select_latest_relationship db symbol side tranche_id = Some (tp, sl) →
  ∃ rel, latest_relationship db symbol side tranche_id rel
         ∧ rel_tp_order_id rel = tp ∧ rel_sl_order_id rel = sl.
Proof.
  unfold select_latest_relationship. intros H.
  apply fmap_Some in H as (rel & Hhead & [= -> ->]).
  exists rel. split; [|done]. by apply head_order_by_desc.
Qed.

Lemma fill_from_relationship_latest db symbol side t0 :
  ids_filled_from_latest db symbol side
    (fill_from_relationship
       (select_latest_relationship db symbol side (tranche_id t0)) t0)
    t0.
Proof.
  unfold fill_from_relationship.
  destruct (select_latest_relationship db symbol side (tranche_id t0))
    as [[tp sl]|] eqn:Hsel; [|by split; left].
  apply select_latest_relationship_latest in Hsel as (rel & Hrel & <- & <-).
  unfold ids_filled_from_latest, tranche_tp_order_id, tranche_sl_order_id.
  destruct (truthy_id (pt_tp_order_id (pt t0))) eqn:Htp;
    destruct (truthy_id (rel_tp_order_id rel)) eqn:Hrtp; cbn;
    rewrite ?Htp;
    destruct (truthy_id (pt_sl_order_id (pt t0))) eqn:Hsl;
    destruct (truthy_id (rel_sl_order_id rel)) eqn:Hrsl; cbn.
  all: split; first [by left | right; split; [done|]; by exists rel].
Qed.

Lemma tranche_views_ids env symbol side :
  Forall2 (ids_filled_from_latest (ledger env) symbol side)
    (tranche_views env symbol side) (ledger_tranches env symbol side).
Proof.
  assert (Forall2 (ids_filled_from_latest (ledger env) symbol side)
            (filled_tranches env symbol side) (ledger_tranches env symbol side))
    as H.
  { unfold filled_tranches.
    apply Forall2_fmap_l, Forall_Forall2_diag, Forall_forall.
    intros t _. apply fill_from_relationship_latest. }
  unfold tranche_views.
  destruct (tbl_position_tranches (ledger env)), (live_position env symbol);
    try done.
  apply Forall2_fmap_l. eapply Forall2_impl; [exact H|]. by intros t t0 Ht.
Qed.

(** *** The id sets *)

Lemma truthy_id_Some order_id : truthy_id (Some order_id) = true ↔ order_id ≠ "".
Proof.
  cbn. rewrite negb_true_iff. apply String.eqb_neq.
Qed.

Lemma elem_of_add_tp tp sl ids order_id :
  order_id ∈ tp_order_ids (add_sl sl (add_tp tp ids))
  ↔ order_id ∈ tp_order_ids ids ∨ (order_id ≠ "" ∧ tp = Some order_id).
Proof.
  assert (tp_order_ids (add_sl sl (add_tp tp ids)) = tp_order_ids (add_tp tp ids))
    as ->.
  { unfold add_sl. destruct sl; [|done]. by destruct (truthy_id _). }
  unfold add_tp. destruct tp as [id|].
  - destruct (truthy_id (Some id)) eqn:E.
    + apply truthy_id_Some in E. cbn. rewrite elem_of_union, elem_of_singleton.
      split; [intros [->|?]; [right|left]; done|].
      intros [?|[_ [= ->]]]; [by right|by left].
    + apply not_true_iff_false in E. rewrite truthy_id_Some in E.
      split; [by left|]. intros [?|[Hne [= ->]]]; done.
  - split; [by left|]. by intros [?|[_ ?]].
Qed.

Lemma elem_of_add_sl tp sl ids order_id :
  order_id ∈ sl_order_ids (add_sl sl (add_tp tp ids))
  ↔ order_id ∈ sl_order_ids ids ∨ (order_id ≠ "" ∧ sl = Some order_id).
Proof.
  assert (sl_order_ids (add_tp tp ids) = sl_order_ids ids) as Htp.
  { unfold add_tp. destruct tp; [|done]. by destruct (truthy_id _). }
  unfold add_sl. destruct sl as [id|]; rewrite <- Htp.
  - destruct (truthy_id (Some id)) eqn:E.
    + apply truthy_id_Some in E. cbn. rewrite elem_of_union, elem_of_singleton.
      split; [intros [->|?]; [right|left]; done|].
      intros [?|[_ [= ->]]]; [by right|by left].
    + apply not_true_iff_false in E. rewrite truthy_id_Some in E.
      split; [by left|]. intros [?|[Hne [= ->]]]; done.
  - split; [by left|]. by intros [?|[_ ?]].
Qed.

Section id_loop.
Context {A : Type} (tp sl : A → option string).

Lemma elem_of_loop_tp (l : list A) ids order_id :
  order_id ∈ tp_order_ids
               (fold_left (λ ids x, add_sl (sl x) (add_tp (tp x) ids)) l ids)
  ↔ order_id ∈ tp_order_ids ids
    ∨ (order_id ≠ "" ∧ ∃ x, x ∈ l ∧ tp x = Some order_id).
Proof.
  revert ids. induction l as [|x l IH]; intros ids; cbn.
  - split; [by left|]. intros [?|(_ & x & ?%elem_of_nil & _)]; done.
  - rewrite IH, elem_of_add_tp. split.
    + intros [[?|[? ?]]|(? & y & ? & ?)]; [by left| |].
      * right. split; [done|]. exists x. split; [by left|done].
      * right. split; [done|]. exists y. split; [by right|done].
    + intros [?|(? & y & [->|?]%elem_of_cons & ?)]; [by left; left| |].
      * by left; right.
      * right. split; [done|]. by exists y.
Qed.

Lemma elem_of_loop_sl (l : list A) ids order_id :
  order_id ∈ sl_order_ids
               (fold_left (λ ids x, add_sl (sl x) (add_tp (tp x) ids)) l ids)
  ↔ order_id ∈ sl_order_ids ids
    ∨ (order_id ≠ "" ∧ ∃ x, x ∈ l ∧ sl x = Some order_id).
Proof.
  revert ids. induction l as [|x l IH]; intros ids; cbn.
  - split; [by left|]. intros [?|(_ & x & ?%elem_of_nil & _)]; done.
  - rewrite IH, elem_of_add_sl. split.
    + intros [[?|[? ?]]|(? & y & ? & ?)]; [by left| |].
      * right. split; [done|]. exists x. split; [by left|done].
      * right. split; [done|]. exists y. split; [by right|done].
    + intros [?|(? & y & [->|?]%elem_of_cons & ?)]; [by left; left| |].
      * by left; right.
      * right. split; [done|]. by exists y.
Qed.
End id_loop.

Lemma elem_of_collect_tp tranches rels order_id :
  order_id ∈ tp_order_ids (collect_order_ids tranches rels)
  ↔ order_id ≠ ""
    ∧ ((∃ t, t ∈ tranches ∧ tranche_tp_order_id t = Some order_id)
       ∨ (∃ rel, rel ∈ rels ∧ rel_tp_order_id rel = Some order_id)).
Proof.
  unfold collect_order_ids.
  rewrite (elem_of_loop_tp rel_tp_order_id rel_sl_order_id).
  rewrite (elem_of_loop_tp tranche_tp_order_id tranche_sl_order_id).
  cbn. rewrite elem_of_empty. tauto.
Qed.

Lemma elem_of_collect_sl tranches rels order_id :
  order_id ∈ sl_order_ids (collect_order_ids tranches rels)
  ↔ order_id ≠ ""
    ∧ ((∃ t, t ∈ tranches ∧ tranche_sl_order_id t = Some order_id)
       ∨ (∃ rel, rel ∈ rels ∧ rel_sl_order_id rel = Some order_id)).
Proof.
  unfold collect_order_ids.
  rewrite (elem_of_loop_sl rel_tp_order_id rel_sl_order_id).
  rewrite (elem_of_loop_sl tranche_tp_order_id tranche_sl_order_id).
  cbn. rewrite elem_of_empty. tauto.
Qed.

Lemma tp_sl_union_add tp sl ids :
  tp_sl_order_ids ids = tp_order_ids ids ∪ sl_order_ids ids →
  tp_sl_order_ids (add_sl sl (add_tp tp ids))
  = tp_order_ids (add_sl sl (add_tp tp ids))
    ∪ sl_order_ids (add_sl sl (add_tp tp ids)).
Proof.
  intros H. unfold add_sl, add_tp.
  destruct tp as [t|], sl as [s|]; repeat destruct (truthy_id _); cbn;
    rewrite ?H; apply set_eq; intros x;
    rewrite ?elem_of_union, ?elem_of_singleton; tauto.
Qed.

Lemma tp_sl_union_loop {A} (tp sl : A → option string) (l : list A) ids :
  tp_sl_order_ids ids = tp_order_ids ids ∪ sl_order_ids ids →
  let ids' := fold_left (λ ids x, add_sl (sl x) (add_tp (tp x) ids)) l ids in
  tp_sl_order_ids ids' = tp_order_ids ids' ∪ sl_order_ids ids'.
Proof.
  revert ids. induction l as [|x l IH]; intros ids H; [done|].
  cbn. by apply IH, tp_sl_union_add.
Qed.

Lemma collect_order_ids_union tranches rels :
  tp_sl_order_ids (collect_order_ids tranches rels)
  = tp_order_ids (collect_order_ids tranches rels)
    ∪ sl_order_ids (collect_order_ids tranches rels).
Proof.
  unfold collect_order_ids. apply tp_sl_union_loop, tp_sl_union_loop.
  cbn. by rewrite union_empty_l_L.
Qed.

Lemma relationship_views_elem env symbol side rel :
  rel ∈ relationship_views env symbol side
  ↔ rel ∈ tbl_order_relationships (ledger env)
    ∧ rel_symbol rel = symbol ∧ rel_position_side rel = Some side.
Proof.
  unfold relationship_views, filter_relationships, select_relationships,
    order_by_desc.
  rewrite list_elem_of_filter, merge_sort_Permutation, list_elem_of_filter.
  tauto.
Qed.

(** ** The figures of a summary by their source *)

(** The four figures of a read, written over the live position when one
    is seen and over the ledger's tranches and the configured leverage
    otherwise. *)
Lemma summary_four_fields env symbol side :
  ∃ r, outcome (get_position_details env symbol side) = Returns r
    ∧ four_fields (summary r)
      = match live_position env symbol with
        | Some p =>
            let position_amt := default 0 (pos_positionAmt p) in
            let entry_price := default 0 (pos_entryPrice p) in
            let mark_price := default 0 (pos_markPrice p) in
            (Qabs position_amt,
             entry_price,
             (if Qltb 0 position_amt
              then (mark_price - entry_price) * position_amt
              else if Qltb position_amt 0
              then (entry_price - mark_price) * Qabs position_amt
              else 0),
             default 0 (pos_initialMargin p))
        | None =>
            let ts := ledger_tranches env symbol side in
            match ts with
            | [] => (0, 0, 0, 0)
            | _ :: _ =>
                let total := py_sum (tranche_total_quantity <$> ts) in
                let average :=
                  if Qltb 0 total
                  then py_sum ((λ t, tranche_avg_entry_price t
                                     * tranche_total_quantity t) <$> ts)
                       / total
                  else 0 in
                let leverage := config_leverage env symbol in
                (total,
                 average,
                 py_sum ((λ t, default 0 (tranche_unrealized_pnl t)) <$> ts),
                 if Qltb 0 leverage then total * average / leverage else 0)
            end
        end.
Proof.
  destruct (get_position_details_outcome env symbol side)
    as (sts & sm & _ & Hsm & Hr).
  eexists. split; [exact Hr|]. cbn [summary].
  unfold summarize in Hsm.
  destruct (live_position env symbol) as [p|] eqn:Hlive.
  { by injection Hsm as <-. }
  pose proof (tranche_views_figures env symbol side Hlive) as Hfig.
  assert (tranche_total_quantity <$> tranche_views env symbol side
          = tranche_total_quantity <$> ledger_tranches env symbol side) as Hq.
  { apply Forall2_fmap_eq. eapply Forall2_impl; [exact Hfig|].
    by intros t t0 [(_ & ? & _) _]. }
  assert ((λ t, tranche_avg_entry_price t * tranche_total_quantity t)
            <$> tranche_views env symbol side
          = (λ t, tranche_avg_entry_price t * tranche_total_quantity t)
            <$> ledger_tranches env symbol side) as Hpq.
  { apply Forall2_fmap_eq. eapply Forall2_impl; [exact Hfig|].
    intros t t0 [(_ & Ht & Hp & _) _]. cbn. by rewrite Ht, Hp. }
  assert ((λ t, default 0 (tranche_unrealized_pnl t))
            <$> tranche_views env symbol side
          = (λ t, default 0 (tranche_unrealized_pnl t))
            <$> ledger_tranches env symbol side) as Hpnl.
  { apply Forall2_fmap_eq. eapply Forall2_impl; [exact Hfig|].
    intros t t0 [_ Ht]. cbn. by rewrite Ht. }
  destruct (tranche_views env symbol side) as [|t ts] eqn:Hviews.
  - apply Forall2_nil_inv_l in Hfig. rewrite Hfig.
    by injection Hsm as <-.
  - rewrite tranche_summary_run, Hq, Hpq, Hpnl in Hsm. injection Hsm as <-.
    destruct (ledger_tranches env symbol side) as [|t0 ts0] eqn:Hledger.
    { by apply Forall2_nil_inv_r in Hfig. }
    reflexivity.
Qed.

(** ** Concrete runs *)

Example contains_examples :
  contains "STOP" "STOP_MARKET" = true
  ∧ contains "TAKE_PROFIT" "TAKE_PROFIT_MARKET" = true
  ∧ contains "STOP" "LIMIT" = false
  ∧ contains "" "" = true.
Proof. by vm_compute. Qed.

(** Property P5: the fallback average of quantities 2 and 3 at 100 and 200
    is 160, and the margin at the default leverage is 80. *)
Example weighted_average :
  ∃ r, outcome (get_position_details Sample.env_weighted "BTCUSDT" "LONG")
       = Returns r
       ∧ total_quantity (summary r) == 5
       ∧ avg_entry_price (summary r) == 160
       ∧ total_margin (summary r) == 80
       ∧ num_tranches (summary r) = 2%nat.
Proof. eexists. split; [vm_compute; reflexivity|]. by vm_compute. Qed.

(** The open orders of a read: the limit order known as take-profit is
    typed TP_LIMIT, the unknown stop order keeps its type, the unknown limit
    order is left out. *)
Example open_order_types :
  ∃ r, outcome (get_position_details Sample.env_open_orders "BTCUSDT" "LONG")
       = Returns r
       ∧ osv_type <$> order_statuses r !! "TP1" = Some "TP_LIMIT"
       ∧ osv_type <$> order_statuses r !! "77" = Some "STOP_MARKET"
       ∧ order_statuses r !! "78" = None
       ∧ trace (get_position_details Sample.env_open_orders "BTCUSDT" "LONG")
         = [GET_positionRisk; Execute SelectTableExists;
            Execute (SelectTranches "BTCUSDT" "LONG");
            Execute (SelectLatestRelationship "BTCUSDT" "LONG" 1);
            Execute (SelectLatestRelationship "BTCUSDT" "LONG" 2);
            Execute (SelectTrades "BTCUSDT" "LONG");
            Execute (SelectRelationships "BTCUSDT" "LONG");
            GET_openOrders "BTCUSDT";
            Execute (SelectOrderStatus "BTCUSDT" {["TP1"]})].
Proof. eexists. split; [vm_compute; reflexivity|]. by vm_compute. Qed.

(** A close that finds no position answers 404 and submits nothing
    (Scenario C of the specification). *)
Example close_without_position :
  close_position Sample.env_hedged "ETHUSDT" "LONG"
  = ([GET_positionRisk],
     Returns {| body := ErrorBody (NoOpenPositionFound "ETHUSDT" "LONG");
                http_status := 404 |}).
Proof. by vm_compute. Qed.

(** ** The claims *)

(** C1.  When a read sees a live exchange position, the summary is read off
    that position: the quantity is the absolute position amount, the entry
    price and the initial margin are the position's own, and the PnL is
    [(mark - entry) * amt] for a long, [(entry - mark) * |amt|] for a short
    and 0 for a flat position.  For the amount 1.5 entered at 30000 and
    marked at 31000 the PnL is 1500 and the quantity 1.5. *)
Theorem C1_live_summary env symbol side p :
  live_position env symbol = Some p →
  ∃ r, outcome (get_position_details env symbol side) = Returns r ∧
    let position_amt := default 0 (pos_positionAmt p) in
    let entry_price := default 0 (pos_entryPrice p) in
    let mark_price := default 0 (pos_markPrice p) in
    total_quantity (summary r) = Qabs position_amt
    ∧ avg_entry_price (summary r) = entry_price
    ∧ total_margin (summary r) = default 0 (pos_initialMargin p)
    ∧ (0 < position_amt →
       unrealized_pnl (summary r) = (mark_price - entry_price) * position_amt)
    ∧ (position_amt < 0 →
       unrealized_pnl (summary r) = (entry_price - mark_price) * Qabs position_amt)
    ∧ (position_amt == 0 → unrealized_pnl (summary r) = 0)
    ∧ (pos_positionAmt p = Some 1.5 → pos_entryPrice p = Some 30000 →
       pos_markPrice p = Some 31000 →
       unrealized_pnl (summary r) == 1500 ∧ total_quantity (summary r) == 1.5).
Proof.
  intros Hlive.
  destruct (get_position_details_outcome env symbol side) as (sts & sm & _ & Hsm & Hr).
  eexists. split; [exact Hr|]. cbn [summary].
  rewrite Hlive in Hsm. injection Hsm as <-. cbn.
  split_and!; try reflexivity.
  - intros Hpos%Qltb_lt. by rewrite Hpos.
  - intros Hneg. assert (Qltb 0 (default 0 (pos_positionAmt p)) = false) as ->.
    { apply Qltb_ge. by apply Qlt_le_weak. }
    apply Qltb_lt in Hneg. by rewrite Hneg.
  - intros Hz. assert (Qltb 0 (default 0 (pos_positionAmt p)) = false) as ->.
    { apply Qltb_ge. rewrite Hz. apply Qle_refl. }
    assert (Qltb (default 0 (pos_positionAmt p)) 0 = false) as ->; [|done].
    apply Qltb_ge. rewrite Hz. apply Qle_refl.
  - intros -> -> ->. by vm_compute.
Qed.

(** C1 at Scenario A of the specification. *)
Lemma C1_live_summary_witness :
  live_position Sample.env_live "BTCUSDT" = Some Sample.btc_long
  ∧ ∃ r, outcome (get_position_details Sample.env_live "BTCUSDT" "LONG") = Returns r
         ∧ unrealized_pnl (summary r) == 1500
         ∧ total_quantity (summary r) == 1.5.
Proof.
  split; [reflexivity|].
  destruct (C1_live_summary Sample.env_live "BTCUSDT" "LONG" Sample.btc_long eq_refl)
    as (r & Hr & _ & _ & _ & _ & _ & _ & Hscenario).
  exists r. split; [exact Hr|]. by apply Hscenario.
Defined.

(** C2.  The four figures of a summary come from one source.  When the read
    sees a live exchange position, all four are written over the fields of
    that position alone: the absolute amount, the entry price, the PnL of
    the price move and the initial margin.  When it sees none, all four
    are written over the ledger's tranches and the configured leverage
    alone: the sum of the quantities, the quantity-weighted entry price,
    the sum of the stored PnL and the margin of these two figures.  With
    no tranche either, all four are zero.  So two reads that see the same
    live position report the same four figures whatever their ledgers and
    configurations hold, and two reads that see no live position report
    the same four figures when their ledger tranches and leverage agree,
    whatever the exchange answered. *)
Theorem C2_source_exclusivity env symbol side :
  ∃ r, outcome (get_position_details env symbol side) = Returns r
    ∧ four_fields (summary r)
      = match live_position env symbol with
        | Some p =>
            let position_amt := default 0 (pos_positionAmt p) in
            let entry_price := default 0 (pos_entryPrice p) in
            let mark_price := default 0 (pos_markPrice p) in
            (Qabs position_amt,
             entry_price,
             (if Qltb 0 position_amt
              then (mark_price - entry_price) * position_amt
              else if Qltb position_amt 0
              then (entry_price - mark_price) * Qabs position_amt
              else 0),
             default 0 (pos_initialMargin p))
        | None =>
            let ts := ledger_tranches env symbol side in
            match ts with
            | [] => (0, 0, 0, 0)
            | _ :: _ =>
                let total := py_sum (tranche_total_quantity <$> ts) in
                let average :=
                  if Qltb 0 total
                  then py_sum ((λ t, tranche_avg_entry_price t
                                     * tranche_total_quantity t) <$> ts)
                       / total
                  else 0 in
                let leverage := config_leverage env symbol in
                (total,
                 average,
                 py_sum ((λ t, default 0 (tranche_unrealized_pnl t)) <$> ts),
                 if Qltb 0 leverage then total * average / leverage else 0)
            end
        end
    ∧ (∀ env' r',
         outcome (get_position_details env' symbol side) = Returns r' →
         is_Some (live_position env symbol) →
         live_position env' symbol = live_position env symbol →
         four_fields (summary r') = four_fields (summary r))
    ∧ (∀ env' r',
         outcome (get_position_details env' symbol side) = Returns r' →
         live_position env symbol = None →
         live_position env' symbol = None →
         ledger_tranches env' symbol side = ledger_tranches env symbol side →
         config_leverage env' symbol = config_leverage env symbol →
         four_fields (summary r') = four_fields (summary r)).
Proof.
  destruct (summary_four_fields env symbol side) as (r & Hr & Hfields).
  exists r. split; [exact Hr|]. split; [exact Hfields|].
  split.
  - intros env' r' Hr' [p Hlive] Hsame.
    destruct (summary_four_fields env' symbol side) as (r0 & Hr0 & Hfields').
    rewrite Hr' in Hr0. injection Hr0 as <-.
    rewrite Hfields, Hfields', Hsame. by rewrite Hlive.
  - intros env' r' Hr' Hnone Hnone' Hledger Hleverage.
    destruct (summary_four_fields env' symbol side) as (r0 & Hr0 & Hfields').
    rewrite Hr' in Hr0. injection Hr0 as <-.
    rewrite Hfields, Hfields', Hnone, Hnone', Hledger. cbv zeta.
    by rewrite Hleverage.
Qed.

(** C4.  When a read sees a live exchange position, every returned tranche
    has the unrealized PnL 0, whatever the ledger stores, and carries the
    id, quantity and entry prices of the ledger tranche it comes from. *)
Theorem C4_pnl_override env symbol side p :
  live_position env symbol = Some p →
  ∃ r, outcome (get_position_details env symbol side) = Returns r
    ∧ Forall (λ t, tranche_unrealized_pnl t = Some 0) (tranches r)
    ∧ Forall2 same_holding (tranches r) (ledger_tranches env symbol side)
    ∧ ∀ t0, t0 ∈ ledger_tranches env symbol side →
            ∃ rows, tbl_position_tranches (ledger env) = Some rows
                    ∧ pt t0 ∈ rows.
Proof.
  intros Hlive.
  destruct (get_position_details_outcome env symbol side)
    as (sts & sm & _ & _ & Hr).
  eexists. split; [exact Hr|]. cbn [tranches]. split_and!.
  - by eapply tranche_views_overridden.
  - apply tranche_views_same_holding.
  - intros t0 (rows & ? & ? & _)%ledger_tranches_rows. by exists rows.
Qed.

(** C4 at a read that sees the sample long position: both tranches, stored
    with PnL 10 and -5, are returned with PnL 0. *)
Lemma C4_pnl_override_witness :
  live_position Sample.env_live "BTCUSDT" = Some Sample.btc_long
  ∧ ∃ r, outcome (get_position_details Sample.env_live "BTCUSDT" "LONG") = Returns r
         ∧ length (tranches r) = 2%nat
         ∧ Forall (λ t, tranche_unrealized_pnl t = Some 0) (tranches r).
Proof.
  split; [reflexivity|].
  destruct (C4_pnl_override Sample.env_live "BTCUSDT" "LONG" Sample.btc_long eq_refl)
    as (r & Hr & Hpnl & Hsame & _).
  exists r. split; [exact Hr|]. split; [|exact Hpnl].
  by rewrite (Forall2_length _ _ _ Hsame).
Defined.

(** C3, as stated, fails where the total quantity or the leverage is
    negative: the code then answers 0 for the average entry price and for
    the margin, not the weighted mean and the quotient. *)
Lemma C3_counterexample :
  (live_position Sample.env_negative_quantity "BTCUSDT" = None
   ∧ ledger_tranches Sample.env_negative_quantity "BTCUSDT" "LONG" ≠ []
   ∧ ∃ r, outcome (get_position_details Sample.env_negative_quantity
                     "BTCUSDT" "LONG") = Returns r
          ∧ ¬ total_quantity (summary r) == 0
          ∧ ¬ avg_entry_price (summary r) == spec_weighted_mean (tranches r))
  ∧ (live_position Sample.env_negative_leverage "BTCUSDT" = None
     ∧ ledger_tranches Sample.env_negative_leverage "BTCUSDT" "LONG" ≠ []
     ∧ ∃ r, outcome (get_position_details Sample.env_negative_leverage
                       "BTCUSDT" "LONG") = Returns r
            ∧ ¬ config_leverage Sample.env_negative_leverage "BTCUSDT" == 0
            ∧ ¬ total_margin (summary r)
                == total_quantity (summary r) * avg_entry_price (summary r)
                   / config_leverage Sample.env_negative_leverage "BTCUSDT").
Proof.
  split; (split; [reflexivity|]; split; [by vm_compute|]);
    (eexists; split; [vm_compute; reflexivity|]);
    split; intros H%Qeq_bool_iff; by vm_compute in H.
Qed.

(** C3, amended.  With no live position and a tranche in the ledger, the
    summary is the arithmetic over the tranches: the total quantity is the
    sum of their quantities; the average entry price is their
    quantity-weighted mean when the total quantity is positive and 0
    otherwise; the PnL is the sum of their stored PnL; the margin is
    [total_quantity * avg_entry_price / leverage] when the leverage is
    positive and 0 otherwise (so a leverage of 0 gives 0, and the read
    returns); the leverage is 10 when the configuration cannot be read. *)
Theorem C3_ledger_summary env symbol side :
  live_position env symbol = None →
  ledger_tranches env symbol side ≠ [] →
  ∃ r, outcome (get_position_details env symbol side) = Returns r ∧
    let ts := ledger_tranches env symbol side in
    let total := py_sum (tranche_total_quantity <$> ts) in
    let leverage := config_leverage env symbol in
    Forall2 (λ t t0, same_holding t t0
                     ∧ tranche_unrealized_pnl t = tranche_unrealized_pnl t0)
      (tranches r) ts
    ∧ total_quantity (summary r) = total
    ∧ (0 < total → avg_entry_price (summary r) = spec_weighted_mean ts)
    ∧ (total <= 0 → avg_entry_price (summary r) = 0)
    ∧ unrealized_pnl (summary r)
      = py_sum ((λ t, default 0 (tranche_unrealized_pnl t)) <$> ts)
    ∧ (0 < leverage →
       total_margin (summary r) = total * avg_entry_price (summary r) / leverage)
    ∧ (leverage <= 0 → total_margin (summary r) = 0)
    ∧ (config env = None → leverage = 10).
Proof.
  intros Hlive Hne.
  destruct (get_position_details_outcome env symbol side)
    as (sts & sm & _ & Hsm & Hr).
  eexists. split; [exact Hr|]. cbn [summary tranches].
  pose proof (tranche_views_figures env symbol side Hlive) as Hfig.
  assert (tranche_total_quantity <$> tranche_views env symbol side
          = tranche_total_quantity <$> ledger_tranches env symbol side) as Hq.
  { apply Forall2_fmap_eq. eapply Forall2_impl; [exact Hfig|].
    by intros t t0 [(_ & ? & _) _]. }
  assert ((λ t, tranche_avg_entry_price t * tranche_total_quantity t)
            <$> tranche_views env symbol side
          = (λ t, tranche_avg_entry_price t * tranche_total_quantity t)
            <$> ledger_tranches env symbol side) as Hpq.
  { apply Forall2_fmap_eq. eapply Forall2_impl; [exact Hfig|].
    intros t t0 [(_ & Ht & Hp & _) _]. cbn. by rewrite Ht, Hp. }
  assert ((λ t, default 0 (tranche_unrealized_pnl t))
            <$> tranche_views env symbol side
          = (λ t, default 0 (tranche_unrealized_pnl t))
            <$> ledger_tranches env symbol side) as Hpnl.
  { apply Forall2_fmap_eq. eapply Forall2_impl; [exact Hfig|].
    intros t t0 [_ Ht]. cbn. by rewrite Ht. }
  unfold summarize in Hsm. rewrite Hlive in Hsm.
  destruct (tranche_views env symbol side) as [|t ts] eqn:Hts.
  { apply Forall2_nil_inv_l in Hfig. done. }
  rewrite tranche_summary_run, Hq, Hpq, Hpnl in Hsm. injection Hsm as <-.
  cbn [total_quantity avg_entry_price unrealized_pnl total_margin].
  split_and!; try done.
  - intros Hpos%Qltb_lt. by rewrite Hpos.
  - intros Hle%Qltb_ge. by rewrite Hle.
  - intros Hpos%Qltb_lt. by rewrite Hpos.
  - intros Hle%Qltb_ge. by rewrite Hle.
  - unfold config_leverage. by intros ->.
Qed.

(** Scenario B of the specification: quantities 1 and 1 at 100 and 120 with
    PnL 10 and -5 give the average 110 and the PnL 5. *)
Lemma C3_ledger_summary_witness :
  live_position Sample.env_ledger_only "BTCUSDT" = None
  ∧ ledger_tranches Sample.env_ledger_only "BTCUSDT" "LONG" ≠ []
  ∧ ∃ r, outcome (get_position_details Sample.env_ledger_only "BTCUSDT" "LONG")
         = Returns r
         ∧ avg_entry_price (summary r) == 110
         ∧ unrealized_pnl (summary r) == 5
         ∧ total_margin (summary r) == 22.
Proof.
  assert (ledger_tranches Sample.env_ledger_only "BTCUSDT" "LONG" ≠ []) as Hne
    by (by vm_compute).
  split; [reflexivity|]. split; [exact Hne|].
  destruct (C3_ledger_summary Sample.env_ledger_only "BTCUSDT" "LONG" eq_refl Hne)
    as (r & Hr & _ & Htot & Havg & _ & Hpnl & Hmargin & _ & Hlev).
  exists r. split; [exact Hr|]. split_and!.
  - rewrite Havg; by vm_compute.
  - rewrite Hpnl. by vm_compute.
  - rewrite Hmargin, Havg; by vm_compute.
Defined.

(** C5, as stated, fails: with the simulation flag set the close still
    fetches the live positions from the exchange before it answers, and it
    answers an error, not a simulated success, when that fetch locates no
    position to close. *)
Lemma C5_counterexample :
  simulation_mode Sample.env_simulate = true
  ∧ outcome (close_position Sample.env_simulate "BTCUSDT" "LONG")
    = Returns {| body := SimulatedBody "BTCUSDT" "LONG" 1.5; http_status := 200 |}
  ∧ filter is_exchange_call
      (trace (close_position Sample.env_simulate "BTCUSDT" "LONG"))
    = [GET_positionRisk]
  ∧ filter is_exchange_call
      (trace (close_position Sample.env_simulate "BTCUSDT" "LONG")) ≠ []
  ∧ outcome (close_position Sample.env_simulate "ETHUSDT" "LONG")
    = Returns {| body := ErrorBody (NoOpenPositionFound "ETHUSDT" "LONG");
                 http_status := 404 |}.
Proof. by vm_compute. Qed.

(** C5, amended.  With the simulation flag set, a close makes one call to
    the exchange, the fetch of the live positions, submits no order and
    writes nothing to the ledger; when a position is located it answers
    success and simulated. *)
Theorem C5_simulated_close env symbol side :
  simulation_mode env = true →
  trace (close_position env symbol side) = [GET_positionRisk]
  ∧ filter is_order_submission (trace (close_position env symbol side)) = []
  ∧ filter is_ledger_write (trace (close_position env symbol side)) = []
  ∧ ∀ response positions p,
      exchange_positionRisk env = Some response →
      status_code response = 200%Z →
      json response = Some positions →
      find_target_position symbol side positions = Some p →
      ∃ r, outcome (close_position env symbol side) = Returns r
           ∧ success (body r) = true
           ∧ simulated (body r) = Some true
           ∧ http_status r = 200%Z.
Proof.
  intros Hs. rewrite (close_position_simulated_trace env symbol side Hs).
  split_and!; try reflexivity.
  intros response positions p Hr Hc Hj Hf.
  rewrite (close_position_simulated env symbol side response positions p)
    by done.
  by eexists.
Qed.

(** The amended C5 at a close of the sample long position. *)
Lemma C5_simulated_close_witness :
  simulation_mode Sample.env_simulate = true
  ∧ trace (close_position Sample.env_simulate "BTCUSDT" "LONG") = [GET_positionRisk]
  ∧ ∃ r, outcome (close_position Sample.env_simulate "BTCUSDT" "LONG") = Returns r
         ∧ success (body r) = true
         ∧ simulated (body r) = Some true.
Proof.
  split; [reflexivity|].
  destruct (C5_simulated_close Sample.env_simulate "BTCUSDT" "LONG" eq_refl)
    as (Htrace & _ & _ & Hlocated).
  split; [exact Htrace|].
  destruct (Hlocated _ [Sample.btc_long] Sample.btc_long eq_refl eq_refl eq_refl eq_refl)
    as (r & Hr & Hsuccess & Hsim & _).
  by exists r.
Defined.

(** C6.  A close that locates a position and is not simulated submits one
    order: its quantity is the absolute position amount; its side is SELL
    for a long and BUY for a short position (and so SELL for a requested
    side LONG, BUY for SHORT); its positionSide is the position's own (BOTH
    when the position names none); it carries reduceOnly, set to true,
    exactly when that position side is BOTH, and for any other position
    side it has no reduceOnly key. *)
Theorem C6_closing_order env symbol side response positions p :
  exchange_positionRisk env = Some response →
  status_code response = 200%Z →
  json response = Some positions →
  find_target_position symbol side positions = Some p →
  simulation_mode env = false →
  let position_amt := default 0 (pos_positionAmt p) in
  let position_side := default "BOTH" (pos_positionSide p) in
  ∃ order_data,
    filter is_order_submission (trace (close_position env symbol side))
    = [POST_order order_data]
    ∧ order_data !! "symbol" = Some (PyStr symbol)
    ∧ order_data !! "type" = Some (PyStr "MARKET")
    ∧ order_data !! "quantity" = Some (PyRepr (Qabs position_amt))
    ∧ (0 < position_amt → order_data !! "side" = Some (PyStr "SELL"))
    ∧ (position_amt < 0 → order_data !! "side" = Some (PyStr "BUY"))
    ∧ (side = "LONG" → order_data !! "side" = Some (PyStr "SELL"))
    ∧ (side = "SHORT" → order_data !! "side" = Some (PyStr "BUY"))
    ∧ order_data !! "positionSide" = Some (PyStr position_side)
    ∧ (order_data !! "reduceOnly" = Some (PyStr "true") ↔ position_side = "BOTH")
    ∧ (position_side ≠ "BOTH" → order_data !! "reduceOnly" = None).
Proof.
  intros Hr Hc Hj Hf Hs position_amt position_side.
  exists (closing_order symbol p). split.
  { by eapply close_position_submission. }
  rewrite closing_order_quantity, closing_order_side,
    closing_order_positionSide, closing_order_reduceOnly.
  fold position_amt position_side. split_and!; try done.
  - unfold closing_order. destruct (String.eqb _ "BOTH"); by simplify_map_eq.
  - unfold closing_order. destruct (String.eqb _ "BOTH"); by simplify_map_eq.
  - intros Hpos%Qltb_lt. by rewrite Hpos.
  - intros Hneg. assert (Qltb 0 position_amt = false) as ->; [|done].
    apply Qltb_ge. by apply Qlt_le_weak.
  - intros ->.
    pose proof (find_target_position_side _ _ _ _ Hf ltac:(done)) as Hdir.
    fold position_amt in Hdir. by destruct (Qltb 0 position_amt).
  - intros ->.
    pose proof (find_target_position_side _ _ _ _ Hf ltac:(done)) as Hdir.
    fold position_amt in Hdir. by destruct (Qltb 0 position_amt).
  - destruct (String.eqb position_side "BOTH") eqn:E.
    + by apply String.eqb_eq in E.
    + apply String.eqb_neq in E. done.
  - intros Hne%String.eqb_neq. by rewrite Hne.
Qed.

(** C6 at a close of a long position held in hedge mode. *)
Lemma C6_closing_order_witness :
  simulation_mode Sample.env_hedged = false
  ∧ find_target_position "BTCUSDT" "LONG" [Sample.btc_hedged_long]
    = Some Sample.btc_hedged_long
  ∧ ∃ order_data,
      filter is_order_submission
        (trace (close_position Sample.env_hedged "BTCUSDT" "LONG"))
      = [POST_order order_data]
      ∧ order_data !! "side" = Some (PyStr "SELL")
      ∧ order_data !! "positionSide" = Some (PyStr "LONG")
      ∧ order_data !! "reduceOnly" = None.
Proof.
  split; [reflexivity|]. split; [reflexivity|].
  destruct (C6_closing_order Sample.env_hedged "BTCUSDT" "LONG" _
              [Sample.btc_hedged_long] Sample.btc_hedged_long
              eq_refl eq_refl eq_refl eq_refl eq_refl)
    as (order_data & Hsub & _ & _ & _ & Hsell & _ & _ & _ & Hps & _ & Habsent).
  exists order_data. split; [exact Hsub|]. split_and!.
  - apply Hsell. reflexivity.
  - exact Hps.
  - apply Habsent. discriminate.
Defined.

(** C7, as stated, fails.  First, for the id sets: a tranche has two
    relationship rows created at 1 and 2, and order A is named by the older
    row only; the displayed take-profit id is B, of the latest row, yet A
    is in the take-profit set and the response classifies it as a
    take-profit order.  Second, for the displayed ids: when the row with
    the greatest [created_at] names no order, the tranche shows the id A of
    the row before it. *)
Lemma C7_counterexample :
  (relationship_candidates (ledger Sample.env_replaced_order) "BTCUSDT" "LONG" 1
   = [Sample.relationship 1 (Some "A") None 1;
      Sample.relationship 1 (Some "B") None 2]
   ∧ ∃ r, outcome (get_position_details Sample.env_replaced_order
                     "BTCUSDT" "LONG") = Returns r
          ∧ tranche_tp_order_id <$> tranches r = [Some "B"]
          ∧ "A" ∈ tp_order_ids
                    (collect_order_ids (tranches r) (order_relationships r))
          ∧ osv_type <$> order_statuses r !! "A" = Some "TP_ORDER")
  ∧ (tbl_order_relationships (ledger Sample.env_pending_order)
     = [Sample.relationship 1 (Some "A") None 1;
        Sample.relationship 1 None None 2]
     ∧ ∃ r, outcome (get_position_details Sample.env_pending_order
                       "BTCUSDT" "LONG") = Returns r
            ∧ tranche_tp_order_id <$> tranches r = [Some "A"]).
Proof.
  split.
  - split; [by vm_compute|].
    eexists. split; [vm_compute; reflexivity|]. by vm_compute.
  - split; [reflexivity|].
    eexists. split; [vm_compute; reflexivity|]. by vm_compute.
Qed.

(** C7, amended.  The take-profit and stop-loss ids a returned tranche
    shows are those of its ledger row; an id the row lacks is taken from
    the most recent relationship row of that tranche that names a
    take-profit or a stop-loss order, and from no older row.  The id sets
    used for classification hold the non-empty ids shown by the returned
    tranches and those of every relationship row of the symbol and side,
    whatever its age. *)
Theorem C7_relationship_use env symbol side :
  ∃ r, outcome (get_position_details env symbol side) = Returns r
    ∧ Forall2 (ids_filled_from_latest (ledger env) symbol side)
        (tranches r) (ledger_tranches env symbol side)
    ∧ let ids := collect_order_ids (tranches r) (order_relationships r) in
      (∀ order_id,
         order_id ∈ tp_order_ids ids
         ↔ order_id ≠ ""
           ∧ ((∃ t, t ∈ tranches r ∧ tranche_tp_order_id t = Some order_id)
              ∨ (∃ rel, rel ∈ tbl_order_relationships (ledger env)
                        ∧ rel_symbol rel = symbol
                        ∧ rel_position_side rel = Some side
                        ∧ rel_tp_order_id rel = Some order_id)))
      ∧ (∀ order_id,
           order_id ∈ sl_order_ids ids
           ↔ order_id ≠ ""
             ∧ ((∃ t, t ∈ tranches r ∧ tranche_sl_order_id t = Some order_id)
                ∨ (∃ rel, rel ∈ tbl_order_relationships (ledger env)
                          ∧ rel_symbol rel = symbol
                          ∧ rel_position_side rel = Some side
                          ∧ rel_sl_order_id rel = Some order_id)))
      ∧ tp_sl_order_ids ids = tp_order_ids ids ∪ sl_order_ids ids.
Proof.
  destruct (get_position_details_outcome env symbol side)
    as (sts & sm & _ & _ & Hr).
  eexists. split; [exact Hr|]. cbn [tranches order_relationships].
  split; [apply tranche_views_ids|]. cbv zeta. split_and!.
  - intros order_id. rewrite elem_of_collect_tp.
    setoid_rewrite relationship_views_elem.
    split; (intros [Hne [?|(rel & Hrel & ?)]];
            (split; [done|]); [by left|right; exists rel; tauto]).
  - intros order_id. rewrite elem_of_collect_sl.
    setoid_rewrite relationship_views_elem.
    split; (intros [Hne [?|(rel & Hrel & ?)]];
            (split; [done|]); [by left|right; exists rel; tauto]).
  - apply collect_order_ids_union.
Qed.

(** C8 fails on the code.  A read of the long side, while the only live
    position of the symbol is short, takes its summary from the short
    position (quantity 2, entry 100, PnL 20), not from the arithmetic over
    the long tranche (quantity 1, entry 50, PnL 3); the close route, given
    the same positions, finds no long position. *)
Lemma C8_summary_from_opposite_side :
  find_target_position "BTCUSDT" "LONG" [Sample.btc_short] = None
  ∧ live_position Sample.env_opposite_side "BTCUSDT" = Some Sample.btc_short
  ∧ ∃ r sm,
      outcome (get_position_details Sample.env_opposite_side "BTCUSDT" "LONG")
      = Returns r
      ∧ four_fields (summary r) = four_fields (exchange_summary Sample.btc_short 0)
      ∧ total_quantity (summary r) == 2
      ∧ avg_entry_price (summary r) == 100
      ∧ unrealized_pnl (summary r) == 20
      ∧ tranche_summary Sample.env_opposite_side "BTCUSDT"
          (ledger_tranches Sample.env_opposite_side "BTCUSDT" "LONG") = ret sm
      ∧ total_quantity sm == 1
      ∧ avg_entry_price sm == 50
      ∧ unrealized_pnl sm == 3.
Proof.
  split; [reflexivity|]. split; [reflexivity|].
  eexists _, _. split; [vm_compute; reflexivity|].
  split; [reflexivity|]. do 3 (split; [by vm_compute|]).
  split; [vm_compute; reflexivity|]. by vm_compute.
Qed.

(** C9.  A close whose order the exchange accepts (status 200 with an order
    result) answers success with the order id, whether or not the ledger
    write that follows raises: the environment's [insert_trade_raises] is
    unconstrained, and the write is attempted after the submission. *)
Theorem C9_audit_failure_swallowed env symbol side response positions p
    order_response order_result :
  exchange_positionRisk env = Some response →
  status_code response = 200%Z →
  json response = Some positions →
  find_target_position symbol side positions = Some p →
  simulation_mode env = false →
  exchange_order env (closing_order symbol p) = Some order_response →
  status_code order_response = 200%Z →
  json order_response = Some order_result →
  ∃ r args,
    outcome (close_position env symbol side) = Returns r
    ∧ success (body r) = true
    ∧ order_id (body r) = Some (default "unknown" (or_orderId order_result))
    ∧ http_status r = 200%Z
    ∧ trace (close_position env symbol side)
      = [GET_positionRisk; POST_order (closing_order symbol p); InsertTrade args].
Proof.
  intros Hr Hc Hj Hf Hs Ho Hoc Hoj.
  destruct (close_position_accepted env symbol side response positions p
              order_response order_result Hr Hc Hj Hf Hs Ho Hoc Hoj)
    as (args & Hrun & _).
  rewrite Hrun. eexists _, args. by cbn.
Qed.

(** C9 at an accepted close whose ledger write raises. *)
Lemma C9_audit_failure_swallowed_witness :
  (∀ args, insert_trade_raises Sample.env_hedged args = true)
  ∧ ∃ r, outcome (close_position Sample.env_hedged "BTCUSDT" "LONG") = Returns r
         ∧ success (body r) = true
         ∧ order_id (body r) = Some "42".
Proof.
  split; [reflexivity|].
  destruct (C9_audit_failure_swallowed Sample.env_hedged "BTCUSDT" "LONG" _
              [Sample.btc_hedged_long] Sample.btc_hedged_long _
              {| or_orderId := Some "42"; or_avgPrice := None |}
              eq_refl eq_refl eq_refl eq_refl eq_refl eq_refl eq_refl eq_refl)
    as (r & args & Hr & Hsuccess & Hid & _).
  by exists r.
Defined.

(** C10.  A read made without credentials ([API_KEY] or [API_SECRET]
    empty) returns an empty [order_statuses]: it neither fetches the open
    orders nor looks the order ids up in the cached statuses, whatever the
    ledger holds. *)
Theorem C10_no_credentials env symbol side :
  truthy_id (API_KEY env) = false ∨ truthy_id (API_SECRET env) = false →
  ∃ r, outcome (get_position_details env symbol side) = Returns r
    ∧ order_statuses r = ∅
    ∧ filter is_open_orders_fetch (trace (get_position_details env symbol side)) = []
    ∧ filter is_cache_lookup (trace (get_position_details env symbol side)) = [].
Proof.
  intros Hcred.
  destruct (get_position_details_outcome env symbol side)
    as (sts & sm & Hsts & _ & Hr).
  rewrite (fetch_order_statuses_no_credentials _ _ _ Hcred) in Hsts.
  injection Hsts as <-.
  eexists. split; [exact Hr|]. split; [done|].
  rewrite get_position_details_trace, load_tranches_trace,
    (fetch_order_statuses_no_credentials _ _ _ Hcred).
  split; apply filter_none;
    (constructor; [done|]); (constructor; [done|]);
    apply Forall_app; (split; [| by repeat constructor]);
    (destruct (tbl_position_tranches (ledger env)); [|by constructor]);
    (constructor; [done|]); by apply Forall_fmap, Forall_forall.
Qed.

(** C10 at a read with an empty [API_KEY], the ledger naming the order TP1
    and the cache holding its status. *)
Lemma C10_no_credentials_witness :
  truthy_id (API_KEY Sample.env_no_credentials) = false
  ∧ "TP1" ∈ tp_order_ids (order_ids Sample.env_no_credentials "BTCUSDT" "LONG")
  ∧ ∃ r, outcome (get_position_details Sample.env_no_credentials "BTCUSDT" "LONG")
         = Returns r
         ∧ order_statuses r = ∅.
Proof.
  split; [reflexivity|]. split; [by vm_compute|].
  destruct (C10_no_credentials Sample.env_no_credentials "BTCUSDT" "LONG"
              (or_introl eq_refl))
    as (r & Hr & Hempty & _).
  by exists r.
Defined.

(** ** Further properties of the read route *)

Lemma fetch_order_statuses_trace env symbol side :
  trace (fetch_order_statuses env symbol (order_ids env symbol side))
  = order_status_calls env symbol side.
Proof.
  unfold fetch_order_statuses, order_status_calls, request_openOrders.
  destruct (truthy_id (API_KEY env) && truthy_id (API_SECRET env)); [|done].
  destruct (exchange_openOrders env symbol) as [[code [os|] txt]|]; cbn;
    repeat case_bool_decide; reflexivity.
Qed.

(** X1.  A read always returns, echoing the symbol and side, and makes a
    fixed sequence of calls: one fetch of the live positions, the tranche
    statements, the trades and the relationships statements, then the
    calls for the order statuses.  It submits no order and writes nothing
    to the ledger. *)
Theorem X1_read_calls env symbol side :
  ∃ r, outcome (get_position_details env symbol side) = Returns r
    ∧ pd_symbol r = symbol ∧ pd_side r = side
    ∧ trace (get_position_details env symbol side)
      = GET_positionRisk
        :: tranche_statements env symbol side
        ++ [Execute (SelectTrades symbol side);
            Execute (SelectRelationships symbol side)]
        ++ order_status_calls env symbol side
    ∧ filter is_positions_fetch (trace (get_position_details env symbol side))
      = [GET_positionRisk]
    ∧ filter is_order_submission (trace (get_position_details env symbol side))
      = []
    ∧ filter is_ledger_write (trace (get_position_details env symbol side)) = [].
Proof.
  destruct (get_position_details_outcome env symbol side)
    as (sts & sm & _ & _ & Hr).
  eexists. split; [exact Hr|]. split; [done|]. split; [done|].
  rewrite get_position_details_trace, load_tranches_trace,
    fetch_order_statuses_trace.
  fold (tranche_statements env symbol side). split; [done|].
  assert (∀ f : Event → bool,
            (∀ s, f (Execute s) = false) → (∀ s, f (GET_openOrders s) = false) →
            filter f (tranche_statements env symbol side
                      ++ [Execute (SelectTrades symbol side);
                          Execute (SelectRelationships symbol side)]
                      ++ order_status_calls env symbol side)%list = [])
    as Hnone.
  { intros f Hex Hoo. apply filter_none. rewrite !Forall_app. split_and!.
    - unfold tranche_statements. constructor; [apply Hex|].
      destruct (tbl_position_tranches (ledger env)); [|by constructor].
      constructor; [apply Hex|]. apply Forall_fmap, Forall_forall.
      intros t _. apply Hex.
    - repeat constructor; apply Hex.
    - unfold order_status_calls.
      destruct (_ && _); [|by constructor]. constructor; [apply Hoo|].
      case_bool_decide; repeat constructor. apply Hex. }
  split_and!.
  - rewrite filter_cons_True by done. f_equal. by apply Hnone.
  - rewrite filter_cons_False by (by intros []). by apply Hnone.
  - rewrite filter_cons_False by (by intros []). by apply Hnone.
Qed.

Lemma find_exchange_position_first symbol positions p :
  find_exchange_position symbol positions = Some p
  ↔ ∃ l1 l2,
      positions = (l1 ++ p :: l2)%list
      ∧ pos_symbol p = symbol
      ∧ ¬ default 0 (pos_positionAmt p) == 0
      ∧ Forall (λ q, pos_symbol q ≠ symbol ∨ default 0 (pos_positionAmt q) == 0)
          l1.
Proof.
  assert (∀ q, (String.eqb (pos_symbol q) symbol
                && Qneb (default 0 (pos_positionAmt q)) 0) = true
               ↔ pos_symbol q = symbol ∧ ¬ default 0 (pos_positionAmt q) == 0)
    as Htest.
  { intros q. rewrite andb_true_iff, String.eqb_eq. unfold Qneb.
    by rewrite negb_true_iff, <- not_true_iff_false, Qeq_bool_iff. }
  unfold find_exchange_position.
  induction positions as [|q qs IH]; cbn.
  - split; [done|]. by intros ([|??] & ? & ? & _).
  - destruct (String.eqb (pos_symbol q) symbol
              && Qneb (default 0 (pos_positionAmt q)) 0) eqn:E.
    + apply Htest in E as [Hs Ha]. split.
      * intros [= ->]. exists [], qs. by repeat split.
      * intros (l1 & l2 & Heq & _ & _ & Hl1).
        destruct l1 as [|q' l1]; cbn in Heq; injection Heq as -> ->; [done|].
        apply Forall_cons in Hl1 as [[?|?] _]; done.
    + assert (pos_symbol q ≠ symbol ∨ default 0 (pos_positionAmt q) == 0) as Hq.
      { destruct (decide (pos_symbol q = symbol)) as [Hs|]; [|by left].
        right. destruct (Qeq_dec (default 0 (pos_positionAmt q)) 0); [done|].
        assert (true = false); [|done]. rewrite <- E. symmetry. by apply Htest. }
      rewrite IH. split.
      * intros (l1 & l2 & -> & ? & ? & ?). exists (q :: l1), l2.
        repeat split; [done..|]. by constructor.
      * intros (l1 & l2 & Heq & Hs & Ha & Hl1).
        destruct l1 as [|q' l1]; cbn in Heq; injection Heq as -> ->.
        { apply not_true_iff_false in E. destruct E. by apply Htest. }
        apply Forall_cons in Hl1 as [_ Hl1]. by exists l1, l2.
Qed.

Lemma live_position_unfold env symbol :
  live_position env symbol
  = match exchange_positionRisk env with
    | Some response =>
        if bool_decide (status_code response = 200%Z)
        then match json response with
             | Some positions => find_exchange_position symbol positions
             | None => None
             end
        else None
    | None => None
    end.
Proof.
  unfold live_position, fetch_exchange_position, request_positionRisk.
  destruct (exchange_positionRisk env) as [[code [ps|] txt]|]; cbn;
    try case_bool_decide; reflexivity.
Qed.

(** X2.  The live position a read uses is the first position of the
    exchange's answer that has the requested symbol and a non-zero amount:
    the answer has status 200 and a JSON body, and every position before
    it is of another symbol or flat. *)
Theorem X2_live_position_first_match env symbol p :
  live_position env symbol = Some p
  ↔ ∃ response l1 l2,
      exchange_positionRisk env = Some response
      ∧ status_code response = 200%Z
      ∧ json response = Some (l1 ++ p :: l2)%list
      ∧ pos_symbol p = symbol
      ∧ ¬ default 0 (pos_positionAmt p) == 0
      ∧ Forall (λ q, pos_symbol q ≠ symbol ∨ default 0 (pos_positionAmt q) == 0)
          l1.
Proof.
  rewrite live_position_unfold.
  destruct (exchange_positionRisk env) as [response|] eqn:Hresp.
  - case_bool_decide as Hc.
    + destruct (json response) as [positions|] eqn:Hj.
      * rewrite find_exchange_position_first. split.
        -- intros (l1 & l2 & -> & ?). by exists response, l1, l2.
        -- intros (? & l1 & l2 & [= <-] & _ & Hj' & ?).
           rewrite Hj in Hj'. injection Hj' as ->. by exists l1, l2.
      * split; [done|]. intros (? & ? & ? & [= <-] & _ & Hj' & _).
        by rewrite Hj in Hj'.
    + split; [done|]. by intros (? & ? & ? & [= <-] & ? & _).
  - split; [done|]. by intros (? & ? & ? & ? & _).
Qed.

(** X3.  When the positions request raises, is answered with another
    status than 200, or carries no JSON body, the read still returns: it
    sees no live position, keeps the PnL stored with each tranche, and
    takes its summary from the tranches (all zeros when there is none). *)
Theorem X3_exchange_failure_degrades env symbol side :
  exchange_positionRisk env = None
  ∨ (∃ response, exchange_positionRisk env = Some response
                 ∧ (status_code response ≠ 200%Z ∨ json response = None)) →
  live_position env symbol = None
  ∧ ∃ r, outcome (get_position_details env symbol side) = Returns r
      ∧ Forall2 (λ t t0, tranche_unrealized_pnl t = tranche_unrealized_pnl t0)
          (tranches r) (ledger_tranches env symbol side)
      ∧ match tranches r with
        | [] => four_fields (summary r) = (0, 0, 0, 0)
        | _ :: _ => tranche_summary env symbol (tranches r) = ret (summary r)
        end.
Proof.
  intros Hfail.
  assert (live_position env symbol = None) as Hlive.
  { rewrite live_position_unfold.
    destruct Hfail as [-> | (response & -> & [Hc | Hj])]; [done| |].
    - by rewrite bool_decide_eq_false_2.
    - rewrite Hj. by case_bool_decide. }
  split; [done|].
  destruct (get_position_details_outcome env symbol side)
    as (sts & sm & _ & Hsm & Hr).
  eexists. split; [exact Hr|]. cbn [tranches summary].
  split; [by apply tranche_views_stored_pnl|].
  unfold summarize in Hsm. rewrite Hlive in Hsm.
  destruct (tranche_views env symbol side); [|done]. by injection Hsm as <-.
Qed.

(** X3 at an exchange answering 503 while the ledger holds two tranches. *)
Lemma X3_exchange_failure_degrades_witness :
  (∃ response, exchange_positionRisk Cases.env_exchange_down = Some response
               ∧ status_code response ≠ 200%Z)
  ∧ ∃ r, outcome (get_position_details Cases.env_exchange_down "BTCUSDT" "LONG")
         = Returns r
         ∧ length (tranches r) = 2%nat
         ∧ tranche_summary Cases.env_exchange_down "BTCUSDT" (tranches r)
           = ret (summary r).
Proof.
  split; [by eexists|].
  destruct (X3_exchange_failure_degrades Cases.env_exchange_down "BTCUSDT" "LONG")
    as (_ & r & Hr & Hpnl & Hsm).
  { right. eexists. split; [reflexivity|]. by left. }
  exists r. split; [exact Hr|].
  pose proof (Forall2_length _ _ _ Hpnl) as Hlen.
  change (length (ledger_tranches Cases.env_exchange_down "BTCUSDT" "LONG"))
    with 2%nat in Hlen.
  split; [exact Hlen|]. by destruct (tranches r).
Defined.

Lemma sql_max_cons cell cells :
  sql_max (cell :: cells)
  = match cell, sql_max cells with
    | Some a, Some b => Some (if Qle_bool a b then b else a)
    | Some a, None => Some a
    | None, acc => acc
    end.
Proof. reflexivity. Qed.

Lemma sql_max_None cells :
  sql_max cells = None ↔ Forall (λ cell, cell = None) cells.
Proof.
  induction cells as [|[a|] cells IH]; rewrite ?sql_max_cons.
  - split; [by constructor|done].
  - split; [by destruct (sql_max cells)|]. by intros [[=] _]%Forall_cons.
  - rewrite IH. split; [by constructor|]. by intros [_ ?]%Forall_cons.
Qed.

Lemma sql_max_Some cells m :
  sql_max cells = Some m →
  Some m ∈ cells ∧ ∀ x, Some x ∈ cells → x <= m.
Proof.
  revert m. induction cells as [|[a|] cells IH]; intros m;
    rewrite ?sql_max_cons; [done| |].
  - destruct (sql_max cells) as [b|] eqn:Hmax.
    + destruct (IH b eq_refl) as [Hin Hle].
      destruct (Qle_bool a b) eqn:Hab; intros [= <-].
      * apply Qle_bool_iff in Hab. split; [by right|].
        intros x [[= ->]|Hx]%elem_of_cons; [done|by apply Hle].
      * split; [by left|].
        assert (b <= a) as Hba.
        { apply Qlt_le_weak, Qnot_le_lt. intros Hle'%Qle_bool_iff. congruence. }
        intros x [[= ->]|Hx]%elem_of_cons; [apply Qle_refl|].
        eapply Qle_trans; [by apply Hle|done].
    + intros [= <-]. split; [by left|].
      apply sql_max_None in Hmax. rewrite Forall_forall in Hmax.
      intros x [[= ->]|Hx]%elem_of_cons; [apply Qle_refl|].
      by apply Hmax in Hx.
  - intros Hm. destruct (IH m Hm) as [Hin Hle]. split; [by right|].
    intros x [[=]|Hx]%elem_of_cons. by apply Hle.
Qed.

Lemma key_le_trans {A} (key : A → Z) : Transitive (key_le key).
Proof. intros x y z. unfold key_le. lia. Qed.

Lemma key_le_total {A} (key : A → Z) : Total (key_le key).
Proof. intros x y. unfold key_le. lia. Qed.

Lemma order_by_asc_sorted {A} (key : A → Z) (l : list A) :
  StronglySorted Z.le (key <$> order_by_asc key l).
Proof.
  pose proof (key_le_trans key). pose proof (key_le_total key).
  apply (StronglySorted_fmap key (key_le key)); [done|].
  by apply StronglySorted_merge_sort.
Qed.

Lemma order_by_desc_sorted {A} (key : A → Z) (l : list A) :
  StronglySorted (flip Z.le) (key <$> order_by_desc key l).
Proof.
  pose proof (key_le_flip_trans key). pose proof (key_le_flip_total key).
  apply (StronglySorted_fmap key (flip (key_le key))); [done|].
  by apply StronglySorted_merge_sort.
Qed.

Lemma ledger_tranches_rows_perm env symbol side :
  pt <$> ledger_tranches env symbol side ≡ₚ tranche_rows env symbol side.
Proof.
  unfold ledger_tranches, tranche_rows.
  destruct (tbl_position_tranches (ledger env)) as [rows|]; [|done].
  unfold select_tranches, order_by_asc. rewrite merge_sort_Permutation.
  rewrite <- list_fmap_compose. by rewrite list_fmap_id.
Qed.

Lemma tranche_views_tranche_ids env symbol side :
  tranche_id <$> tranche_views env symbol side
  = tranche_id <$> ledger_tranches env symbol side.
Proof.
  apply Forall2_fmap_eq.
  eapply Forall2_impl; [apply tranche_views_same_holding|].
  by intros t t0 (? & _).
Qed.

Lemma StronglySorted_strict (l : list Z) :
  StronglySorted Z.le l → NoDup l → StronglySorted Z.lt l.
Proof.
  induction 1 as [|x l Hsorted IH Hall]; intros Hnodup; [constructor|].
  apply NoDup_cons in Hnodup as [Hx Hnodup].
  constructor; [by apply IH|].
  apply Forall_forall. intros y Hy.
  assert (x ≤ y)%Z by (by eapply Forall_forall in Hall).
  assert (x ≠ y) by (by intros ->).
  lia.
Qed.

(** X4.  When a tranche id names one row of [position_tranches] within the
    requested symbol and side, the tranches of a response are listed by
    strictly ascending tranche id, one for each of these rows, and
    [num_tranches] is their number.  Without the table the list is
    empty. *)
Theorem X4_tranches_listed env symbol side :
  NoDup (pt_tranche_id <$> tranche_rows env symbol side) →
  ∃ r, outcome (get_position_details env symbol side) = Returns r
    ∧ StronglySorted Z.lt (tranche_id <$> tranches r)
    ∧ tranche_id <$> tranches r
      ≡ₚ pt_tranche_id <$> tranche_rows env symbol side
    ∧ num_tranches (summary r) = length (tranches r)
    ∧ length (tranches r) = length (tranche_rows env symbol side)
    ∧ (tbl_position_tranches (ledger env) = None → tranches r = []).
Proof.
  intros Hkey.
  destruct (get_position_details_outcome env symbol side)
    as (sts & sm & _ & Hsm & Hr).
  eexists. split; [exact Hr|]. cbn [tranches summary].
  rewrite tranche_views_tranche_ids.
  assert (tranche_id <$> ledger_tranches env symbol side
          ≡ₚ pt_tranche_id <$> tranche_rows env symbol side) as Hperm.
  { rewrite <- ledger_tranches_rows_perm, <- list_fmap_compose. done. }
  split_and!.
  - apply StronglySorted_strict; [|by rewrite Hperm].
    unfold ledger_tranches.
    destruct (tbl_position_tranches (ledger env)); [|constructor].
    apply order_by_asc_sorted.
  - done.
  - unfold summarize in Hsm.
    destruct (live_position env symbol); [by injection Hsm as <-|].
    destruct (tranche_views env symbol side) eqn:E; [by injection Hsm as <-|].
    rewrite tranche_summary_run in Hsm. by injection Hsm as <-.
  - rewrite <- (length_fmap tranche_id), tranche_views_tranche_ids, Hperm.
    by rewrite length_fmap.
  - intros Hnone. unfold tranche_views, filled_tranches, ledger_tranches.
    by rewrite Hnone.
Qed.

Lemma X4_tranches_listed_witness :
  NoDup (pt_tranche_id <$> tranche_rows Sample.env_ledger_only "BTCUSDT" "LONG")
  ∧ ∃ r, outcome (get_position_details Sample.env_ledger_only "BTCUSDT" "LONG")
         = Returns r
      ∧ StronglySorted Z.lt (tranche_id <$> tranches r)
      ∧ num_tranches (summary r) = length (tranches r).
Proof.
  assert (NoDup (pt_tranche_id
                 <$> tranche_rows Sample.env_ledger_only "BTCUSDT" "LONG"))
    as Hkey.
  { apply (bool_decide_unpack _). by vm_compute. }
  split; [exact Hkey|].
  destruct (X4_tranches_listed Sample.env_ledger_only "BTCUSDT" "LONG" Hkey)
    as (r & Hr & Hsorted & _ & Hnum & _).
  exists r. by split_and!.
Defined.

Lemma sql_max_greatest fallback cells :
  greatest_or fallback cells (default fallback (sql_max cells)).
Proof.
  destruct (sql_max cells) as [m|] eqn:Hmax; cbn.
  - right. by apply sql_max_Some.
  - left. split; [by apply sql_max_None|done].
Qed.

Lemma ledger_tranches_join env symbol side t0 :
  t0 ∈ ledger_tranches env symbol side →
  greatest_or 0 (tr_filled_qty <$> entry_trades (ledger env) (tranche_id t0))
    (filled_qty t0)
  ∧ greatest_or (tranche_avg_entry_price t0)
      (tr_avg_price <$> entry_trades (ledger env) (tranche_id t0))
      (actual_entry_price t0).
Proof.
  unfold ledger_tranches.
  destruct (tbl_position_tranches (ledger env)) as [rows|];
    [|by intros ?%elem_of_nil].
  unfold select_tranches, order_by_asc. rewrite merge_sort_Permutation.
  intros (row & -> & _)%list_elem_of_fmap. cbn.
  split; apply sql_max_greatest.
Qed.

Lemma Forall2_transfer {A B} (R : A → B → Prop) (P : A → Prop) l k :
  Forall2 R l k → (∀ x y, y ∈ k → R x y → P x) → Forall P l.
Proof.
  induction 1 as [|x y l k Hxy _ IH]; intros Hall; constructor.
  - apply (Hall x y); [by left|done].
  - apply IH. intros x' y' ? ?. apply (Hall x' y'); [by right|done].
Qed.

(** X5.  Each returned tranche carries [filled_qty], the greatest filled
    quantity among its entry trades (limit orders without parent order
    that name the tranche) or 0 when none has one, and
    [actual_entry_price], the greatest average price among them or the
    tranche's own [avg_entry_price] when none has one. *)
Theorem X5_entry_trade_columns env symbol side :
  ∃ r, outcome (get_position_details env symbol side) = Returns r
    ∧ Forall
        (λ t,
           let entries := entry_trades (ledger env) (tranche_id t) in
           greatest_or 0 (tr_filled_qty <$> entries) (filled_qty t)
           ∧ greatest_or (tranche_avg_entry_price t) (tr_avg_price <$> entries)
               (actual_entry_price t))
        (tranches r).
Proof.
  destruct (get_position_details_outcome env symbol side)
    as (sts & sm & _ & _ & Hr).
  eexists. split; [exact Hr|]. cbn [tranches].
  eapply Forall2_transfer; [apply tranche_views_same_holding|].
  intros t t0 Hin (Hid & _ & Havg & Hfilled & Hactual). cbv zeta.
  rewrite Hid, Havg, Hfilled, Hactual. by eapply ledger_tranches_join.
Qed.

Lemma StronglySorted_filter {A} (R : relation A) (P : A → Prop)
    `{∀ x, Decision (P x)} (l : list A) :
  StronglySorted R l → StronglySorted R (filter P l).
Proof.
  induction 1 as [|x l Hl IH Hx]; [constructor|].
  rewrite filter_cons. destruct (decide (P x)); [|done].
  constructor; [done|].
  apply Forall_forall. intros y [_ Hy]%list_elem_of_filter.
  rewrite Forall_forall in Hx. by apply Hx.
Qed.

Lemma StronglySorted_take {A} (R : relation A) (n : nat) (l : list A) :
  StronglySorted R l → StronglySorted R (take n l).
Proof.
  intros Hl. revert n. induction Hl as [|x l Hl IH Hx]; intros [|n]; cbn;
    try constructor; [apply IH|].
  apply Forall_forall. intros y Hy%elem_of_take.
  rewrite Forall_forall in Hx. apply Hx. destruct Hy as (i & Hi & _).
  by eapply list_elem_of_lookup_2.
Qed.

(** X6.  The [order_relationships] of a response are exactly the rows of
    the table with the requested symbol and a [position_side] equal to the
    requested side, the most recently created first.  A row without
    [position_side], though the statement selects it, is not returned. *)
Theorem X6_relationships_listed env symbol side :
  ∃ r, outcome (get_position_details env symbol side) = Returns r
    ∧ (∀ rel, rel ∈ order_relationships r
              ↔ rel ∈ tbl_order_relationships (ledger env)
                ∧ rel_symbol rel = symbol
                ∧ rel_position_side rel = Some side)
    ∧ StronglySorted (flip (key_le rel_created_at)) (order_relationships r)
    ∧ order_relationships r
      ≡ₚ filter (λ rel, rel_symbol rel = symbol
                        ∧ rel_position_side rel = Some side)
           (tbl_order_relationships (ledger env)).
Proof.
  destruct (get_position_details_outcome env symbol side)
    as (sts & sm & _ & _ & Hr).
  eexists. split; [exact Hr|]. cbn [order_relationships]. split_and!.
  - apply relationship_views_elem.
  - unfold relationship_views, filter_relationships, select_relationships,
      order_by_desc.
    pose proof (key_le_flip_trans rel_created_at).
    pose proof (key_le_flip_total rel_created_at).
    by apply StronglySorted_filter, StronglySorted_merge_sort.
  - unfold relationship_views, filter_relationships, select_relationships,
      order_by_desc.
    rewrite merge_sort_Permutation, list_filter_filter.
    apply reflexive_eq, list_filter_iff. intros rel. tauto.
Qed.

Lemma take_sorted_covers {A} (R : relation A) (n : nat) (l : list A) (x : A) :
  StronglySorted R l → x ∈ l →
  x ∈ take n l ∨ (length (take n l) = n ∧ ∀ y, y ∈ take n l → R y x).
Proof.
  intros Hl. revert n. induction Hl as [|z l Hl IH Hz]; intros n Hx.
  - by apply elem_of_nil in Hx.
  - destruct n as [|n]; cbn.
    + right. split; [done|]. by intros y ?%elem_of_nil.
    + apply elem_of_cons in Hx as [->|Hx]; [left; by left|].
      destruct (IH n Hx) as [Hin|[Hlen Hall]]; [left; by right|].
      right. split; [by rewrite Hlen|].
      intros y [->|Hy]%elem_of_cons; [|by apply Hall].
      rewrite Forall_forall in Hz. by apply Hz.
Qed.

(** X7.  The [trades] of a response are at most 100 trades of the
    requested symbol, buys for the side LONG and sells for the side SHORT,
    each listed no more often than the table holds it, the most recent
    first; a trade of that symbol and direction that is left out is no
    more recent than any listed one, and then 100 are listed.  For any other side no trade is listed.  A trade without
    parent order is categorised ENTRY. *)
Theorem X7_trades_listed env symbol side :
  ∃ r, outcome (get_position_details env symbol side) = Returns r
    ∧ (length (trades r) ≤ 100)%nat
    ∧ trade <$> trades r ⊆+ side_trades (ledger env) symbol side
    ∧ StronglySorted (flip Z.le) (tr_timestamp <$> (trade <$> trades r))
    ∧ (∀ t, t ∈ side_trades (ledger env) symbol side →
            t ∈ trade <$> trades r
            ∨ (length (trades r) = 100%nat
               ∧ ∀ v, v ∈ trades r →
                      (tr_timestamp t ≤ tr_timestamp (trade v))%Z))
    ∧ (∀ v, v ∈ trades r →
            trade v ∈ side_trades (ledger env) symbol side
            ∧ (tr_parent_order_id (trade v) = None →
               trade_category v = Some "ENTRY"))
    ∧ (side ≠ "LONG" → side ≠ "SHORT" → trades r = []).
Proof.
  destruct (get_position_details_outcome env symbol side)
    as (sts & sm & _ & _ & Hr).
  eexists. split; [exact Hr|]. cbn [trades].
  unfold select_trades. fold (side_trades (ledger env) symbol side).
  set (sorted := order_by_desc tr_timestamp (side_trades (ledger env) symbol side)).
  assert (trade <$> ((λ t, {| trade := t; trade_category := category_of t |})
                     <$> take 100 sorted) = take 100 sorted) as Hback.
  { rewrite <- list_fmap_compose. apply list_fmap_id. }
  pose proof (key_le_flip_trans tr_timestamp) as Htrans.
  pose proof (key_le_flip_total tr_timestamp) as Htotal.
  assert (StronglySorted (flip (key_le tr_timestamp)) sorted) as Hsorted.
  { by apply StronglySorted_merge_sort. }
  rewrite Hback, length_fmap. split_and!.
  - apply firstn_le_length.
  - transitivity sorted; [apply sublist_submseteq, sublist_take|].
    unfold sorted, order_by_desc. by rewrite merge_sort_Permutation.
  - apply (StronglySorted_fmap tr_timestamp (flip (key_le tr_timestamp)));
      [done|]. by apply StronglySorted_take.
  - intros t Ht.
    assert (t ∈ sorted) as Hin.
    { unfold sorted, order_by_desc. by rewrite merge_sort_Permutation. }
    destruct (take_sorted_covers _ 100 sorted t Hsorted Hin) as [?|[Hlen Hall]];
      [by left|].
    right. split; [done|].
    intros v (t' & -> & Ht')%list_elem_of_fmap. cbn. by apply Hall.
  - intros v (t & -> & Ht%elem_of_take)%list_elem_of_fmap. cbn.
    destruct Ht as (i & Hi & _). apply list_elem_of_lookup_2 in Hi.
    unfold sorted, order_by_desc in Hi. rewrite merge_sort_Permutation in Hi.
    split; [done|]. unfold category_of. by intros ->.
  - intros Hl Hs.
    assert (side_trades (ledger env) symbol side = []) as Hnone.
    { unfold side_trades.
      induction (tbl_trades (ledger env)) as [|t ts IH]; [done|].
      rewrite filter_cons_False; [done|]. intros (_ & [[_ ?]|[_ ?]]); done. }
    assert (sorted = []) as ->; [|done].
    apply Permutation_nil_r. unfold sorted, order_by_desc.
    by rewrite merge_sort_Permutation, Hnone.
Qed.

(** *** Order statuses *)

Lemma record_open_order_unfold ids order_statuses order :
  record_open_order ids order_statuses order
  = if is_tracked ids order
    then <[open_order_id order := open_order_view ids order]> order_statuses
    else order_statuses.
Proof. reflexivity. Qed.

Lemma record_cached_orders_cons ids row rest order_statuses :
  record_cached_orders ids (row :: rest) order_statuses
  = if bool_decide (is_Some (order_statuses !! os_order_id row))
    then record_cached_orders ids rest order_statuses
    else match os_quantity row with
         | None => order_statuses
         | Some quantity =>
             record_cached_orders ids rest
               (<[os_order_id row := cached_order_view ids row quantity]>
                  order_statuses)
         end.
Proof. reflexivity. Qed.

(** What the loop over the open orders files under an id. *)
Lemma open_orders_lookup ids orders (st : gmap string OrderStatusView) order_id v :
  fold_left (record_open_order ids) orders st !! order_id = Some v →
  st !! order_id = Some v
  ∨ ∃ order, order ∈ orders ∧ open_order_id order = order_id
             ∧ is_tracked ids order = true ∧ v = open_order_view ids order.
Proof.
  revert st. induction orders as [|o orders IH]; intros st; cbn; [by left|].
  intros [Hst|(order & ? & ? & ? & ?)]%IH.
  - rewrite record_open_order_unfold in Hst.
    destruct (is_tracked ids o) eqn:Ho; [|by left].
    destruct (decide (open_order_id o = order_id)) as [<-|Hne].
    + rewrite lookup_insert_eq in Hst. injection Hst as <-.
      right. exists o. split; [by left|done].
    + rewrite lookup_insert_ne in Hst by done. by left.
  - right. exists order. split; [by right|done].
Qed.

Lemma open_orders_keep ids orders (st : gmap string OrderStatusView) order_id :
  is_Some (st !! order_id) →
  is_Some (fold_left (record_open_order ids) orders st !! order_id).
Proof.
  revert st. induction orders as [|o orders IH]; intros st Hst; [done|].
  cbn. apply IH. rewrite record_open_order_unfold.
  destruct (is_tracked ids o); [|done].
  rewrite lookup_insert. case_decide; [by eexists|done].
Qed.

Lemma open_orders_filed ids orders (st : gmap string OrderStatusView) order :
  order ∈ orders → is_tracked ids order = true →
  is_Some (fold_left (record_open_order ids) orders st !! open_order_id order).
Proof.
  revert st. induction orders as [|o orders IH]; intros st Hin Htr;
    [by apply elem_of_nil in Hin|].
  cbn. apply elem_of_cons in Hin as [->|Hin]; [|by apply IH].
  apply open_orders_keep.
  rewrite record_open_order_unfold, Htr, lookup_insert_eq. by eexists.
Qed.

(** The loop over the cached rows keeps what is filed already. *)
Lemma cached_orders_keep ids rows (st : gmap string OrderStatusView) order_id v :
  st !! order_id = Some v →
  record_cached_orders ids rows st !! order_id = Some v.
Proof.
  revert st. induction rows as [|row rows IH]; intros st Hst; [done|].
  rewrite record_cached_orders_cons. case_bool_decide as Hsome; [by apply IH|].
  destruct (os_quantity row); [|done]. apply IH.
  rewrite lookup_insert_ne; [done|]. intros <-. apply Hsome. by eexists.
Qed.

Lemma cached_orders_lookup ids rows (st : gmap string OrderStatusView) order_id v :
  record_cached_orders ids rows st !! order_id = Some v →
  st !! order_id = Some v
  ∨ ∃ row quantity, row ∈ rows ∧ os_order_id row = order_id
                    ∧ os_quantity row = Some quantity
                    ∧ v = cached_order_view ids row quantity.
Proof.
  revert st. induction rows as [|row rows IH]; intros st; [by left|].
  rewrite record_cached_orders_cons. case_bool_decide as Hsome.
  - intros [?|(row' & q & ? & ?)]%IH; [by left|].
    right. exists row', q. split; [by right|done].
  - destruct (os_quantity row) as [quantity|] eqn:Hq; [|by left].
    intros [Hst|(row' & q & ? & ?)]%IH.
    + destruct (decide (os_order_id row = order_id)) as [<-|Hne].
      * rewrite lookup_insert_eq in Hst. injection Hst as <-.
        right. exists row, quantity. split; [by left|done].
      * rewrite lookup_insert_ne in Hst by done. by left.
    + right. exists row', q. split; [by right|done].
Qed.

(** With a quantity on every row, each row's id is filed. *)
Lemma cached_orders_complete ids rows (st : gmap string OrderStatusView) row :
  Forall (λ row, os_quantity row ≠ None) rows →
  row ∈ rows →
  is_Some (record_cached_orders ids rows st !! os_order_id row).
Proof.
  revert st. induction rows as [|row' rows IH]; intros st Hq Hin;
    [by apply elem_of_nil in Hin|].
  apply Forall_cons in Hq as [Hq' Hq].
  rewrite record_cached_orders_cons.
  apply elem_of_cons in Hin as [->|Hin].
  - case_bool_decide as Hsome.
    + destruct Hsome as [v Hv]. exists v. by apply cached_orders_keep.
    + destruct (os_quantity row') as [quantity|]; [|done].
      eexists. apply cached_orders_keep. apply lookup_insert_eq.
  - case_bool_decide; [by apply IH|].
    destruct (os_quantity row') as [quantity|]; [|done]. by apply IH.
Qed.

(** The value of [order_statuses] in a read. *)
Lemma fetch_order_statuses_outcome env symbol side :
  outcome (fetch_order_statuses env symbol (order_ids env symbol side))
  = Returns
      (if truthy_id (API_KEY env) && truthy_id (API_SECRET env)
       then if bool_decide (tp_sl_order_ids (order_ids env symbol side) ≠ ∅)
            then record_cached_orders (order_ids env symbol side)
                   (cached_rows env symbol side)
                   (open_order_entries env symbol side)
            else open_order_entries env symbol side
       else ∅).
Proof.
  unfold fetch_order_statuses, open_order_entries, open_orders_seen,
    cached_rows, request_openOrders.
  destruct (truthy_id (API_KEY env) && truthy_id (API_SECRET env)); [|done].
  destruct (exchange_openOrders env symbol) as [[code [os|] txt]|]; cbn;
    repeat case_bool_decide; reflexivity.
Qed.

Lemma order_statuses_value env symbol side r :
  outcome (get_position_details env symbol side) = Returns r →
  has_credentials env →
  order_statuses r
  = if bool_decide (tp_sl_order_ids (order_ids env symbol side) ≠ ∅)
    then record_cached_orders (order_ids env symbol side)
           (cached_rows env symbol side) (open_order_entries env symbol side)
    else open_order_entries env symbol side.
Proof.
  intros Hr [Hk Hs].
  destruct (get_position_details_outcome env symbol side)
    as (sts & sm & Hsts & _ & Hr').
  rewrite Hr in Hr'. injection Hr' as ->. cbn.
  rewrite fetch_order_statuses_outcome, Hk, Hs in Hsts. by injection Hsts.
Qed.

Lemma cached_rows_elem env symbol side row :
  row ∈ cached_rows env symbol side
  ↔ row ∈ tbl_order_status (ledger env)
    ∧ os_symbol row = symbol
    ∧ os_order_id row ∈ tp_sl_order_ids (order_ids env symbol side).
Proof.
  unfold cached_rows, select_order_status. rewrite list_elem_of_filter. tauto.
Qed.

Lemma open_order_entries_lookup env symbol side order_id v :
  open_order_entries env symbol side !! order_id = Some v →
  ∃ order, order ∈ open_orders_seen env symbol
           ∧ open_order_id order = order_id
           ∧ is_tracked (order_ids env symbol side) order = true
           ∧ v = open_order_view (order_ids env symbol side) order.
Proof.
  unfold open_order_entries. intros [Hempty|?]%open_orders_lookup; [|done].
  by rewrite lookup_empty in Hempty.
Qed.

(** X8.  In a read made with credentials, every open order the exchange
    reports that is a take-profit or stop order by its type, or whose id
    the ledger knows, is filed in [order_statuses] under its id, with the
    figures of an open order of that id (so what the cache holds for the
    id is not used).  An id the ledger does not know, with no such open
    order, is not filed. *)
Theorem X8_open_orders_filed env symbol side :
  has_credentials env →
  ∃ r, outcome (get_position_details env symbol side) = Returns r ∧
    let ids := order_ids env symbol side in
    (∀ order, order ∈ open_orders_seen env symbol →
              is_tracked ids order = true →
              ∃ order', order' ∈ open_orders_seen env symbol
                        ∧ open_order_id order' = open_order_id order
                        ∧ is_tracked ids order' = true
                        ∧ order_statuses r !! open_order_id order
                          = Some (open_order_view ids order'))
    ∧ (∀ order_id,
         order_id ∉ tp_sl_order_ids ids →
         (∀ order, order ∈ open_orders_seen env symbol →
                   open_order_id order = order_id →
                   is_tracked ids order = false) →
         order_statuses r !! order_id = None).
Proof.
  intros Hcred.
  destruct (get_position_details_outcome env symbol side)
    as (sts & sm & _ & _ & Hr).
  eexists. split; [exact Hr|]. cbv zeta.
  rewrite (order_statuses_value env symbol side _ Hr Hcred). split.
  - intros order Hin Htr.
    destruct (open_orders_filed (order_ids env symbol side)
                (open_orders_seen env symbol) ∅ order Hin Htr) as [v Hv].
    fold (open_order_entries env symbol side) in Hv.
    destruct (open_order_entries_lookup _ _ _ _ _ Hv)
      as (order' & ? & ? & ? & ->).
    exists order'. split_and!; [done..|].
    case_bool_decide; [by apply cached_orders_keep|done].
  - intros order_id Hnin Hnone.
    match goal with |- ?m !! _ = None => destruct (m !! order_id) as [v|] eqn:Hv end;
      [exfalso|done].
    assert (open_order_entries env symbol side !! order_id = Some v
            → False) as Hopen.
    { intros (order & Hin & Hid & Htr & _)%open_order_entries_lookup.
      by rewrite (Hnone order Hin Hid) in Htr. }
    case_bool_decide; [|done].
    apply cached_orders_lookup in Hv as [?|(row & q & Hrow & <- & _)]; [done|].
    apply cached_rows_elem in Hrow as (_ & _ & ?). done.
Qed.

(** X8 at a read where order TP1 is both open and cached: the entry is the
    open order's, typed TP_LIMIT with status NEW. *)
Lemma X8_open_orders_filed_witness :
  has_credentials Cases.env_open_and_cached
  ∧ ∃ r, outcome (get_position_details Cases.env_open_and_cached "BTCUSDT" "LONG")
         = Returns r
         ∧ osv_type <$> order_statuses r !! "TP1" = Some "TP_LIMIT"
         ∧ osv_status <$> order_statuses r !! "TP1" = Some (Some "NEW").
Proof.
  assert (has_credentials Cases.env_open_and_cached) as Hcred by done.
  split; [exact Hcred|].
  destruct (X8_open_orders_filed Cases.env_open_and_cached "BTCUSDT" "LONG" Hcred)
    as (r & Hr & Hfiled & _).
  exists r. split; [exact Hr|].
  destruct (Hfiled (Sample.open_order "TP1" "LIMIT")) as (order' & Hin & _ & _ & Hv).
  { by left. }
  { by vm_compute. }
  change (open_orders_seen Cases.env_open_and_cached "BTCUSDT")
    with [Sample.open_order "TP1" "LIMIT"] in Hin.
  apply list_elem_of_singleton in Hin as ->.
  change (open_order_id (Sample.open_order "TP1" "LIMIT")) with "TP1" in Hv.
  rewrite Hv. by vm_compute.
Defined.

Lemma order_ids_union env symbol side order_id :
  order_id ∈ tp_sl_order_ids (order_ids env symbol side)
  ↔ order_id ∈ tp_order_ids (order_ids env symbol side)
    ∨ order_id ∈ sl_order_ids (order_ids env symbol side).
Proof.
  unfold order_ids. rewrite collect_order_ids_union. apply elem_of_union.
Qed.

(** X9.  In a read made with credentials, an entry of [order_statuses]
    whose id has no filed open order comes from the cache: from a row of
    [order_status] of the requested symbol, with that id and a quantity,
    the id being known to the ledger.  The entry has the row's status and
    quantity, an executed quantity of 0, and the type TP_ORDER when the id
    is in the take-profit set and SL_ORDER otherwise; the label TP/SL is
    never given. *)
Theorem X9_cached_entries env symbol side :
  has_credentials env →
  ∃ r, outcome (get_position_details env symbol side) = Returns r ∧
    let ids := order_ids env symbol side in
    ∀ order_id v,
      order_statuses r !! order_id = Some v →
      (∀ order, order ∈ open_orders_seen env symbol →
                open_order_id order = order_id →
                is_tracked ids order = false) →
      order_id ∈ tp_sl_order_ids ids
      ∧ (∃ row quantity,
           row ∈ tbl_order_status (ledger env)
           ∧ os_symbol row = symbol
           ∧ os_order_id row = order_id
           ∧ os_quantity row = Some quantity
           ∧ osv_status v = os_status row
           ∧ osv_quantity v = quantity)
      ∧ osv_executed_qty v = 0
      ∧ osv_type v = (if bool_decide (order_id ∈ tp_order_ids ids)
                      then "TP_ORDER" else "SL_ORDER")
      ∧ osv_type v ≠ "TP/SL".
Proof.
  intros Hcred.
  destruct (get_position_details_outcome env symbol side)
    as (sts & sm & _ & _ & Hr).
  eexists. split; [exact Hr|]. cbv zeta.
  rewrite (order_statuses_value env symbol side _ Hr Hcred).
  intros order_id v Hv Hnone.
  assert (open_order_entries env symbol side !! order_id = Some v → False)
    as Hopen.
  { intros (order & Hin & Hid & Htr & _)%open_order_entries_lookup.
    by rewrite (Hnone order Hin Hid) in Htr. }
  case_bool_decide; [|done].
  apply cached_orders_lookup in Hv as [?|(row & q & Hrow & <- & Hq & ->)];
    [done|].
  apply cached_rows_elem in Hrow as (Hin & Hsym & Hknown).
  assert (osv_type (cached_order_view (order_ids env symbol side) row q)
          = if bool_decide (os_order_id row
                            ∈ tp_order_ids (order_ids env symbol side))
            then "TP_ORDER" else "SL_ORDER") as Htype.
  { cbn. case_bool_decide as Htp; [done|].
    apply order_ids_union in Hknown as [?|Hsl]; [done|].
    by rewrite bool_decide_eq_true_2. }
  split_and!; [done| |done|done|].
  - by exists row, q.
  - rewrite Htype. by case_bool_decide.
Qed.

(** X9 at a read where order A, named by an older relationship row, is
    found in the cache only. *)
Lemma X9_cached_entries_witness :
  has_credentials Sample.env_replaced_order
  ∧ ∃ r, outcome (get_position_details Sample.env_replaced_order "BTCUSDT" "LONG")
         = Returns r
         ∧ ∃ v, order_statuses r !! "A" = Some v
                ∧ osv_type v = "TP_ORDER"
                ∧ osv_executed_qty v = 0.
Proof.
  assert (has_credentials Sample.env_replaced_order) as Hcred by done.
  split; [exact Hcred|].
  destruct (X9_cached_entries Sample.env_replaced_order "BTCUSDT" "LONG" Hcred)
    as (r & Hr & Hcached).
  exists r. split; [exact Hr|].
  assert (is_Some (order_statuses r !! "A")) as [v Hv].
  { revert Hr. vm_compute. intros [= <-]. by eexists. }
  exists v. split; [exact Hv|].
  destruct (Hcached "A" v Hv) as (_ & _ & Hexec & Htype & _).
  { by intros order ?%elem_of_nil. }
  split; [|exact Hexec]. rewrite Htype. by vm_compute.
Defined.

(** X10.  In a read made with credentials where every cached row in
    question has a quantity, the ids filed in [order_statuses] are exactly
    the ids of the filed open orders and the ids known to the ledger that
    have a cached row of the requested symbol. *)
Theorem X10_statuses_complete env symbol side :
  has_credentials env →
  Forall (λ row, os_quantity row ≠ None) (cached_rows env symbol side) →
  ∃ r, outcome (get_position_details env symbol side) = Returns r ∧
    let ids := order_ids env symbol side in
    ∀ order_id,
      is_Some (order_statuses r !! order_id)
      ↔ (∃ order, order ∈ open_orders_seen env symbol
                  ∧ open_order_id order = order_id
                  ∧ is_tracked ids order = true)
        ∨ (order_id ∈ tp_sl_order_ids ids
           ∧ ∃ row, row ∈ tbl_order_status (ledger env)
                    ∧ os_symbol row = symbol
                    ∧ os_order_id row = order_id).
Proof.
  intros Hcred Hq.
  destruct (get_position_details_outcome env symbol side)
    as (sts & sm & _ & _ & Hr).
  eexists. split; [exact Hr|]. cbv zeta.
  rewrite (order_statuses_value env symbol side _ Hr Hcred).
  intros order_id. split.
  - intros [v Hv].
    assert (open_order_entries env symbol side !! order_id = Some v →
            ∃ order, order ∈ open_orders_seen env symbol
                     ∧ open_order_id order = order_id
                     ∧ is_tracked (order_ids env symbol side) order = true)
      as Hopen.
    { intros (order & ? & ? & ? & _)%open_order_entries_lookup.
      by exists order. }
    case_bool_decide; [|left; by apply Hopen].
    apply cached_orders_lookup in Hv as [?|(row & q & Hrow & <- & _)];
      [left; by apply Hopen|].
    right. apply cached_rows_elem in Hrow as (? & ? & ?).
    split; [done|]. by exists row.
  - intros [(order & Hin & <- & Htr)|(Hknown & row & Hin & Hsym & <-)].
    + pose proof (open_orders_filed _ _ ∅ order Hin Htr) as [v Hv].
      fold (open_order_entries env symbol side) in Hv.
      exists v. case_bool_decide; [by apply cached_orders_keep|done].
    + rewrite bool_decide_eq_true_2.
      * apply cached_orders_complete; [done|]. by apply cached_rows_elem.
      * intros Hempty. rewrite Hempty in Hknown. by apply elem_of_empty in Hknown.
Qed.

(** X10 at the read where orders A and B are known and A is cached. *)
Lemma X10_statuses_complete_witness :
  has_credentials Sample.env_replaced_order
  ∧ Forall (λ row, os_quantity row ≠ None)
      (cached_rows Sample.env_replaced_order "BTCUSDT" "LONG")
  ∧ ∃ r, outcome (get_position_details Sample.env_replaced_order "BTCUSDT" "LONG")
         = Returns r
         ∧ is_Some (order_statuses r !! "A")
         ∧ ¬ is_Some (order_statuses r !! "B").
Proof.
  assert (has_credentials Sample.env_replaced_order) as Hcred by done.
  assert (Forall (λ row, os_quantity row ≠ None)
            (cached_rows Sample.env_replaced_order "BTCUSDT" "LONG")) as Hq.
  { change (cached_rows Sample.env_replaced_order "BTCUSDT" "LONG")
      with [Sample.cached_order "A"]. by repeat constructor. }
  split; [exact Hcred|]. split; [exact Hq|].
  destruct (X10_statuses_complete Sample.env_replaced_order "BTCUSDT" "LONG"
              Hcred Hq) as (r & Hr & Hiff).
  exists r. split; [exact Hr|]. split.
  - apply Hiff. right. split; [by vm_compute|].
    exists (Sample.cached_order "A"). split; [by left|done].
  - intros [(order & []%elem_of_nil & _)|(_ & row & Hrow & _ & Hid)]%Hiff.
    apply list_elem_of_singleton in Hrow as ->. discriminate Hid.
Defined.

Lemma cached_orders_stop ids l1 row l2 (st : gmap string OrderStatusView) :
  os_quantity row = None →
  record_cached_orders ids l1 st !! os_order_id row = None →
  record_cached_orders ids (l1 ++ row :: l2) st = record_cached_orders ids l1 st.
Proof.
  intros Hq. revert st. induction l1 as [|r1 l1 IH]; intros st Hnone.
  - cbn [app]. rewrite record_cached_orders_cons, Hq.
    cbn in Hnone. rewrite bool_decide_eq_false_2; [done|].
    rewrite Hnone. by intros [? ?].
  - cbn [app]. rewrite !record_cached_orders_cons in *.
    case_bool_decide; [by apply IH|].
    destruct (os_quantity r1); [by apply IH|done].
Qed.

(** X11.  In a read made with credentials, a cached row without quantity
    whose id is not filed yet ends the pass over the cache: an id that is
    neither a filed open order's nor the id of a row before that one is
    not filed, whatever rows follow. *)
Theorem X11_cache_stops_at_missing_quantity env symbol side l1 row l2 :
  has_credentials env →
  cached_rows env symbol side = (l1 ++ row :: l2)%list →
  os_quantity row = None →
  (∀ order, order ∈ open_orders_seen env symbol →
            open_order_id order = os_order_id row →
            is_tracked (order_ids env symbol side) order = false) →
  (∀ row', row' ∈ l1 → os_order_id row' ≠ os_order_id row) →
  ∃ r, outcome (get_position_details env symbol side) = Returns r ∧
    ∀ order_id,
      (∀ order, order ∈ open_orders_seen env symbol →
                open_order_id order = order_id →
                is_tracked (order_ids env symbol side) order = false) →
      (∀ row', row' ∈ l1 → os_order_id row' ≠ order_id) →
      order_statuses r !! order_id = None.
Proof.
  intros Hcred Hrows Hq Hrow_open Hrow_l1.
  destruct (get_position_details_outcome env symbol side)
    as (sts & sm & _ & _ & Hr).
  eexists. split; [exact Hr|].
  rewrite (order_statuses_value env symbol side _ Hr Hcred).
  assert (∀ order_id,
            (∀ order, order ∈ open_orders_seen env symbol →
                      open_order_id order = order_id →
                      is_tracked (order_ids env symbol side) order = false) →
            (∀ row', row' ∈ l1 → os_order_id row' ≠ order_id) →
            record_cached_orders (order_ids env symbol side) l1
              (open_order_entries env symbol side) !! order_id = None) as Hl1.
  { intros order_id Hopen Hnot.
    match goal with |- ?m !! _ = None => destruct (m !! order_id) as [v|] eqn:Hv end;
      [exfalso|done].
    apply cached_orders_lookup in Hv as [Hv|(row' & q & Hin & Hid & _)].
    - apply open_order_entries_lookup in Hv as (order & Hin & Hid & Htr & _).
      by rewrite (Hopen order Hin Hid) in Htr.
    - by apply (Hnot row' Hin). }
  rewrite bool_decide_eq_true_2.
  - rewrite Hrows, cached_orders_stop; [|done|by apply Hl1]. exact Hl1.
  - intros Hempty.
    assert (row ∈ cached_rows env symbol side) as Hin.
    { rewrite Hrows. apply elem_of_app. right. by left. }
    apply cached_rows_elem in Hin as (_ & _ & Hknown).
    rewrite Hempty in Hknown. by apply elem_of_empty in Hknown.
Qed.

(** X11 at a cache holding a row without quantity for order A before the
    complete row of order B: B is not filed. *)
Lemma X11_cache_stops_at_missing_quantity_witness :
  cached_rows Cases.env_null_quantity "BTCUSDT" "LONG"
  = [Cases.cached_without_quantity "A"; Sample.cached_order "B"]
  ∧ "B" ∈ tp_sl_order_ids (order_ids Cases.env_null_quantity "BTCUSDT" "LONG")
  ∧ ∃ r, outcome (get_position_details Cases.env_null_quantity "BTCUSDT" "LONG")
         = Returns r
         ∧ order_statuses r !! "B" = None.
Proof.
  split; [reflexivity|]. split; [by vm_compute|].
  destruct (X11_cache_stops_at_missing_quantity Cases.env_null_quantity
              "BTCUSDT" "LONG" [] (Cases.cached_without_quantity "A")
              [Sample.cached_order "B"])
    as (r & Hr & Hnone); [done|reflexivity|reflexivity| | |].
  - by intros order ?%elem_of_nil.
  - by intros row' ?%elem_of_nil.
  - exists r. split; [exact Hr|]. apply Hnone.
    + by intros order ?%elem_of_nil.
    + by intros row' ?%elem_of_nil.
Defined.

Lemma open_orders_seen_failure env symbol :
  exchange_openOrders env symbol = None
  ∨ (∃ response, exchange_openOrders env symbol = Some response
                 ∧ (status_code response ≠ 200%Z ∨ json response = None)) →
  open_orders_seen env symbol = [].
Proof.
  unfold open_orders_seen. intros [->|(response & -> & [Hc|Hj])]; [done| |].
  - by rewrite bool_decide_eq_false_2.
  - rewrite Hj. by case_bool_decide.
Qed.

(** X12.  In a read made with credentials, when the open-orders request
    raises, is answered with another status than 200 or carries no JSON
    body, the read still returns and files the cached orders alone: every
    entry of [order_statuses] is that of a cached row of the symbol whose
    id the ledger knows, with an executed quantity of 0, and when every
    such row has a quantity each of them is filed. *)
Theorem X12_open_orders_failure_degrades env symbol side :
  has_credentials env →
  exchange_openOrders env symbol = None
  ∨ (∃ response, exchange_openOrders env symbol = Some response
                 ∧ (status_code response ≠ 200%Z ∨ json response = None)) →
  ∃ r, outcome (get_position_details env symbol side) = Returns r
    ∧ (∀ order_id v,
         order_statuses r !! order_id = Some v →
         ∃ row quantity,
           row ∈ cached_rows env symbol side
           ∧ os_order_id row = order_id
           ∧ os_quantity row = Some quantity
           ∧ v = cached_order_view (order_ids env symbol side) row quantity)
    ∧ (Forall (λ row, os_quantity row ≠ None) (cached_rows env symbol side) →
       ∀ row, row ∈ cached_rows env symbol side →
              is_Some (order_statuses r !! os_order_id row)).
Proof.
  intros Hcred Hfail.
  destruct (get_position_details_outcome env symbol side)
    as (sts & sm & _ & _ & Hr).
  eexists. split; [exact Hr|].
  rewrite (order_statuses_value env symbol side _ Hr Hcred).
  unfold open_order_entries. rewrite (open_orders_seen_failure _ _ Hfail). cbn.
  split.
  - intros order_id v Hv. case_bool_decide; [|by rewrite lookup_empty in Hv].
    apply cached_orders_lookup in Hv as [Hv|?]; [|done].
    by rewrite lookup_empty in Hv.
  - intros Hq row Hrow. rewrite bool_decide_eq_true_2.
    + by apply cached_orders_complete.
    + intros Hempty. apply cached_rows_elem in Hrow as (_ & _ & Hknown).
      rewrite Hempty in Hknown. by apply elem_of_empty in Hknown.
Qed.

(** X12 at a read whose open-orders request raises while order A is
    cached. *)
Lemma X12_open_orders_failure_degrades_witness :
  has_credentials Sample.env_replaced_order
  ∧ exchange_openOrders Sample.env_replaced_order "BTCUSDT" = None
  ∧ ∃ r, outcome (get_position_details Sample.env_replaced_order "BTCUSDT" "LONG")
         = Returns r
         ∧ is_Some (order_statuses r !! "A").
Proof.
  assert (has_credentials Sample.env_replaced_order) as Hcred by done.
  split; [exact Hcred|]. split; [reflexivity|].
  destruct (X12_open_orders_failure_degrades Sample.env_replaced_order
              "BTCUSDT" "LONG" Hcred (or_introl eq_refl))
    as (r & Hr & _ & Hfiled).
  exists r. split; [exact Hr|].
  apply (Hfiled ltac:(by repeat constructor) (Sample.cached_order "A")).
  by left.
Defined.

(** ** Further properties of the close route *)

(** The run of [close_position], case by case. *)
Lemma close_position_run env symbol side :
  close_position env symbol side
  = match exchange_positionRisk env with
    | None => ([GET_positionRisk], Returns (error_result InternalError 500))
    | Some response =>
        if bool_decide (status_code response = 200%Z) then
          match json response with
          | None => ([GET_positionRisk], Returns (error_result InternalError 500))
          | Some positions =>
              match find_target_position symbol side positions with
              | None =>
                  ([GET_positionRisk],
                   Returns (error_result (NoOpenPositionFound symbol side) 404))
              | Some p =>
                  let quantity := Qabs (default 0 (pos_positionAmt p)) in
                  if simulation_mode env then
                    ([GET_positionRisk],
                     Returns {| body := SimulatedBody symbol side quantity;
                                http_status := 200 |})
                  else
                    let sent := [GET_positionRisk;
                                 POST_order (closing_order symbol p)] in
                    match exchange_order env (closing_order symbol p) with
                    | None => (sent, Returns (error_result InternalError 500))
                    | Some order_response =>
                        if bool_decide (status_code order_response = 200%Z) then
                          match json order_response with
                          | None =>
                              (sent, Returns (error_result InternalError 500))
                          | Some order_result =>
                              ((sent ++ [InsertTrade
                                           (close_trade_args symbol p
                                              order_result)])%list,
                               Returns
                                 {| body :=
                                      ClosedBody symbol side
                                        (default "unknown"
                                           (or_orderId order_result))
                                        (closing_side p) quantity order_result;
                                    http_status := 200 |})
                          end
                        else
                          (sent,
                           Returns
                             (error_result
                                (FailedToPlaceCloseOrder (text order_response))
                                (status_code order_response)))
                    end
              end
          end
        else
          ([GET_positionRisk],
           Returns (error_result
                      (FailedToFetchPositionData (status_code response))
                      (status_code response)))
    end.
Proof.
  unfold close_position, request_positionRisk.
  destruct (exchange_positionRisk env) as [[code [positions|] txt]|]; cbn;
    try (case_bool_decide; cbn); try reflexivity.
  destruct (find_target_position symbol side positions) as [p|] eqn:Hf;
    [|reflexivity].
  rewrite (find_target_position_nonzero _ _ _ _ Hf).
  destruct (simulation_mode env); [reflexivity|].
  unfold request_order, closing_side, close_trade_args, closing_side.
  destruct (exchange_order env (closing_order symbol p))
    as [[ocode [res|] otxt]|]; cbn;
    try (case_bool_decide; cbn); try reflexivity.
  unfold log_close. cbn.
  destruct (insert_trade_raises env _), (Qltb 0 _); reflexivity.
Qed.

(** Splits [close_position] into its cases. *)
Ltac close_cases env symbol side :=
  rewrite ?(close_position_run env symbol side);
  destruct (exchange_positionRisk env) as [[code [positions|] txt]|];
  cbn [status_code json text];
  [ case_bool_decide;
    [ destruct (find_target_position symbol side positions) as [p|] eqn:Hfound;
      [ cbv zeta; destruct (simulation_mode env) eqn:Hsim;
        [ | destruct (exchange_order env (closing_order symbol p))
              as [[ocode [order_result|] otxt]|] eqn:Horder;
            cbn [status_code json text];
            [ case_bool_decide | case_bool_decide | ] ]
      | ]
    | ]
  | case_bool_decide
  | ].

(** X13.  A close always answers, whatever the exchange, the configuration
    and the ledger do, and its body says success exactly when its HTTP
    status is 200. *)
Theorem X13_close_answers env symbol side :
  ∃ r, outcome (close_position env symbol side) = Returns r
    ∧ (success (body r) = true ↔ http_status r = 200%Z).
Proof.
  close_cases env symbol side; eexists; (split; [reflexivity|]); cbn;
    split; intros ?; done.
Qed.

(** X14.  A close fetches the live positions first, submits at most one
    order and writes at most one trade to the ledger.  It writes the trade
    exactly when it answers with an order id, that is after the exchange
    accepted the order; every other answer leaves the ledger alone. *)
Theorem X14_close_calls env symbol side :
  ∃ r rest,
    outcome (close_position env symbol side) = Returns r
    ∧ trace (close_position env symbol side) = GET_positionRisk :: rest
    ∧ filter is_positions_fetch rest = []
    ∧ (length (filter is_order_submission rest) ≤ 1)%nat
    ∧ (length (filter is_ledger_write rest) ≤ 1)%nat
    ∧ (filter is_ledger_write rest ≠ [] ↔ is_Some (order_id (body r)))
    ∧ (is_Some (order_id (body r)) → filter is_order_submission rest ≠ []).
Proof.
  close_cases env symbol side; eexists _, _;
    (split; [reflexivity|]); (split; [reflexivity|]); cbn;
    repeat (case_decide; try done); cbn;
    (split_and!; [done|lia|lia| |]);
    first [ by intros [? [=]]
          | by (intros _; discriminate)
          | split; [done|by intros [? [=]]]
          | split; [by eexists|done] ].
Qed.

(** X15.  A close never answers that the located position has no size: a
    position is located only with a non-zero amount, so the check of line
    337 never fires. *)
Theorem X15_no_position_size_unreachable env symbol side r :
  outcome (close_position env symbol side) = Returns r →
  body r ≠ ErrorBody (NoPositionSize symbol side)
  ∧ ∀ s d, body r ≠ ErrorBody (NoPositionSize s d).
Proof.
  close_cases env symbol side; cbn; intros [= <-]; done.
Qed.

(** X15 at a close of the sample hedged position. *)
Lemma X15_no_position_size_unreachable_witness :
  ∃ r, outcome (close_position Sample.env_hedged "BTCUSDT" "LONG") = Returns r
       ∧ body r ≠ ErrorBody (NoPositionSize "BTCUSDT" "LONG").
Proof.
  eexists. split; [reflexivity|].
  by apply (X15_no_position_size_unreachable Sample.env_hedged "BTCUSDT" "LONG").
Defined.

(** X16.  When the positions request of a close is answered with another
    status than 200, the close answers an error with that same status;
    when the request raises or its body is no JSON, it answers 500.  In
    each case nothing but the positions request is sent. *)
Theorem X16_close_fetch_failure env symbol side :
  (∀ response,
     exchange_positionRisk env = Some response →
     status_code response ≠ 200%Z →
     close_position env symbol side
     = ([GET_positionRisk],
        Returns (error_result (FailedToFetchPositionData (status_code response))
                   (status_code response))))
  ∧ (exchange_positionRisk env = None
     ∨ (∃ response, exchange_positionRisk env = Some response
                    ∧ status_code response = 200%Z ∧ json response = None) →
     close_position env symbol side
     = ([GET_positionRisk], Returns (error_result InternalError 500))).
Proof.
  rewrite close_position_run. split.
  - intros response -> Hc. by rewrite bool_decide_eq_false_2.
  - intros [->|(response & -> & Hc & ->)]; [done|].
    by rewrite bool_decide_eq_true_2.
Qed.

Lemma find_target_position_first symbol side positions p :
  find_target_position symbol side positions = Some p
  ↔ ∃ l1 l2, positions = (l1 ++ p :: l2)%list
             ∧ closable symbol side p
             ∧ Forall (λ q, ¬ closable symbol side q) l1.
Proof.
  assert (∀ q,
            (let position_amt := default 0 (pos_positionAmt q) in
             String.eqb (pos_symbol q) symbol && Qneb position_amt 0
             && (if negb (String.eqb side "BOTH")
                 then String.eqb (if Qltb 0 position_amt then "LONG" else "SHORT")
                        side
                 else true)) = true
            ↔ closable symbol side q) as Htest.
  { intros q. cbv zeta. unfold closable, Qneb.
    set (amt := default 0 (pos_positionAmt q)).
    rewrite !andb_true_iff, String.eqb_eq, negb_true_iff,
      <- not_true_iff_false, Qeq_bool_iff.
    destruct (Qeq_dec amt 0) as [Heq|Hnz]; [tauto|].
    assert ((if negb (String.eqb side "BOTH")
             then String.eqb (if Qltb 0 amt then "LONG" else "SHORT") side
             else true) = true
            ↔ (side = "BOTH" ∨ (side = "LONG" ∧ 0 < amt)
               ∨ (side = "SHORT" ∧ amt < 0))) as Hdir; [|tauto].
    destruct (String.eqb side "BOTH") eqn:Hboth; cbn [negb].
    - apply String.eqb_eq in Hboth. tauto.
    - apply String.eqb_neq in Hboth. rewrite String.eqb_eq.
      destruct (Qltb 0 amt) eqn:Hlt.
      + apply Qltb_lt in Hlt. split.
        * intros <-. right. by left.
        * intros [?|[[-> _]|[_ Hneg]]]; [done..|].
          exfalso. apply (Qlt_irrefl 0). by apply (Qlt_trans 0 amt 0).
      + apply Qltb_ge in Hlt. split.
        * intros <-. right. right. split; [done|].
          apply Qle_lteq in Hlt as [?|?]; done.
        * intros [?|[[_ Hpos]|[-> _]]]; [done| |done].
          exfalso. by apply Qle_not_lt in Hlt. }
  unfold find_target_position.
  induction positions as [|q qs IH]; cbn [List.find].
  - split; [done|]. by intros ([|??] & ? & ? & _).
  - match goal with |- context [if ?b then _ else _] => destruct b eqn:E end.
    + apply Htest in E. split.
      * intros [= ->]. exists [], qs. split; [done|]. split; [done|constructor].
      * intros (l1 & l2 & Heq & _ & Hl1).
        destruct l1 as [|q' l1]; cbn in Heq; injection Heq as -> ->; [done|].
        by apply Forall_cons in Hl1 as [? _].
    + assert (¬ closable symbol side q) as Hq.
      { intros Hc%Htest. cbv zeta in Hc. congruence. }
      rewrite IH. split.
      * intros (l1 & l2 & -> & ? & ?). exists (q :: l1), l2.
        split; [done|]. split; [done|by constructor].
      * intros (l1 & l2 & Heq & Hc & Hl1).
        destruct l1 as [|q' l1]; cbn in Heq; injection Heq as -> ->; [done|].
        apply Forall_cons in Hl1 as [_ Hl1]. by exists l1, l2.
Qed.

Lemma find_target_position_none symbol side positions :
  find_target_position symbol side positions = None
  ↔ Forall (λ q, ¬ closable symbol side q) positions.
Proof.
  split.
  - intros Hnone. apply Forall_forall. intros q Hq Hc.
    apply list_elem_of_split in Hq as (l1 & l2 & ->).
    assert (∃ p, find_target_position symbol side (l1 ++ q :: l2) = Some p)
      as [p Hp]; [|congruence].
    clear Hnone. induction l1 as [|q' l1 IH].
    + exists q. apply find_target_position_first. exists [], l2.
      split; [done|]. split; [done|constructor].
    + destruct IH as [p Hp].
      destruct (find_target_position symbol side ((q' :: l1) ++ q :: l2))
        as [p'|] eqn:E; [by eexists|].
      exfalso. unfold find_target_position in *. cbn [app List.find] in E.
      match type of E with
      | (if ?b then _ else _) = _ => destruct b; [done|congruence]
      end.
  - intros Hall.
    destruct (find_target_position symbol side positions) as [p|] eqn:E;
      [|done].
    apply find_target_position_first in E as (l1 & l2 & -> & Hc & _).
    apply Forall_app in Hall as [_ Hall].
    by apply Forall_cons in Hall as [? _].
Qed.

(** X17.  A close acts on the first position of the exchange's answer that
    has the requested symbol, a non-zero amount and, unless the requested
    side is BOTH, the requested direction (LONG for a positive, SHORT for a
    negative amount).  With no such position, and so for any side other
    than BOTH, LONG and SHORT, it answers 404 and submits nothing. *)
Theorem X17_close_target env symbol side response positions :
  exchange_positionRisk env = Some response →
  status_code response = 200%Z →
  json response = Some positions →
  (Forall (λ q, ¬ closable symbol side q) positions →
   close_position env symbol side
   = ([GET_positionRisk],
      Returns (error_result (NoOpenPositionFound symbol side) 404)))
  ∧ (side ≠ "BOTH" → side ≠ "LONG" → side ≠ "SHORT" →
     Forall (λ q, ¬ closable symbol side q) positions)
  ∧ (∀ l1 p l2,
       positions = (l1 ++ p :: l2)%list →
       closable symbol side p →
       Forall (λ q, ¬ closable symbol side q) l1 →
       (simulation_mode env = true →
        close_position env symbol side
        = ([GET_positionRisk],
           Returns {| body := SimulatedBody symbol side
                                (Qabs (default 0 (pos_positionAmt p)));
                      http_status := 200 |}))
       ∧ (simulation_mode env = false →
          filter is_order_submission (trace (close_position env symbol side))
          = [POST_order (closing_order symbol p)])).
Proof.
  intros Hr Hc Hj. split_and!.
  - intros Hnone%find_target_position_none.
    rewrite close_position_run, Hr, Hj, Hnone.
    by rewrite bool_decide_eq_true_2.
  - intros Hb Hl Hs. apply Forall_forall.
    intros q _ (_ & _ & [?|[[? _]|[? _]]]); done.
  - intros l1 p l2 Hpos Hp Hl1.
    assert (find_target_position symbol side positions = Some p) as Hf.
    { apply find_target_position_first. by exists l1, l2. }
    split; intros Hs.
    + by apply (close_position_simulated _ _ _ response positions).
    + by apply (close_position_submission _ _ _ response positions).
Qed.

(** X17 at a close of the side LONG while the only position is short. *)
Lemma X17_close_target_witness :
  exchange_positionRisk Sample.env_opposite_side = Sample.ok [Sample.btc_short]
  ∧ Forall (λ q, ¬ closable "BTCUSDT" "LONG" q) [Sample.btc_short]
  ∧ close_position Sample.env_opposite_side "BTCUSDT" "LONG"
    = ([GET_positionRisk],
       Returns (error_result (NoOpenPositionFound "BTCUSDT" "LONG") 404)).
Proof.
  assert (Forall (λ q, ¬ closable "BTCUSDT" "LONG" q) [Sample.btc_short])
    as Hnone.
  { repeat constructor. intros (_ & _ & [?|[[_ Hpos]|[? _]]]); done. }
  split; [reflexivity|]. split; [exact Hnone|].
  by apply (X17_close_target Sample.env_opposite_side "BTCUSDT" "LONG" _
              [Sample.btc_short] eq_refl eq_refl eq_refl).
Defined.

(** X18.  When the exchange rejects the closing order (another status than
    200), the close answers an error carrying the exchange's status and its
    text; when the order request raises or its answer is no JSON, the close
    answers 500.  In each case the order was sent and nothing is written to
    the ledger. *)
Theorem X18_order_rejected env symbol side response positions p :
  exchange_positionRisk env = Some response →
  status_code response = 200%Z →
  json response = Some positions →
  find_target_position symbol side positions = Some p →
  simulation_mode env = false →
  let sent := [GET_positionRisk; POST_order (closing_order symbol p)] in
  (∀ order_response,
     exchange_order env (closing_order symbol p) = Some order_response →
     status_code order_response ≠ 200%Z →
     close_position env symbol side
     = (sent,
        Returns (error_result (FailedToPlaceCloseOrder (text order_response))
                   (status_code order_response))))
  ∧ (exchange_order env (closing_order symbol p) = None
     ∨ (∃ order_response,
          exchange_order env (closing_order symbol p) = Some order_response
          ∧ status_code order_response = 200%Z
          ∧ json order_response = None) →
     close_position env symbol side
     = (sent, Returns (error_result InternalError 500))).
Proof.
  intros Hr Hc Hj Hf Hs sent.
  rewrite close_position_run, Hr, Hj, Hf, Hs, bool_decide_eq_true_2 by done.
  cbv zeta. split.
  - intros order_response -> Hoc. by rewrite bool_decide_eq_false_2.
  - intros [->|(order_response & -> & Hoc & ->)]; [done|].
    by rewrite bool_decide_eq_true_2.
Qed.

(** X18 at a close whose order the exchange rejects with status 400. *)
Lemma X18_order_rejected_witness :
  simulation_mode Cases.env_order_rejected = false
  ∧ close_position Cases.env_order_rejected "BTCUSDT" "LONG"
    = ([GET_positionRisk;
        POST_order (closing_order "BTCUSDT" Sample.btc_hedged_long)],
       Returns (error_result
                  (FailedToPlaceCloseOrder "ReduceOnly Order is rejected.") 400)).
Proof.
  split; [reflexivity|].
  destruct (X18_order_rejected Cases.env_order_rejected "BTCUSDT" "LONG" _
              [Sample.btc_hedged_long] Sample.btc_hedged_long
              eq_refl eq_refl eq_refl eq_refl eq_refl) as [Hrejected _].
  by apply (Hrejected {| status_code := 400; json := None;
                         text := "ReduceOnly Order is rejected." |}).
Defined.

(** X19.  After an accepted close the trade written to the ledger agrees
    with the order sent and with the answer: same symbol, the side and the
    quantity of the order, the order id of the answer, price 0, status
    SUCCESS, type MARKET, no parent order, the whole quantity as filled, and
    the exchange's average price or 0 when it gives none. *)
Theorem X19_ledger_record env symbol side response positions p
    order_response order_result :
  exchange_positionRisk env = Some response →
  status_code response = 200%Z →
  json response = Some positions →
  find_target_position symbol side positions = Some p →
  simulation_mode env = false →
  exchange_order env (closing_order symbol p) = Some order_response →
  status_code order_response = 200%Z →
  json order_response = Some order_result →
  ∃ r args order_data,
    outcome (close_position env symbol side) = Returns r
    ∧ trace (close_position env symbol side)
      = [GET_positionRisk; POST_order order_data; InsertTrade args]
    ∧ it_symbol args = symbol
    ∧ order_data !! "symbol" = Some (PyStr (it_symbol args))
    ∧ order_data !! "side" = Some (PyStr (it_side args))
    ∧ order_data !! "quantity" = Some (PyRepr (it_qty args))
    ∧ it_filled_qty args = it_qty args
    ∧ order_id (body r) = Some (it_order_id args)
    ∧ it_price args = 0
    ∧ it_status args = "SUCCESS"
    ∧ it_order_type args = "MARKET"
    ∧ it_parent_order_id args = None
    ∧ it_response args = order_result
    ∧ it_avg_price args = default (PyNum 0) (or_avgPrice order_result).
Proof.
  intros Hr Hc Hj Hf Hs Ho Hoc Hoj.
  rewrite close_position_run, Hr, Hj, Hf, Hs, Ho, Hoj,
    !bool_decide_eq_true_2 by done.
  cbv zeta. eexists _, (close_trade_args symbol p order_result), _.
  split; [reflexivity|]. split; [reflexivity|]. cbn.
  rewrite closing_order_quantity, closing_order_side.
  split_and!; try done.
  unfold closing_order. destruct (String.eqb _ "BOTH"); by simplify_map_eq.
Qed.

(** X19 at the accepted close of the hedged long position. *)
Lemma X19_ledger_record_witness :
  simulation_mode Sample.env_hedged = false
  ∧ ∃ args,
      trace (close_position Sample.env_hedged "BTCUSDT" "LONG")
      = [GET_positionRisk;
         POST_order (closing_order "BTCUSDT" Sample.btc_hedged_long);
         InsertTrade args]
      ∧ it_side args = "SELL" ∧ it_qty args = 3 ∧ it_order_id args = "42".
Proof.
  split; [reflexivity|].
  destruct (X19_ledger_record Sample.env_hedged "BTCUSDT" "LONG" _
              [Sample.btc_hedged_long] Sample.btc_hedged_long _
              {| or_orderId := Some "42"; or_avgPrice := None |}
              eq_refl eq_refl eq_refl eq_refl eq_refl eq_refl eq_refl eq_refl)
    as (r & args & order_data & _ & Htrace & _).
  injection Htrace as <- <-. eexists. split; [reflexivity|]. done.
Defined.

(** ** Further properties of the summary *)

(** X20.  The PnL read off a live position is the price move times the
    signed amount, [(mark - entry) * amt], for a long and for a short
    position alike, and the quantity of such a summary is positive. *)
Theorem X20_signed_pnl env symbol side p :
  live_position env symbol = Some p →
  ∃ r, outcome (get_position_details env symbol side) = Returns r
    ∧ unrealized_pnl (summary r)
      == (default 0 (pos_markPrice p) - default 0 (pos_entryPrice p))
         * default 0 (pos_positionAmt p)
    ∧ 0 < total_quantity (summary r).
Proof.
  intros Hlive.
  destruct (get_position_details_outcome env symbol side)
    as (sts & sm & _ & Hsm & Hr).
  eexists. split; [exact Hr|]. cbn [summary].
  rewrite Hlive in Hsm. injection Hsm as <-. cbn.
  assert (¬ default 0 (pos_positionAmt p) == 0) as Hnz.
  { pose proof Hlive as Hl. rewrite live_position_unfold in Hl.
    destruct (exchange_positionRisk env) as [response|]; [|done].
    case_bool_decide; [|done].
    destruct (json response) as [positions|]; [|done].
    by apply find_exchange_position_first in Hl as (? & ? & _ & _ & ? & _). }
  set (amt := default 0 (pos_positionAmt p)) in *.
  set (mark := default 0 (pos_markPrice p)).
  set (entry := default 0 (pos_entryPrice p)).
  split.
  - destruct (Qltb 0 amt) eqn:Hpos; [reflexivity|].
    apply Qltb_ge in Hpos.
    destruct (Qltb amt 0) eqn:Hneg.
    + rewrite (Qabs_neg amt Hpos). ring.
    + apply Qltb_ge in Hneg. destruct Hnz. by apply Qle_antisym.
  - destruct (Qlt_le_dec 0 amt) as [Hpos|Hle].
    + by apply Qabs_gt.
    + rewrite (Qabs_neg amt Hle).
      apply Qle_lteq in Hle as [Hneg|?]; [|done].
      apply (Qplus_lt_l _ _ amt). by ring_simplify.
Qed.

(** X20 at the sample short position: entered at 100, marked at 90, amount
    -2, hence a PnL of 20. *)
Lemma X20_signed_pnl_witness :
  live_position Sample.env_opposite_side "BTCUSDT" = Some Sample.btc_short
  ∧ ∃ r, outcome (get_position_details Sample.env_opposite_side "BTCUSDT" "SHORT")
         = Returns r
         ∧ unrealized_pnl (summary r) == 20.
Proof.
  split; [reflexivity|].
  destruct (X20_signed_pnl Sample.env_opposite_side "BTCUSDT" "SHORT"
              Sample.btc_short eq_refl) as (r & Hr & Hpnl & _).
  exists r. split; [exact Hr|]. rewrite Hpnl. by vm_compute.
Defined.

(** X22.  The summary, the tranches, the relationships and the trades of a
    response depend on the live positions, the configuration and the
    ledger tables of tranches, trades and relationships only: credentials,
    open orders and cached order statuses change nothing but
    [order_statuses]. *)
Theorem X22_summary_independent_of_orders env env' symbol side :
  same_position_sources env env' →
  ∃ r r',
    outcome (get_position_details env symbol side) = Returns r
    ∧ outcome (get_position_details env' symbol side) = Returns r'
    ∧ summary r = summary r'
    ∧ tranches r = tranches r'
    ∧ order_relationships r = order_relationships r'
    ∧ trades r = trades r'.
Proof.
  intros (Hcfg & Hpos & Htr & Htrades & Hrels).
  destruct (get_position_details_outcome env symbol side)
    as (sts & sm & _ & Hsm & Hr).
  destruct (get_position_details_outcome env' symbol side)
    as (sts' & sm' & _ & Hsm' & Hr').
  assert (live_position env symbol = live_position env' symbol) as Hlive.
  { by rewrite !live_position_unfold, Hpos. }
  assert (tranche_views env symbol side = tranche_views env' symbol side)
    as Hviews.
  { unfold tranche_views, filled_tranches, ledger_tranches, select_tranches,
      select_latest_relationship, relationship_candidates.
    by rewrite Hlive, Htr, Htrades, Hrels. }
  assert (relationship_views env symbol side = relationship_views env' symbol side)
    as Hrv.
  { unfold relationship_views, select_relationships. by rewrite Hrels. }
  assert (select_trades (ledger env) symbol side
          = select_trades (ledger env') symbol side) as Hst.
  { unfold select_trades. by rewrite Htrades. }
  assert (sm = sm') as ->.
  { rewrite Hlive, Hviews in Hsm.
    assert (summarize env symbol (live_position env' symbol)
              (tranche_views env' symbol side)
            = summarize env' symbol (live_position env' symbol)
                (tranche_views env' symbol side)) as Heq.
    { unfold summarize, tranche_summary, config_leverage. by rewrite Hcfg. }
    rewrite Heq, Hsm' in Hsm. by injection Hsm. }
  eexists _, _. split; [exact Hr|]. split; [exact Hr'|]. cbn.
  by rewrite Hviews, Hrv, Hst.
Qed.

(** X22 at two reads of the same two tranches, one with credentials and a
    failing open-orders request, one without credentials and with another
    cache. *)
Lemma X22_summary_independent_of_orders_witness :
  same_position_sources Sample.env_ledger_only Cases.env_ledger_only_offline
  ∧ ∃ r r',
      outcome (get_position_details Sample.env_ledger_only "BTCUSDT" "LONG")
      = Returns r
      ∧ outcome (get_position_details Cases.env_ledger_only_offline
                   "BTCUSDT" "LONG") = Returns r'
      ∧ summary r = summary r'.
Proof.
  assert (same_position_sources Sample.env_ledger_only
            Cases.env_ledger_only_offline) as Hsame by done.
  split; [exact Hsame|].
  destruct (X22_summary_independent_of_orders _ _ "BTCUSDT" "LONG" Hsame)
    as (r & r' & Hr & Hr' & Hsummary & _).
  by exists r, r'.
Defined.

(** * The colored logger *)

Section ColoredLoggerFacts.
Import colored_logger.

Context {Record_ : Type}.
Variable base_format : string → string → Record_ → FormatResult.
Variable levelname : Record_ → string.

Lemma format_plain (self : Formatter) record :
  use_colors self = false →
  format base_format levelname self record
  = (base_format (_fmt self) (_style_fmt self) record, self).
Proof. intros Hc. unfold format. by rewrite Hc. Qed.

Lemma format_colored (self : Formatter) record :
  use_colors self = true →
  let first := level_format self (levelname record) in
  let second := fallback_format self (levelname record) in
  format base_format levelname self record
  = match base_format first first record with
    | Formatted line => (Formatted line, set_fmt (_fmt self) self)
    | OtherError => (OtherError, set_fmt first self)
    | UnicodeEncodeError =>
        match base_format second second record with
        | Formatted line => (Formatted line, set_fmt (_fmt self) self)
        | other => (other, set_fmt second self)
        end
    end.
Proof.
  intros Hc. unfold format, super_format, level_format, fallback_format.
  rewrite Hc. cbn.
  destruct (base_format _ _ record) eqn:Hfirst; [done| |done].
  by destruct (base_format _ _ record) eqn:Hsecond.
Qed.

(** The levels with a color format are those with an ASCII format. *)
Lemma formats_keys rt fmt uc level :
  formats (ColoredFormatter rt fmt uc) !! level = None →
  ascii_formats !! level = None.
Proof.
  intros Hnone.
  apply not_elem_of_list_to_map_2 in Hnone.
  apply not_elem_of_list_to_map_1. exact Hnone.
Qed.

(** X23. A [ColoredFormatter] that does not use colors (asked not to, or
    colorama missing) formats as [logging.Formatter] does with the format it
    was built with and is left untouched.  One that uses colors tries the
    level's color format and, after a [UnicodeEncodeError], the level's ASCII
    format; whenever the call returns a line the formatter is back to what
    it was built as. *)
Theorem X23_formatter_restored rt fmt uc record :
  let self := ColoredFormatter rt fmt uc in
  let run := format base_format levelname self record in
  let first := level_format self (levelname record) in
  let second := fallback_format self (levelname record) in
  (uc && COLORS_AVAILABLE rt = false →
   run = (base_format fmt fmt record, self))
  ∧ (∀ line, run.1 = Formatted line → run.2 = self)
  ∧ (uc && COLORS_AVAILABLE rt = true →
     run.1 = match base_format first first record with
             | UnicodeEncodeError => base_format second second record
             | other => other
             end).
Proof.
  intros self run first second.
  destruct (uc && COLORS_AVAILABLE rt) eqn:Hc.
  - assert (use_colors self = true) as Hu by exact Hc.
    pose proof (format_colored self record Hu) as Hrun.
    cbn zeta in Hrun. fold run first second in Hrun.
    split; [done|]. split.
    + intros line Hline. rewrite Hrun in Hline |- *.
      destruct (base_format first first record); [done| |done].
      by destruct (base_format second second record).
    + intros _. rewrite Hrun.
      destruct (base_format first first record); [done| |done].
      by destruct (base_format second second record).
  - assert (use_colors self = false) as Hu by exact Hc.
    pose proof (format_plain self record Hu) as Hrun. fold run in Hrun.
    split; [by intros _|]. split; [|done].
    intros line _. by rewrite Hrun.
Qed.

(** X24. [format] has no [finally]: when a formatter that uses colors lets
    an exception through, it keeps the format tried last as its own.  From
    then on a record of a level without a format of its own is formatted
    with that leftover format, and every later call that returns restores
    the leftover format, not the one the formatter was built with. *)
Theorem X24_formatter_keeps_format_after_error rt fmt record :
  let self := ColoredFormatter rt fmt true in
  let run := format base_format levelname self record in
  let first := level_format self (levelname record) in
  let second := fallback_format self (levelname record) in
  COLORS_AVAILABLE rt = true →
  raised run.1 →
  let left :=
    match base_format first first record with
    | UnicodeEncodeError => second
    | _ => first
    end in
  _fmt run.2 = left ∧ _style_fmt run.2 = left
  ∧ (∀ later,
       formats self !! levelname later = None →
       (format base_format levelname run.2 later).1
       = base_format left left later)
  ∧ (∀ later line,
       (format base_format levelname run.2 later).1 = Formatted line →
       _fmt (format base_format levelname run.2 later).2 = left).
Proof.
  intros self run first second Hav Hraised left.
  assert (use_colors self = true) as Hu by exact Hav.
  pose proof (format_colored self record Hu) as Hrun.
  cbn zeta in Hrun. fold run first second in Hrun.
  assert (run.2 = set_fmt left self) as Hleft.
  { rewrite Hrun in Hraised |- *. subst left.
    destruct (base_format first first record); [done| |done].
    by destruct (base_format second second record). }
  rewrite Hleft. split; [done|]. split; [done|].
  assert (use_colors (set_fmt left self) = true) as Hu' by exact Hav.
  split.
  - intros later Hnone.
    rewrite (format_colored _ later Hu'). cbn zeta.
    assert (level_format (set_fmt left self) (levelname later) = left) as Hl.
    { unfold level_format.
      change (formats (set_fmt left self)) with (formats self).
      by rewrite Hnone. }
    assert (ascii_formats !! levelname later = None) as Hascii.
    { by apply (formats_keys rt fmt true). }
    assert (fallback_format (set_fmt left self) (levelname later) = left)
      as Hf.
    { unfold fallback_format. by rewrite Hascii, Hl. }
    rewrite Hf, Hl.
    by destruct (base_format left left later).
  - intros later line.
    rewrite (format_colored _ later Hu'). cbn zeta.
    destruct (base_format _ _ later); [done| |done].
    by destruct (base_format _ _ later).
Qed.

End ColoredLoggerFacts.

Lemma X24_formatter_keeps_format_after_error_witness :
  let self := colored_logger.ColoredFormatter Cases.colors "%(message)s" true in
  let run :=
    colored_logger.format Cases.base_format Cases.levelname self
      ("ERROR", "broken") in
  colored_logger.COLORS_AVAILABLE Cases.colors = true
  ∧ colored_logger.raised run.1
  ∧ colored_logger._fmt run.2
    = "%(asctime)s - <red><bright>ERROR<reset> - <red><bright>%(message)s<reset>"
  ∧ (colored_logger.format Cases.base_format Cases.levelname run.2
       ("NOTICE", "started")).1
    = colored_logger.Formatted
        ("%(asctime)s - <red><bright>ERROR<reset> - <red><bright>%(message)s<reset>"
         ++ " | started").
Proof.
  intros self run.
  assert (colored_logger.COLORS_AVAILABLE Cases.colors = true) as Hav
    by reflexivity.
  assert (colored_logger.raised run.1) as Hraised by (vm_compute; exact I).
  destruct (X24_formatter_keeps_format_after_error Cases.base_format
              Cases.levelname Cases.colors "%(message)s" ("ERROR", "broken")
              Hav Hraised) as (Hfmt & _ & Hlater & _).
  split; [exact Hav|]. split; [exact Hraised|]. split.
  - exact Hfmt.
  - exact (Hlater ("NOTICE", "started") eq_refl).
Defined.

Section ColoredLoggerTexts.
Import colored_logger.

(** X25. On Windows every event method logs, at the same level, exactly the
    text it logs elsewhere when colorama is missing, whether or not colorama
    is installed: no color code and no symbol.  [shutdown] is the exception:
    it is labelled [WARNING] on Windows and [SHUTDOWN] elsewhere. *)
Theorem X25_windows_text_is_plain_text (pr : Printing) (c : option Colorama) :
  (∀ message, success (windows c) message = success plain message)
  ∧ (∀ symbol side qty price,
       trade_placed (windows c) pr symbol side qty price
       = trade_placed plain pr symbol side qty price)
  ∧ (∀ symbol side qty price pnl,
       trade_filled (windows c) pr symbol side qty price pnl
       = trade_filled plain pr symbol side qty price pnl)
  ∧ (∀ symbol reason,
       trade_failed (windows c) symbol reason = trade_failed plain symbol reason)
  ∧ (∀ symbol side qty price usdt_value volume_info,
       liquidation (windows c) pr symbol side qty price usdt_value volume_info
       = liquidation plain pr symbol side qty price usdt_value volume_info)
  ∧ (∀ symbol volume threshold,
       threshold_met (windows c) pr symbol volume threshold
       = threshold_met plain pr symbol volume threshold)
  ∧ (∀ event_type symbol tranche_id details,
       tranche_event (windows c) pr event_type symbol tranche_id details
       = tranche_event plain pr event_type symbol tranche_id details)
  ∧ (∀ symbol side qty entry_price current_pnl,
       position_update (windows c) pr symbol side qty entry_price current_pnl
       = position_update plain pr symbol side qty entry_price current_pnl)
  ∧ (∀ message, startup (windows c) message = startup plain message)
  ∧ (∀ message,
       shutdown (windows c) message = (INFO, "[WARNING] " ++ message)
       ∧ shutdown plain message = (INFO, "[SHUTDOWN] " ++ message)
       ∧ shutdown (windows c) message ≠ shutdown plain message).
Proof.
  split_and!.
  - done.
  - done.
  - done.
  - done.
  - intros. unfold liquidation. cbn.
    by destruct (Qltb 50000 usdt_value).
  - done.
  - intros. unfold tranche_event. cbn.
    by destruct (default _ _).
  - intros. unfold position_update. cbn.
    destruct (Qltb 0 current_pnl); [done|].
    by destruct (Qltb current_pnl 0).
  - done.
  - intros message. split_and!; [done..|].
    unfold shutdown. cbn. intros Heq. discriminate Heq.
Qed.

End ColoredLoggerTexts.

(** ** Further concrete runs *)

(** The read skips the flat position of the symbol and the position of
    another symbol, and reports the long position. *)
Example live_position_skips :
  live_position Cases.env_mixed_positions "BTCUSDT" = Some Sample.btc_long
  ∧ live_position Cases.env_mixed_positions "ETHUSDT" = Some Cases.eth_long
  ∧ live_position Cases.env_mixed_positions "XRPUSDT" = None.
Proof. by vm_compute. Qed.

(** With a live position, the figures are the position's whatever the
    two tranches of the ledger hold; with only a position of another
    symbol and a flat one in the exchange's answer, the figures are those
    of the two tranches and nothing of the answer enters them. *)
Example figures_of_one_source :
  (∃ r, outcome (get_position_details Sample.env_live "BTCUSDT" "LONG")
        = Returns r
        ∧ four_fields (summary r) = (Qabs 1.5, 30000, (31000 - 30000) * 1.5, 4500))
  ∧ (∃ r, outcome (get_position_details Cases.env_other_positions
                     "BTCUSDT" "LONG") = Returns r
          ∧ total_quantity (summary r) == 2
          ∧ avg_entry_price (summary r) == 110
          ∧ unrealized_pnl (summary r) == 5
          ∧ total_margin (summary r) == 22).
Proof.
  split; eexists; (split; [vm_compute; reflexivity|]); by vm_compute.
Qed.

(** A ledger without the tranche table gives an empty read: no tranche
    statement, no cache lookup, no tranche, a summary of zeros. *)
Example read_without_table :
  ∃ r, get_position_details Cases.env_no_table "BTCUSDT" "LONG"
       = ([GET_positionRisk; Execute SelectTableExists;
           Execute (SelectTrades "BTCUSDT" "LONG");
           Execute (SelectRelationships "BTCUSDT" "LONG");
           GET_openOrders "BTCUSDT"],
          Returns r)
       ∧ tranches r = []
       ∧ four_fields (summary r) = (0, 0, 0, 0)
       ∧ num_tranches (summary r) = 0%nat.
Proof. eexists. split; [vm_compute; reflexivity|]. by vm_compute. Qed.

(** The tranche entered by two orders shows the greater fill and the
    greater price of the two; the take-profit trade does not count. *)
Example entry_columns :
  ∃ r t, outcome (get_position_details Cases.env_entries "BTCUSDT" "LONG")
         = Returns r
         ∧ tranches r = [t]
         ∧ filled_qty t == 1
         ∧ actual_entry_price t == 101.
Proof. eexists _, _. split; [vm_compute; reflexivity|]. by vm_compute. Qed.

(** The texts of the logger with and without colors. *)
Example logger_texts :
  colored_logger.success Cases.colors "Connected"
  = (colored_logger.INFO, "<green><bright>[✓] Connected<reset>")
  ∧ colored_logger.success colored_logger.plain "Connected"
    = (colored_logger.INFO, "[SUCCESS] Connected")
  ∧ colored_logger.trade_failed Cases.colors "BTCUSDT" "margin"
    = (colored_logger.ERROR,
       "<red><bright><on white>[✗] Trade failed for BTCUSDT: margin<reset>")
  ∧ colored_logger.shutdown (colored_logger.windows (Some Cases.tags)) "Bye"
    = (colored_logger.INFO, "[WARNING] Bye").
Proof. by vm_compute. Qed.

(** A record that cannot be encoded with colors is formatted with the
    ASCII format of its level, and the formatter is as before. *)
Example formatter_fallback :
  let self := colored_logger.ColoredFormatter Cases.colors "%(message)s" true in
  colored_logger.format Cases.base_format Cases.levelname self
    ("WARNING", "snowman")
  = (colored_logger.Formatted "%(asctime)s - [WARNING] - %(message)s | snowman",
     self).
Proof. by vm_compute. Qed.
